(** * Bundler.ts: the bundle builder of tsproject

    A shallow embedding of [BundleBuilder], the second and current of the two
    bundlers that src/src/Bundler.ts holds, and the properties of its text
    assembly: span blanking, import deduplication, emission order and
    packaging. *)

From Stdlib Require Import ZArith Ascii String List Lia Bool.
From stdpp Require Import base option list gmap strings.

Local Open Scope Z_scope.

(** ** JavaScript strings

    A JavaScript string is a sequence of code units; the texts handled by the
    bundler are modelled by [string], one [ascii] per code unit. Offsets are
    JavaScript numbers holding integers, modelled by [Z]. *)

Module Js.

Abbreviation chars := String.list_ascii_of_string.

(** An argument of [substring] is clamped into [0 .. length]. *)
Definition clamp (len : nat) (i : Z) : nat := Nat.min (Z.to_nat i) len.

(** [s.substring(start, end)]: both arguments are clamped, and swapped when
    [start > end]. *)
Definition substring (s : string) (start end_ : Z) : string :=
  let len := String.length s in
  let a := clamp len start in
  let b := clamp len end_ in
  String.substring (Nat.min a b) (Nat.max a b - Nat.min a b) s.

(** [s.substring(start)]: up to the end of the string. *)
Definition substring_from (s : string) (start : Z) : string :=
  substring s start (Z.of_nat (String.length s)).

(** [for (var i = 0; i < n; i++) acc = body(acc)] *)
Definition for_lt {A} (n : Z) (body : A -> A) (acc : A) : A :=
  Nat.iter (Z.to_nat n) body acc.

(** Modelled from the spec: Utilities.ts is absent; [Utils.hasProperty(map,
    key)] tells whether [key] was recorded in an object used as a set of keys
    (the seen-set and the import registry of the specification). An object is
    modelled by the map of its own properties. *)
Definition hasProperty {V} (map : gmap string V) (key : string) : bool :=
  bool_decide (is_Some (map !! key)).

(** [__proto__] is an accessor of [Object.prototype]. On an object without an
    own property of that name, [obj["__proto__"] = v] creates none: it
    replaces the prototype of [obj] when [v] is an object and does nothing
    when [v] is a string, and [obj["__proto__"]] reads the prototype. With any
    other key an assignment creates or updates an own property. *)
Definition protoKey : string := "__proto__".

Definition isProtoKey (key : string) : bool := String.eqb key protoKey.

Definition LF : string := String "010"%char EmptyString.
Definition CR : string := String "013"%char EmptyString.
Definition space : ascii := " "%char.

End Js.

(** The character at offset [i] of a text. *)
Definition charAt (text : string) (i : nat) : option ascii := String.get i text.

(** [pos, end_) is a span of [text]: offsets into the text, in order. *)
Definition is_span (text : string) (pos end_ : Z) : Prop :=
  0 <= pos /\ pos <= end_ /\ end_ <= Z.of_nat (String.length text).

(** ** BundleBuilder.whiteOut (Bundler.ts, lines 512-524) *)

Definition whiteOut (pos end_ : Z) (text : string) : string :=
  let length := end_ - pos in
  let whiteSpace := Js.for_lt length (fun w => w +:+ " ") "" in
  let prefix := Js.substring text 0 pos in
  let suffix := Js.substring_from text end_ in
  prefix +:+ whiteSpace +:+ suffix.

(** ** The TypeScript front end, as the bundler reads it

    Nodes, symbols and source files belong to the TypeScript compiler API.
    Only the fields that Bundler.ts reads are kept. A declaration refers to
    its source file by name, so that import cycles can be written down. *)

Module ts.

Module SyntaxKind.
Inductive t :=
| StringLiteral | Identifier | QualifiedName
| ExportKeyword | DeclareKeyword | DefaultKeyword | OtherKeyword
| ImportDeclaration | ImportEqualsDeclaration | ExportDeclaration
| ModuleDeclaration | ExternalModuleReference
| NamespaceImport | NamedImports
| SourceFile | OtherStatement.
#[global] Instance eq_dec : EqDecision t.
Proof. solve_decision. Defined.
End SyntaxKind.

(** Bit masks of [ts.NodeFlags]. *)
Module NodeFlags.
Definition Export : Z := 1.
Definition Ambient : Z := 2.
Definition DeclarationFile : Z := 2048.
End NodeFlags.

Inductive LanguageVariant := Standard | JSX.
Inductive DiagnosticCategory := Warning | Error | Message.
Inductive ExitStatus :=
| Success | DiagnosticsPresent_OutputsSkipped | DiagnosticsPresent_OutputsGenerated.

#[global] Instance LanguageVariant_eq_dec : EqDecision LanguageVariant.
Proof. solve_decision. Defined.

(** [flags & mask] read as a condition. *)
Definition hasFlag (flags mask : Z) : bool := negb (Z.land flags mask =? 0).

Record Modifier := {
  mod_kind : SyntaxKind.t;
  mod_pos : Z;
  mod_end : Z }.

(** What [symbol.getDeclarations()[i]] exposes: [kind], [flags] and
    [getSourceFile()], the latter by file name. *)
Record Declaration := {
  decl_kind : SyntaxKind.t;
  decl_flags : Z;
  decl_sourceFile : string }.

Record Symbol := { getDeclarations : list Declaration }.

(** A module-name expression: [kind], [text] (the literal's value),
    [getText()] (its source text, quotes included) and the symbol that
    [program.getTypeChecker().getSymbolAtLocation] answers for it. *)
Record Expression := {
  expr_kind : SyntaxKind.t;
  expr_text : string;
  expr_getText : string;
  expr_symbol : option Symbol }.

(** [{ propertyName as name }] *)
Record ImportSpecifier := {
  propertyName : option string;
  spec_name : string }.

Inductive NamedImportBindings :=
| NamespaceImport (name : string)
| NamedImports (elements : list ImportSpecifier).

Record ImportClause := {
  clause_name : option string;
  namedBindings : option NamedImportBindings }.

Inductive ModuleReference :=
| ExternalModuleReference (expression : Expression)
| EntityName (getText : string).

(** The statement kinds that Bundler.ts tells apart. *)
Inductive Statement :=
| ImportDeclaration (importClause : option ImportClause) (moduleSpecifier : Expression)
| ImportEqualsDeclaration (name : string) (moduleReference : ModuleReference)
| ExportDeclaration (moduleSpecifier : option Expression)
| ModuleDeclaration (name_getText : string)
| OtherStatement.

Record Node := {
  pos : Z;
  end_ : Z;
  flags : Z;
  modifiers : list Modifier;
  getText : string;
  stmt : Statement }.

Definition kind (node : Node) : SyntaxKind.t :=
  match stmt node with
  | ImportDeclaration _ _ => SyntaxKind.ImportDeclaration
  | ImportEqualsDeclaration _ _ => SyntaxKind.ImportEqualsDeclaration
  | ExportDeclaration _ => SyntaxKind.ExportDeclaration
  | ModuleDeclaration _ => SyntaxKind.ModuleDeclaration
  | OtherStatement => SyntaxKind.OtherStatement
  end.

(** A source file; [statements] are the children that [ts.forEachChild]
    visits. Its [kind] is always [SyntaxKind.SourceFile]. *)
Record SourceFile := {
  fileName : string;
  text : string;
  sf_flags : Z;
  languageVariant : LanguageVariant;
  statements : list Node }.

Definition sf_kind (file : SourceFile) : SyntaxKind.t := SyntaxKind.SourceFile.

(** A program is its list of source files; [getSourceFile] finds one by
    name. *)
Record Program := { getSourceFiles : list SourceFile }.

Definition getSourceFile (program : Program) (name : string) : option SourceFile :=
  List.find (fun f => String.eqb (fileName f) name) (getSourceFiles program).

End ts.

(** ** Collaborators of the bundle builder that are not part of Bundler.ts *)

(** Modelled from the spec: BundlePackage.ts is absent; the packaging type is
    one of Library and Component. *)
Inductive BundlePackageType := Library | Component.

#[global] Instance BundlePackageType_eq_dec : EqDecision BundlePackageType.
Proof. solve_decision. Defined.

Record BundlePackage := {
  getPackageType : BundlePackageType;
  getPackageNamespace : string }.

Record BundleConfig := {
  outDir : option string;
  package : BundlePackage }.

(** Modelled from the spec: BundleParser.ts is absent; a bundle is an ordered
    sequence of entry file names, a name and its packaging configuration. *)
Record Bundle := {
  name : string;
  fileNames : list string;
  config : BundleConfig }.

(** Modelled from the spec: a diagnostic has a numeric code, a category and a
    message template with positional arguments ([TsCore.createDiagnostic] is
    absent). *)
Record Diagnostic := {
  code : Z;
  category : ts.DiagnosticCategory;
  key : string;
  message : string;
  arguments : list string }.

Definition createDiagnostic (code : Z) (category : ts.DiagnosticCategory)
    (key message : string) (args : list string) : Diagnostic :=
  {| code := code; category := category; key := key; message := message;
     arguments := args |}.

Record BundleFile := {
  path : string;
  extension : string;
  bundle_text : string }.

(** Modelled from the spec: BundleResult.ts is absent; a result holds the
    arguments of [new BundleResult(status, errors?, bundleSource?)]: a failure
    carries diagnostics, a success the bundle file. *)
Record BundleResult := {
  status : ts.ExitStatus;
  errors : option (list Diagnostic);
  bundleSource : option BundleFile }.

(** The host, Node's [path] module and [TsCore.normalizeSlashes]. *)
Record Host := {
  getCanonicalFileName : string -> string;
  normalizeSlashes : string -> string;
  path_dirname : string -> string;
  path_basename : string -> string;
  path_join : string -> string -> string }.

(** [DependencyBuilder.getSourceFileDependencies]: an object from keys to
    import nodes, listed in the order in which [for .. in] enumerates it. *)
Definition Dependencies := list (string * list ts.Node).

(** ** Builder state and its monad

    The fields of [BundleBuilder] that [build] resets and then mutates. An
    object used as a map is the map of its own properties;
    [bundleModuleImportsProto] is the prototype of [bundleModuleImports] once
    an assignment (line 379, with the module name [__proto__]) has replaced
    [Object.prototype]. [bundleImportedFiles] and [bundleSourceFiles] are keyed
    by the file names of source files of the program. The two histories are
    not fields of the source: they record, in order, each source file whose
    edited text was appended to [bundleCodeText] and each statement appended
    to [bundleImportText] together with the binding names written into it. *)

Record ImportEmission := {
  em_module : string;
  em_bindings : list string;
  em_text : string }.

Record BundleBuilder := {
  bundleCodeText : string;
  bundleImportText : string;
  bundleImportedFiles : gmap string string;
  bundleModuleImports : gmap string (gmap string string);
  bundleModuleImportsProto : option (gmap string string);
  bundleSourceFiles : gmap string string;
  emittedUnits : list ts.SourceFile;
  emittedImports : list ImportEmission }.

(** A call either completes with a value or throws (reading a property of
    [undefined]). *)
Inductive JsError := TypeError.

Inductive Completion (A : Type) :=
| Normal (a : A)
| Throw (e : JsError).
Arguments Normal {A} a.
Arguments Throw {A} e.

Definition M (A : Type) : Type := BundleBuilder -> Completion (A * BundleBuilder).

Definition ret {A} (a : A) : M A := fun s => Normal (a, s).

Definition bind {A B} (c : M A) (k : A -> M B) : M B :=
  fun s => match c s with
           | Normal (a, s') => k a s'
           | Throw e => Throw e
           end.

Definition lift {A} (c : Completion A) : M A :=
  fun s => match c with
           | Normal a => Normal (a, s)
           | Throw e => Throw e
           end.

Definition gets {A} (f : BundleBuilder -> A) : M A := fun s => Normal (f s, s).
Definition modify (f : BundleBuilder -> BundleBuilder) : M unit := fun s => Normal (tt, f s).

Declare Scope builder_scope.
Delimit Scope builder_scope with builder.
Notation "x <- c ;; k" := (bind c (fun x => k))
  (at level 100, c at next level, right associativity) : builder_scope.
Notation "c ;; k" := (bind c (fun _ => k))
  (at level 100, right associativity) : builder_scope.
Local Open Scope builder_scope.

(** [list.forEach(f)] *)
Fixpoint forEach {A} (l : list A) (f : A -> M unit) : M unit :=
  match l with
  | [] => ret tt
  | x :: rest => f x ;; forEach rest f
  end.

(** [ts.forEachChild] with a callback that threads [acc] and may throw. *)
Fixpoint forEachChild {A B} (children : list A) (f : B -> A -> Completion B) (acc : B)
    : Completion B :=
  match children with
  | [] => Normal acc
  | child :: rest =>
      match f acc child with
      | Normal acc' => forEachChild rest f acc'
      | Throw e => Throw e
      end
  end.

Definition set_bundleCodeText (v : string) (s : BundleBuilder) : BundleBuilder :=
  {| bundleCodeText := v; bundleImportText := bundleImportText s;
     bundleImportedFiles := bundleImportedFiles s;
     bundleModuleImports := bundleModuleImports s;
     bundleModuleImportsProto := bundleModuleImportsProto s;
     bundleSourceFiles := bundleSourceFiles s;
     emittedUnits := emittedUnits s; emittedImports := emittedImports s |}.

Definition set_bundleImportText (v : string) (s : BundleBuilder) : BundleBuilder :=
  {| bundleCodeText := bundleCodeText s; bundleImportText := v;
     bundleImportedFiles := bundleImportedFiles s;
     bundleModuleImports := bundleModuleImports s;
     bundleModuleImportsProto := bundleModuleImportsProto s;
     bundleSourceFiles := bundleSourceFiles s;
     emittedUnits := emittedUnits s; emittedImports := emittedImports s |}.

Definition set_bundleImportedFiles (v : gmap string string) (s : BundleBuilder)
    : BundleBuilder :=
  {| bundleCodeText := bundleCodeText s; bundleImportText := bundleImportText s;
     bundleImportedFiles := v;
     bundleModuleImports := bundleModuleImports s;
     bundleModuleImportsProto := bundleModuleImportsProto s;
     bundleSourceFiles := bundleSourceFiles s;
     emittedUnits := emittedUnits s; emittedImports := emittedImports s |}.

Definition set_bundleModuleImports (v : gmap string (gmap string string))
    (s : BundleBuilder) : BundleBuilder :=
  {| bundleCodeText := bundleCodeText s; bundleImportText := bundleImportText s;
     bundleImportedFiles := bundleImportedFiles s;
     bundleModuleImports := v;
     bundleModuleImportsProto := bundleModuleImportsProto s;
     bundleSourceFiles := bundleSourceFiles s;
     emittedUnits := emittedUnits s; emittedImports := emittedImports s |}.

Definition set_bundleModuleImportsProto (v : option (gmap string string))
    (s : BundleBuilder) : BundleBuilder :=
  {| bundleCodeText := bundleCodeText s; bundleImportText := bundleImportText s;
     bundleImportedFiles := bundleImportedFiles s;
     bundleModuleImports := bundleModuleImports s;
     bundleModuleImportsProto := v;
     bundleSourceFiles := bundleSourceFiles s;
     emittedUnits := emittedUnits s; emittedImports := emittedImports s |}.

Definition set_bundleSourceFiles (v : gmap string string) (s : BundleBuilder)
    : BundleBuilder :=
  {| bundleCodeText := bundleCodeText s; bundleImportText := bundleImportText s;
     bundleImportedFiles := bundleImportedFiles s;
     bundleModuleImports := bundleModuleImports s;
     bundleModuleImportsProto := bundleModuleImportsProto s;
     bundleSourceFiles := v;
     emittedUnits := emittedUnits s; emittedImports := emittedImports s |}.

Definition note_unit (file : ts.SourceFile) (s : BundleBuilder) : BundleBuilder :=
  {| bundleCodeText := bundleCodeText s; bundleImportText := bundleImportText s;
     bundleImportedFiles := bundleImportedFiles s;
     bundleModuleImports := bundleModuleImports s;
     bundleModuleImportsProto := bundleModuleImportsProto s;
     bundleSourceFiles := bundleSourceFiles s;
     emittedUnits := emittedUnits s ++ [file]; emittedImports := emittedImports s |}.

Definition note_import (e : ImportEmission) (s : BundleBuilder) : BundleBuilder :=
  {| bundleCodeText := bundleCodeText s; bundleImportText := bundleImportText s;
     bundleImportedFiles := bundleImportedFiles s;
     bundleModuleImports := bundleModuleImports s;
     bundleModuleImportsProto := bundleModuleImportsProto s;
     bundleSourceFiles := bundleSourceFiles s;
     emittedUnits := emittedUnits s; emittedImports := emittedImports s ++ [e] |}.

(** The state at the top of [build] (lines 247-252), with empty histories. *)
Definition reset : BundleBuilder :=
  {| bundleCodeText := ""; bundleImportText := "";
     bundleImportedFiles := ∅; bundleModuleImports := ∅;
     bundleModuleImportsProto := None; bundleSourceFiles := ∅;
     emittedUnits := []; emittedImports := [] |}.

(** ** BundleBuilder (Bundler.ts, lines 207-586)

    Timers, logging and [reportStatistics] do not reach the result and are
    left out. [this.bundle], assigned on entry of [build], is passed on as an
    argument to the methods that read it. *)

Section BundleBuilder.

Variable host : Host.
Variable program : ts.Program.
Variable getSourceFileDependencies : ts.SourceFile -> Dependencies.

(** lines 552-555 *)
Definition isCodeSourceFile (file : ts.SourceFile) : bool :=
  bool_decide (ts.sf_kind file = ts.SyntaxKind.SourceFile)
  && negb (ts.hasFlag (ts.sf_flags file) ts.NodeFlags.DeclarationFile).

(** [importSymbol.getDeclarations()[0]], followed in every use by a property
    read, which throws on [undefined]. *)
Definition firstDeclaration (importSymbol : option ts.Symbol)
    : Completion ts.Declaration :=
  match importSymbol with
  | None => Throw TypeError
  | Some symbol =>
      match ts.getDeclarations symbol with
      | [] => Throw TypeError
      | declaration :: _ => Normal declaration
      end
  end.

(** lines 557-562 *)
Definition isCodeModule (importSymbol : option ts.Symbol) : Completion bool :=
  match firstDeclaration importSymbol with
  | Normal declaration =>
      Normal (bool_decide (ts.decl_kind declaration = ts.SyntaxKind.SourceFile)
              && negb (ts.hasFlag (ts.decl_flags declaration) ts.NodeFlags.DeclarationFile))
  | Throw e => Throw e
  end.

(** lines 564-568 *)
Definition isAmbientModule (importSymbol : option ts.Symbol) : Completion bool :=
  match firstDeclaration importSymbol with
  | Normal declaration =>
      Normal (bool_decide (ts.decl_kind declaration = ts.SyntaxKind.ModuleDeclaration)
              && (0 <? Z.land (ts.decl_flags declaration) ts.NodeFlags.Ambient))
  | Throw e => Throw e
  end.

(** [this.isAmbientModule] read without a call (line 478): a function
    object, which is truthy. *)
Definition isAmbientModule_reference : bool := true.

(** [declaration.getSourceFile()], then a property read of the result. *)
Definition getSourceFileOf (declaration : ts.Declaration) : Completion ts.SourceFile :=
  match ts.getSourceFile program (ts.decl_sourceFile declaration) with
  | Some file => Normal file
  | None => Throw TypeError
  end.

(** Modelled from the spec: [TsCore.getExternalModuleName] is absent; it
    gives the module specifier of an import or export node, if it has one. *)
Definition getExternalModuleName (node : ts.Node) : option ts.Expression :=
  match ts.stmt node with
  | ts.ImportDeclaration _ moduleSpecifier => Some moduleSpecifier
  | ts.ImportEqualsDeclaration _ (ts.ExternalModuleReference expression) => Some expression
  | ts.ImportEqualsDeclaration _ (ts.EntityName _) => None
  | ts.ExportDeclaration moduleSpecifier => moduleSpecifier
  | ts.ModuleDeclaration _ | ts.OtherStatement => None
  end.

(** lines 571-577 *)
Definition getSymbolFromNode (node : ts.Node) : option ts.Symbol :=
  match getExternalModuleName node with
  | Some moduleNameExpr =>
      if bool_decide (ts.expr_kind moduleNameExpr = ts.SyntaxKind.StringLiteral)
      then ts.expr_symbol moduleNameExpr
      else None
  | None => None
  end.

(** lines 364-374 *)
Definition getImportModuleName (moduleReference : ts.ModuleReference) : string :=
  match moduleReference with
  | ts.ExternalModuleReference expression => ts.expr_text expression
  | ts.EntityName getText => getText
  end.

(** [this.bundleModuleImports[moduleName] = {}] (line 379), reached when the
    registry has no own property [moduleName]: with [__proto__] the new object
    becomes the prototype of the registry and no own property is created. *)
Definition newModuleImports (moduleName : string) : M unit :=
  if Js.isProtoKey moduleName
  then modify (set_bundleModuleImportsProto (Some ∅))
  else modify (fun s => set_bundleModuleImports
                          (<[moduleName := ∅]> (bundleModuleImports s)) s).

(** [this.bundleModuleImports[moduleName]] (line 382): the own property, or
    with [__proto__] the prototype. After line 379 one of the two is there;
    the value read otherwise is never used. *)
Definition getModuleImports (moduleName : string) (s : BundleBuilder)
    : gmap string string :=
  match bundleModuleImports s !! moduleName with
  | Some moduleImports => moduleImports
  | None =>
      if Js.isProtoKey moduleName then default ∅ (bundleModuleImportsProto s) else ∅
  end.

(** [moduleImports[importName] = importName] (line 385), reached when
    [moduleImports] has no own property [importName]: the string assigned to
    [__proto__] is dropped; any other name becomes an own property of the
    object read at line 382, which the registry holds under [moduleName] or
    as its prototype. *)
Definition setModuleImport (moduleName importName : string) : M unit :=
  if Js.isProtoKey importName then ret tt
  else
    modify (fun s =>
      match bundleModuleImports s !! moduleName with
      | Some moduleImports =>
          set_bundleModuleImports
            (<[moduleName := <[importName := importName]> moduleImports]>
               (bundleModuleImports s)) s
      | None =>
          if Js.isProtoKey moduleName
          then set_bundleModuleImportsProto
                 (Some (<[importName := importName]>
                          (default ∅ (bundleModuleImportsProto s)))) s
          else s
      end).

(** lines 376-391 *)
Definition addModuleImport (moduleName importName : string) : M bool :=
  registry <- gets bundleModuleImports ;;
  (if negb (Js.hasProperty registry moduleName)
   then newModuleImports moduleName
   else ret tt) ;;
  moduleImports <- gets (getModuleImports moduleName) ;;
  if negb (Js.hasProperty moduleImports importName)
  then
    setModuleImport moduleName importName ;;
    ret true
  else ret false.

(** lines 526-530 *)
Definition emitModuleImportDeclaration (moduleBlockText : string) : M unit :=
  modify (fun s => set_bundleImportText
                     (bundleImportText s +:+ (moduleBlockText +:+ Js.LF)) s).

(** The callback of [Utils.forEach] over the named imports (lines 432-450);
    [acc] holds [importToWrite], [hasNamedBindings] and the names written. *)
Definition writeNamedImport (moduleName : string)
    (acc : string * bool * list string) (element : ts.ImportSpecifier)
    : M (string * bool * list string) :=
  let '(importToWrite, hasNamedBindings, written) := acc in
  fresh <- addModuleImport moduleName (ts.spec_name element) ;;
  if fresh : bool then
    let importToWrite :=
      if negb hasNamedBindings then importToWrite else importToWrite +:+ ", " in
    let importToWrite :=
      match ts.propertyName element with
      | Some alias => importToWrite +:+ (alias +:+ " as " +:+ ts.spec_name element)
      | None => importToWrite +:+ ts.spec_name element
      end in
    ret (importToWrite, true, written ++ [ts.spec_name element])
  else ret acc.

Fixpoint writeNamedImports (moduleName : string) (elements : list ts.ImportSpecifier)
    (acc : string * bool * list string) : M (string * bool * list string) :=
  match elements with
  | [] => ret acc
  | element :: rest =>
      acc' <- writeNamedImport moduleName acc element ;;
      writeNamedImports moduleName rest acc'
  end.

(** The default binding of an import clause (lines 405-410). *)
Definition writeDefaultBinding (moduleName : string) (importClause : ts.ImportClause)
    : M (string * bool * list string) :=
  let importToWrite := "import " in
  match ts.clause_name importClause with
  | Some name =>
      fresh <- addModuleImport moduleName name ;;
      if fresh : bool
      then ret (importToWrite +:+ name, true, [name])
      else ret (importToWrite, false, [])
  | None => ret (importToWrite, false, [])
  end.

(** The namespace import or the named imports of an import clause
    (lines 412-455). *)
Definition writeNamedBindings (moduleName : string) (importClause : ts.ImportClause)
    (importToWrite : string) (hasDefaultBinding : bool) (written : list string)
    : M (string * bool * list string) :=
  match ts.namedBindings importClause with
  | Some (ts.NamespaceImport name) =>
      fresh <- addModuleImport moduleName name ;;
      if fresh : bool then
        let importToWrite :=
          if hasDefaultBinding : bool
          then importToWrite +:+ ", " else importToWrite in
        ret (importToWrite +:+ "* as " +:+ name, true, written ++ [name])
      else ret (importToWrite, false, written)
  | Some (ts.NamedImports elements) =>
      let importToWrite :=
        if hasDefaultBinding : bool
        then importToWrite +:+ ", " else importToWrite in
      let importToWrite := importToWrite +:+ "{ " in
      r <- writeNamedImports moduleName elements (importToWrite, false, written) ;;
      let '(importToWrite, hasNamedBindings, written) := r in
      ret (importToWrite +:+ " }", hasNamedBindings, written)
  | None => ret (importToWrite, false, written)
  end.

(** lines 393-463 *)
Definition writeImportDeclaration (node : ts.Node) : M unit :=
  match ts.stmt node with
  | ts.ImportDeclaration (Some importClause) moduleSpecifier =>
      let moduleName := ts.expr_text moduleSpecifier in
      r <- writeDefaultBinding moduleName importClause ;;
      let '(importToWrite, hasDefaultBinding, written) := r in
      r <- writeNamedBindings moduleName importClause
             importToWrite hasDefaultBinding written ;;
      let '(importToWrite, hasNamedBindings, written) := r in
      let importToWrite := importToWrite +:+ " from " in
      let importToWrite := importToWrite +:+ ts.expr_getText moduleSpecifier in
      let importToWrite := importToWrite +:+ ";" in
      if hasDefaultBinding || hasNamedBindings then
        emitModuleImportDeclaration importToWrite ;;
        modify (note_import {| em_module := moduleName; em_bindings := written;
                               em_text := importToWrite |})
      else ret tt
  | _ => ret tt
  end.

Definition isImportOrExport (node : ts.Node) : bool :=
  bool_decide (ts.kind node = ts.SyntaxKind.ImportDeclaration)
  || bool_decide (ts.kind node = ts.SyntaxKind.ImportEqualsDeclaration)
  || bool_decide (ts.kind node = ts.SyntaxKind.ExportDeclaration).

(** [node.modifiers[0]], followed by a read of its [pos]. *)
Definition firstModifier (node : ts.Node) : Completion ts.Modifier :=
  match ts.modifiers node with
  | [] => Throw TypeError
  | modifier :: _ => Normal modifier
  end.

(** The callback of [ts.forEachChild] in [processImportExports]
    (lines 469-507). *)
Definition processChild (bundle : Bundle) (editText : string) (node : ts.Node)
    : Completion string :=
  if isImportOrExport node then
    match getExternalModuleName node with
    | Some moduleNameExpression =>
        if bool_decide (ts.expr_kind moduleNameExpression = ts.SyntaxKind.StringLiteral)
        then
          match ts.expr_symbol moduleNameExpression with
          | Some moduleSymbol =>
              match isCodeModule (Some moduleSymbol) with
              | Normal isCode =>
                  if isCode || isAmbientModule_reference
                  then Normal (whiteOut (ts.pos node) (ts.end_ node) editText)
                  else Normal editText
              | Throw e => Throw e
              end
          | None => Normal editText
          end
        else Normal editText
    | None => Normal editText
    end
  else if bool_decide (getPackageType (package (config bundle)) = Component) then
    match ts.stmt node with
    | ts.ModuleDeclaration name_getText =>
        if negb (String.eqb name_getText (getPackageNamespace (package (config bundle))))
        then
          if ts.hasFlag (ts.flags node) ts.NodeFlags.Export then
            match firstModifier node with
            | Normal nodeModifier =>
                Normal (whiteOut (ts.mod_pos nodeModifier) (ts.mod_end nodeModifier) editText)
            | Throw e => Throw e
            end
          else Normal editText
        else Normal editText
    | _ =>
        if ts.hasFlag (ts.flags node) ts.NodeFlags.Export then
          match firstModifier node with
          | Normal exportModifier =>
              Normal (whiteOut (ts.mod_pos exportModifier) (ts.mod_end exportModifier) editText)
          | Throw e => Throw e
          end
        else Normal editText
    end
  else Normal editText.

(** lines 465-510 *)
Definition processImportExports (bundle : Bundle) (file : ts.SourceFile)
    : Completion string :=
  forEachChild (ts.statements file) (processChild bundle) (ts.text file).

(** lines 532-550 *)
Definition addSourceFile (bundle : Bundle) (file : ts.SourceFile) : M unit :=
  if isCodeSourceFile file then
    editText <- lift (processImportExports bundle file) ;;
    modify (fun s => set_bundleCodeText (bundleCodeText s +:+ (editText +:+ Js.LF)) s) ;;
    modify (fun s => set_bundleImportedFiles
                       (<[ts.fileName file := ts.fileName file]> (bundleImportedFiles s)) s) ;;
    modify (note_unit file)
  else
    sources <- gets bundleSourceFiles ;;
    if negb (Js.hasProperty sources (ts.fileName file))
    then modify (set_bundleSourceFiles (<[ts.fileName file := ts.text file]> sources))
    else ret tt.

(** The callback of [forEach] over the import nodes of one dependency key
    (lines 300-330). *)
Definition processImportNode (bundle : Bundle) (importNode : ts.Node) : M unit :=
  let importSymbol := getSymbolFromNode importNode in
  isCode <- lift (isCodeModule importSymbol) ;;
  if isCode : bool then
    declaration <- lift (firstDeclaration importSymbol) ;;
    importedSource <- lift (getSourceFileOf declaration) ;;
    let importedSourceFileName := ts.fileName importedSource in
    imported <- gets bundleImportedFiles ;;
    if negb (Js.hasProperty imported importedSourceFileName)
    then addSourceFile bundle importedSource
    else ret tt
  else
    match ts.stmt importNode with
    | ts.ImportEqualsDeclaration importName moduleReference =>
        let moduleName := getImportModuleName moduleReference in
        fresh <- addModuleImport moduleName importName ;;
        if fresh : bool then
          emitModuleImportDeclaration (ts.getText importNode) ;;
          modify (note_import {| em_module := moduleName; em_bindings := [importName];
                                 em_text := ts.getText importNode |})
        else ret tt
    | _ => writeImportDeclaration importNode
    end.

(** lines 298-331 *)
Definition traverseDependencies (bundle : Bundle) (sourceDependencies : Dependencies)
    : M unit :=
  forEach sourceDependencies
    (fun '(depKey, importNodes) => forEach importNodes (processImportNode bundle)).

(** lines 289-293 *)
Definition mergeDependencies (allDependencies : gmap string (list ts.Node))
    (sourceDependencies : Dependencies) : gmap string (list ts.Node) :=
  fold_left
    (fun all '(mergeKey, nodes) =>
       if negb (Js.hasProperty all mergeKey) then <[mergeKey := nodes]> all else all)
    sourceDependencies allDependencies.

Definition sourceFileNotFound (bundleSourceFileName : string) : BundleResult :=
  let diagnostic :=
    createDiagnostic 6060 ts.Error "Bundle_source_file_0_not_found_6060"
      "Bundle source file '{0}' not found." [bundleSourceFileName] in
  {| status := ts.DiagnosticsPresent_OutputsSkipped;
     errors := Some [diagnostic];
     bundleSource := None |}.

(** The loop over [bundle.fileNames] (lines 261-337). It either leaves
    [build] with a result ([inl]) or runs to its end with [isBundleTsx]. *)
Fixpoint forEachBundleFile (bundle : Bundle) (fileNames : list string)
    (isBundleTsx : bool) (allDependencies : gmap string (list ts.Node))
    : M (BundleResult + bool) :=
  match fileNames with
  | [] => ret (inr isBundleTsx)
  | fileName :: rest =>
      let bundleSourceFileName :=
        getCanonicalFileName host (normalizeSlashes host fileName) in
      match ts.getSourceFile program bundleSourceFileName with
      | None => ret (inl (sourceFileNotFound bundleSourceFileName))
      | Some bundleSourceFile =>
          let isBundleTsx :=
            if bool_decide (ts.languageVariant bundleSourceFile = ts.JSX)
            then true else isBundleTsx in
          let sourceDependencies := getSourceFileDependencies bundleSourceFile in
          let allDependencies := mergeDependencies allDependencies sourceDependencies in
          traverseDependencies bundle sourceDependencies ;;
          addSourceFile bundle bundleSourceFile ;;
          forEachBundleFile bundle rest isBundleTsx allDependencies
      end
  end.

(** [if ( bundle.config.outDir )]: an absent or empty string is falsy. *)
Definition truthy (s : option string) : bool :=
  match s with
  | Some s => negb (String.eqb s "")
  | None => false
  end.

Definition bundleFilePath (bundle : Bundle) : string :=
  let bundleBaseDir := path_dirname host (name bundle) in
  let bundleBaseDir :=
    if truthy (outDir (config bundle))
    then path_join host bundleBaseDir (default "" (outDir (config bundle)))
    else bundleBaseDir in
  normalizeSlashes host (path_join host bundleBaseDir (path_basename host (name bundle))).

(** lines 339-350 *)
Definition assemble (bundle : Bundle) (importText codeText : string) : string :=
  let bundleText := importText in
  if bool_decide (getPackageType (package (config bundle)) = Library) then
    let bundleText :=
      bundleText +:+ ("export namespace " +:+ getPackageNamespace (package (config bundle))
                      +:+ " {" +:+ Js.CR +:+ Js.LF) in
    let bundleText := bundleText +:+ codeText in
    bundleText +:+ (" " +:+ Js.CR +:+ Js.LF +:+ "}")
  else bundleText +:+ codeText.

(** lines 231-362 *)
Definition build (bundle : Bundle) : M BundleResult :=
  let bundleFilePath := bundleFilePath bundle in
  modify (fun _ => reset) ;;
  outcome <- forEachBundleFile bundle (fileNames bundle) false ∅ ;;
  match outcome with
  | inl result => ret result
  | inr isBundleTsx =>
      importText <- gets bundleImportText ;;
      codeText <- gets bundleCodeText ;;
      let bundleText := assemble bundle importText codeText in
      let bundleExtension := if isBundleTsx : bool then ".tsx" else ".ts" in
      let bundleFile :=
        {| path := bundleFilePath +:+ bundleExtension;
           extension := bundleExtension;
           bundle_text := bundleText |} in
      ret {| status := ts.Success; errors := None; bundleSource := Some bundleFile |}
  end.

End BundleBuilder.

(** ** Notions used to state the properties *)

(** The names of the source files whose text was appended to the body, in
    order of emission. *)
Definition emittedNames (s : BundleBuilder) : list string :=
  map ts.fileName (emittedUnits s).


(** The pair is recorded in the registry of [addModuleImport]. *)
Definition registered (moduleName importName : string) (s : BundleBuilder) : bool :=
  match bundleModuleImports s !! moduleName with
  | Some moduleImports => Js.hasProperty moduleImports importName
  | None => false
  end.

(** A first call of [addModuleImport] for the pair records it: the import
    name is not [__proto__], and the module name is not [__proto__] either
    (unless the registry has an own property of that name, which no
    assignment creates). *)
Definition records (moduleName importName : string) (s : BundleBuilder) : bool :=
  negb (Js.isProtoKey importName)
  && (negb (Js.isProtoKey moduleName)
      || Js.hasProperty (bundleModuleImports s) moduleName).

(** [addModuleImport] called on each pair in turn; the list of its answers. *)
Fixpoint registerAll (calls : list (string * string)) : M (list bool) :=
  match calls with
  | [] => ret []
  | (moduleName, importName) :: rest =>
      b <- addModuleImport moduleName importName ;;
      bs <- registerAll rest ;;
      ret (b :: bs)
  end.

Definition is_spanb (text : string) (pos end_ : Z) : bool :=
  (0 <=? pos) && (pos <=? end_) && (end_ <=? Z.of_nat (String.length text)).

(** The [export] keyword among the modifiers of a node. *)
Definition exportModifier (node : ts.Node) : option ts.Modifier :=
  List.find (fun m => bool_decide (ts.mod_kind m = ts.SyntaxKind.ExportKeyword))
    (ts.modifiers node).

Definition isExported (node : ts.Node) : bool :=
  ts.hasFlag (ts.flags node) ts.NodeFlags.Export.

(** Invariants of a TypeScript syntax tree: the span of a node lies in the
    text; a resolved symbol has a declaration; a node flagged [Export] has
    modifiers, the first of which, whatever its kind, lies inside the node. *)
Definition wellFormedNode (text : string) (node : ts.Node) : bool :=
  is_spanb text (ts.pos node) (ts.end_ node)
  && match getExternalModuleName node with
     | Some e =>
         match ts.expr_symbol e with
         | Some symbol => negb (bool_decide (ts.getDeclarations symbol = []))
         | None => true
         end
     | None => true
     end
  && (if isExported node then
        match ts.modifiers node with
        | m :: _ =>
            (ts.pos node <=? ts.mod_pos m) && (ts.mod_pos m <=? ts.mod_end m)
            && (ts.mod_end m <=? ts.end_ node)
        | [] => false
        end
      else true).

(** Top-level statements follow one another in the text. *)
Fixpoint consecutive (nodes : list ts.Node) : bool :=
  match nodes with
  | a :: rest =>
      match rest with
      | b :: _ => (ts.end_ a <=? ts.pos b) && consecutive rest
      | [] => true
      end
  | [] => true
  end.

Definition wellFormedFile (file : ts.SourceFile) : bool :=
  forallb (wellFormedNode (ts.text file)) (ts.statements file)
  && consecutive (ts.statements file).

(** The internal unit that an import or export node refers to: the source
    file of its symbol when [isCodeModule] holds of it. *)
Definition codeTarget (node : ts.Node) : option string :=
  match firstDeclaration (getSymbolFromNode node) with
  | Normal declaration =>
      if bool_decide (ts.decl_kind declaration = ts.SyntaxKind.SourceFile)
         && negb (ts.hasFlag (ts.decl_flags declaration) ts.NodeFlags.DeclarationFile)
      then Some (ts.decl_sourceFile declaration)
      else None
  | Throw _ => None
  end.

(** A node of a dependency list resolves to a symbol with a declaration, and a
    declaration of kind [SourceFile] is a source file of the program (one
    object, hence the same flags). *)
Definition resolvedImport (program : ts.Program) (node : ts.Node) : bool :=
  match firstDeclaration (getSymbolFromNode node) with
  | Normal declaration =>
      if bool_decide (ts.decl_kind declaration = ts.SyntaxKind.SourceFile) then
        match ts.getSourceFile program (ts.decl_sourceFile declaration) with
        | Some file => ts.decl_flags declaration =? ts.sf_flags file
        | None => false
        end
      else true
  | Throw _ => false
  end.

Definition resolvedDependencies (program : ts.Program) (d : Dependencies) : bool :=
  forallb (fun '(_, importNodes) => forallb (resolvedImport program) importNodes) d.

(** What the bundler relies on from the front end and from the dependency
    builder, for every source file of the program. *)
Definition wellFormedProgram (program : ts.Program)
    (getSourceFileDependencies : ts.SourceFile -> Dependencies) : bool :=
  forallb (fun file =>
             wellFormedFile file
             && resolvedDependencies program (getSourceFileDependencies file))
    (ts.getSourceFiles program).

(** [A] imports [B]: a top-level import or export node of [A] refers to the
    internal unit [B]. *)
Definition imports (program : ts.Program) (A B : string) : Prop :=
  exists file node,
    ts.getSourceFile program A = Some file /\
    node ∈ ts.statements file /\
    isImportOrExport node = true /\
    codeTarget node = Some B.

(** [B] is emitted before the first emission of [A]. *)
Definition emittedBefore (B A : string) (names : list string) : Prop :=
  exists l1 l2, names = l1 ++ A :: l2 /\ (A ∉ l1) /\ (B ∈ l1).

(** A dependency map lists its keys bottom-up: the internal targets of the
    nodes under a key are keys listed earlier. *)
Fixpoint keysBottomUp (earlier : list string) (d : Dependencies) : bool :=
  match d with
  | [] => true
  | (depKey, importNodes) :: rest =>
      forallb (fun node =>
                 match codeTarget node with
                 | Some target => bool_decide (target ∈ earlier)
                 | None => true
                 end) importNodes
      && keysBottomUp (earlier ++ [depKey]) rest
  end.

(** The nodes under a key cover the internal imports of the file of that
    name. *)
Definition coversImports (program : ts.Program) (d : Dependencies) : bool :=
  forallb (fun '(depKey, importNodes) =>
             match ts.getSourceFile program depKey with
             | Some file =>
                 forallb (fun node =>
                            match codeTarget node with
                            | Some target =>
                                negb (isImportOrExport node)
                                || bool_decide (Some target ∈ map codeTarget importNodes)
                            | None => true
                            end) (ts.statements file)
             | None => true
             end) d.

(** The contract of a bottom-up dependency walk from [file]: every internal
    unit comes with its imports, after the units it imports, and [file]
    itself has a key. *)
Definition bottomUp (program : ts.Program) (file : ts.SourceFile) (d : Dependencies)
    : bool :=
  keysBottomUp [] d && coversImports program d
  && bool_decide (ts.fileName file ∈ map fst d).

Definition bottomUpProgram (program : ts.Program)
    (getSourceFileDependencies : ts.SourceFile -> Dependencies) : bool :=
  forallb (fun file => bottomUp program file (getSourceFileDependencies file))
    (ts.getSourceFiles program).

(** The span that [processChild] blanks for a node, if any. *)
Definition blankedSpan (bundle : Bundle) (node : ts.Node) : option (Z * Z) :=
  if isImportOrExport node then
    match getSymbolFromNode node with
    | Some _ => Some (ts.pos node, ts.end_ node)
    | None => None
    end
  else if bool_decide (getPackageType (package (config bundle)) = Component) then
    let modifierSpan :=
      match ts.modifiers node with
      | m :: _ => Some (ts.mod_pos m, ts.mod_end m)
      | [] => None
      end in
    match ts.stmt node with
    | ts.ModuleDeclaration name_getText =>
        if negb (String.eqb name_getText (getPackageNamespace (package (config bundle))))
           && isExported node
        then modifierSpan else None
    | _ => if isExported node then modifierSpan else None
    end
  else None.

(** Offset [i] lies in the span blanked for [node]. *)
Definition blanks (bundle : Bundle) (i : nat) (node : ts.Node) : bool :=
  match blankedSpan bundle node with
  | Some (p, e) => (p <=? Z.of_nat i) && (Z.of_nat i <? e)
  | None => false
  end.

(** What the unit side and the import side of the state consist of. *)
Definition unitView (s : BundleBuilder) : string * gmap string string * list ts.SourceFile :=
  (bundleCodeText s, bundleImportedFiles s, emittedUnits s).

Definition importView (s : BundleBuilder)
    : string * gmap string (gmap string string) * option (gmap string string)
      * list ImportEmission :=
  (bundleImportText s, bundleModuleImports s, bundleModuleImportsProto s,
   emittedImports s).

Definition unitViewIs (v : string * gmap string string * list ts.SourceFile)
    (s : BundleBuilder) : Prop :=
  unitView s = v.

(** Partial correctness and absence of exceptions of a builder action. *)
Definition hoare {A} (P : BundleBuilder -> Prop) (c : M A)
    (Q : A -> BundleBuilder -> Prop) : Prop :=
  forall s a s', P s -> c s = Normal (a, s') -> Q a s'.

Definition runs {A} (c : M A) : Prop :=
  forall s, exists a s', c s = Normal (a, s').

(** The text that [build] appends to the body for a list of units. *)
Fixpoint bodyText (bundle : Bundle) (units : list ts.SourceFile) : option string :=
  match units with
  | [] => Some ""
  | file :: rest =>
      match processImportExports bundle file, bodyText bundle rest with
      | Normal editText, Some text => Some ((editText +:+ Js.LF) +:+ text)
      | _, _ => None
      end
  end.


(** Whenever a unit is emitted for the first time, the units it imports have
    been emitted. *)
Definition ordered (program : ts.Program) (names : list string) : Prop :=
  forall l1 A l2, names = l1 ++ A :: l2 -> A ∉ l1 ->
    forall B, imports program A B -> B ∈ l1.

(** The unit side is consistent: the files marked as imported are the units
    emitted, these are ordered, and the body is their edited text. *)
Definition unitsInvariant (program : ts.Program) (bundle : Bundle) (s : BundleBuilder)
    : Prop :=
  (forall name, Js.hasProperty (bundleImportedFiles s) name = true <->
                name ∈ emittedNames s) /\
  ordered program (emittedNames s) /\
  bodyText bundle (emittedUnits s) = Some (bundleCodeText s).

(** The unit side is consistent and the units of [have] are emitted. *)
Definition unitsEmitted (program : ts.Program) (bundle : Bundle) (have : list string)
    (s : BundleBuilder) : Prop :=
  unitsInvariant program bundle s /\
  (forall name, name ∈ have -> name ∈ emittedNames s).

(** The internal targets of the nodes of a dependency map. *)
Definition targets (importNodes : list ts.Node) : list string :=
  omap codeTarget importNodes.

Definition allTargets (d : Dependencies) : list string :=
  flat_map (fun '(_, importNodes) => targets importNodes) d.

(** ** The classification of references of the specification (4.1) *)

Module Spec.

Inductive ModuleReference :=
| Internal (target : string)
| AmbientDeclaration
| External.

(** Internal when the resolved declaration is an emittable source unit;
    AmbientDeclaration when it is an ambient module declaration or a
    declaration-only unit; anything else (no literal specifier, unresolved
    symbol, external package) is External. *)
Definition classify (node : ts.Node) : ModuleReference :=
  match firstDeclaration (getSymbolFromNode node) with
  | Normal d =>
      let isSourceFile := bool_decide (ts.decl_kind d = ts.SyntaxKind.SourceFile) in
      let declarationOnly := ts.hasFlag (ts.decl_flags d) ts.NodeFlags.DeclarationFile in
      if isSourceFile && negb declarationOnly then Internal (ts.decl_sourceFile d)
      else if (bool_decide (ts.decl_kind d = ts.SyntaxKind.ModuleDeclaration)
               && ts.hasFlag (ts.decl_flags d) ts.NodeFlags.Ambient)
              || (isSourceFile && declarationOnly)
      then AmbientDeclaration
      else External
  | Throw _ => External
  end.

End Spec.

(** ** Bundler (Bundler.ts, lines 13-188), the first bundler

    Of the first bundler only [editImportStatements] is embedded: [bundle] and
    [compileBundle] drive the output stream and the TypeScript compiler. *)

Module Bundler.

(** lines 97-121 *)
Definition editImportStatements (file : ts.SourceFile) : string :=
  fold_left
    (fun editText node =>
       if isImportOrExport node then
         let pos := ts.pos node in
         let end_ := ts.end_ node in
         let length := end_ - pos in
         let middle := Js.for_lt length (fun m => m +:+ " ") "" in
         let prefix := Js.substring editText 0 pos in
         let suffix := Js.substring_from editText end_ in
         prefix +:+ middle +:+ suffix
       else editText)
    (ts.statements file) (ts.text file).

End Bundler.

(** ** Further notions used to state properties *)

(** Offset [i] lies in [pos, end_). *)
Definition inSpan (pos end_ : Z) (i : nat) : bool :=
  (pos <=? Z.of_nat i) && (Z.of_nat i <? end_).

(** The text of one named import, [source as local] or [local]. *)
Definition renderSpecifier (element : ts.ImportSpecifier) : string :=
  match ts.propertyName element with
  | Some alias => alias +:+ " as " +:+ ts.spec_name element
  | None => ts.spec_name element
  end.

(** The elements for which [addModuleImport], called on each in turn,
    answers [true]: those not registered, and not recorded by an earlier
    element of the list. [isRegistered] is the registry of the module at the
    start, [recorded] tells the names that a first call records. *)
Fixpoint pickFresh (isRegistered recorded : string -> bool)
    (elements : list ts.ImportSpecifier) : list ts.ImportSpecifier :=
  match elements with
  | [] => []
  | element :: rest =>
      if isRegistered (ts.spec_name element) then pickFresh isRegistered recorded rest
      else
        element
        :: pickFresh (fun n => isRegistered n
                               || (String.eqb n (ts.spec_name element) && recorded n))
             recorded rest
  end.

(** The registry of the module once the default binding of the clause has
    been passed to [addModuleImport]. *)
Definition afterDefault (isRegistered recorded : string -> bool)
    (importClause : ts.ImportClause) (n : string) : bool :=
  isRegistered n
  || match ts.clause_name importClause with
     | Some name => String.eqb n name && recorded n
     | None => false
     end.

(** The bindings of a clause for which [addModuleImport] answers [true],
    called in the order of [writeImportDeclaration]: the default binding,
    then the namespace import or the named imports. *)
Definition freshClause (isRegistered recorded : string -> bool)
    (importClause : ts.ImportClause) : ts.ImportClause :=
  {| ts.clause_name :=
       match ts.clause_name importClause with
       | Some name => if isRegistered name then None else Some name
       | None => None
       end;
     ts.namedBindings :=
       match ts.namedBindings importClause with
       | Some (ts.NamespaceImport name) =>
           if afterDefault isRegistered recorded importClause name then None
           else Some (ts.NamespaceImport name)
       | Some (ts.NamedImports elements) =>
           Some (ts.NamedImports
                   (pickFresh (afterDefault isRegistered recorded importClause)
                      recorded elements))
       | None => None
       end |}.

(** The binding names of a clause, in the order of the statement. *)
Definition clauseNames (importClause : ts.ImportClause) : list string :=
  option_list (ts.clause_name importClause)
  ++ match ts.namedBindings importClause with
     | Some (ts.NamespaceImport name) => [name]
     | Some (ts.NamedImports elements) => map ts.spec_name elements
     | None => []
     end.

(** The statement text for the bindings of a clause:
    [import d, * as ns from 'm';], [import d, { a, b as c } from 'm';] and
    the like. *)
Definition renderImport (importClause : ts.ImportClause) (specifierText : string)
    : string :=
  let separator :=
    match ts.clause_name importClause with Some _ => ", " | None => "" end in
  "import "
  +:+ default "" (ts.clause_name importClause)
  +:+ match ts.namedBindings importClause with
      | Some (ts.NamespaceImport name) => separator +:+ "* as " +:+ name
      | Some (ts.NamedImports elements) =>
          separator +:+ "{ "
          +:+ String.concat ", " (map renderSpecifier elements) +:+ " }"
      | None => ""
      end
  +:+ " from " +:+ specifierText +:+ ";".

(** [hasDefaultBinding || hasNamedBindings] (line 460) for the bindings
    written: a default binding, a namespace import or at least one named
    import. *)
Definition hasBindings (importClause : ts.ImportClause) : bool :=
  match ts.clause_name importClause with Some _ => true | None => false end
  || match ts.namedBindings importClause with
     | Some (ts.NamespaceImport _) => true
     | Some (ts.NamedImports elements) =>
         match elements with [] => false | _ :: _ => true end
     | None => false
     end.

(** The bindings of a clause that [writeImportDeclaration] writes for the
    module in state [s]. *)
Definition freshBindings (moduleName : string) (importClause : ts.ImportClause)
    (s : BundleBuilder) : ts.ImportClause :=
  freshClause (fun n => registered moduleName n s) (fun n => records moduleName n s)
    importClause.

(** Neither name of the pair is [__proto__]. *)
Definition ordinaryPair (pair : string * string) : bool :=
  negb (Js.isProtoKey pair.1) && negb (Js.isProtoKey pair.2).



(** The source files that the entry file names of a bundle resolve to. *)
Definition entryFiles (host : Host) (program : ts.Program) (fileNames : list string)
    : list ts.SourceFile :=
  omap (fun fileName =>
          ts.getSourceFile program
            (getCanonicalFileName host (normalizeSlashes host fileName)))
       fileNames.

(** Some entry file of the bundle is a JSX file. *)
Definition someEntryIsJsx (host : Host) (program : ts.Program) (fileNames : list string)
    : bool :=
  existsb (fun file => bool_decide (ts.languageVariant file = ts.JSX))
    (entryFiles host program fileNames).


(** The first entry of a dependency map under a key. *)
Definition firstUnder (key : string) (d : Dependencies) : option (list ts.Node) :=
  snd <$> List.find (fun '(k, _) => String.eqb k key) d.



(** ** Concrete programs *)

Module Examples.

Definition host : Host :=
  {| getCanonicalFileName := fun s => s;
     normalizeSlashes := fun s => s;
     path_dirname := fun _ => ".";
     path_basename := fun s => s;
     path_join := fun a b => a +:+ "/" +:+ b |}.

Definition bundleOf (files : list string) (type : BundlePackageType) : Bundle :=
  {| name := "out"; fileNames := files;
     config := {| outDir := None;
                  package := {| getPackageType := type;
                                getPackageNamespace := "Pkg" |} |} |}.

(** The symbol of an internal module, of an ambient module declaration and of
    a declaration file. *)
Definition codeModule (file : string) : ts.Symbol :=
  {| ts.getDeclarations :=
       [{| ts.decl_kind := ts.SyntaxKind.SourceFile; ts.decl_flags := 0;
           ts.decl_sourceFile := file |}] |}.

Definition ambientModule (file : string) : ts.Symbol :=
  {| ts.getDeclarations :=
       [{| ts.decl_kind := ts.SyntaxKind.ModuleDeclaration;
           ts.decl_flags := ts.NodeFlags.Ambient;
           ts.decl_sourceFile := file |}] |}.

Definition literal (text : string) (symbol : option ts.Symbol) : ts.Expression :=
  {| ts.expr_kind := ts.SyntaxKind.StringLiteral; ts.expr_text := text;
     ts.expr_getText := "'" +:+ text +:+ "'"; ts.expr_symbol := symbol |}.

(** A statement with source text [src] starting at [pos]. *)
Definition statement (pos : Z) (src : string) (flags : Z)
    (modifiers : list ts.Modifier) (stmt : ts.Statement) : ts.Node :=
  {| ts.pos := pos; ts.end_ := pos + Z.of_nat (String.length src);
     ts.flags := flags; ts.modifiers := modifiers;
     ts.getText := src; ts.stmt := stmt |}.

Definition plain (pos : Z) (src : string) : ts.Node :=
  statement pos src 0 [] ts.OtherStatement.

Definition specifier (alias : option string) (name : string) : ts.ImportSpecifier :=
  {| ts.propertyName := alias; ts.spec_name := name |}.

Definition namedImport (pos : Z) (src : string) (elements : list ts.ImportSpecifier)
    (moduleSpecifier : ts.Expression) : ts.Node :=
  statement pos src 0 []
    (ts.ImportDeclaration
       (Some {| ts.clause_name := None;
                ts.namedBindings := Some (ts.NamedImports elements) |})
       moduleSpecifier).

Definition exportKeyword (pos : Z) : ts.Modifier :=
  {| ts.mod_kind := ts.SyntaxKind.ExportKeyword; ts.mod_pos := pos; ts.mod_end := pos + 6 |}.

Definition sourceFile (fileName : string) (variant : ts.LanguageVariant)
    (nodes : list ts.Node) : ts.SourceFile :=
  {| ts.fileName := fileName;
     ts.text := String.concat "" (map ts.getText nodes);
     ts.sf_flags := 0; ts.languageVariant := variant; ts.statements := nodes |}.

(** *** A chain: a.ts imports b.ts, b.ts imports c.ts; both import 'fs' *)

Definition fs : ts.Expression := literal "fs" (Some (ambientModule "node.d.ts")).

Definition importB : ts.Node :=
  namedImport 0 "import { b } from './b';" [specifier None "b"]
    (literal "./b" (Some (codeModule "b.ts"))).
Definition importC : ts.Node :=
  namedImport 0 "import { c } from './c';" [specifier None "c"]
    (literal "./c" (Some (codeModule "c.ts"))).
Definition importFsA : ts.Node :=
  namedImport 24 "import { readFile } from 'fs';" [specifier None "readFile"] fs.
Definition importFsB : ts.Node :=
  namedImport 24 "import { readFile, writeFile as w } from 'fs';"
    [specifier None "readFile"; specifier (Some "writeFile") "w"] fs.

Definition fileA : ts.SourceFile :=
  sourceFile "a.ts" ts.Standard [importB; importFsA; plain 54 "var a = b;"].
Definition fileB : ts.SourceFile :=
  sourceFile "b.ts" ts.Standard [importC; importFsB; plain 70 "var b = c;"].
Definition fileC : ts.SourceFile :=
  sourceFile "c.ts" ts.Standard [plain 0 "var c = 1;"].

Definition chain : ts.Program := {| ts.getSourceFiles := [fileA; fileB; fileC] |}.

(** The dependencies of each file of the chain, keys bottom-up. *)
Definition chainDependencies (file : ts.SourceFile) : Dependencies :=
  if String.eqb (ts.fileName file) "a.ts" then
    [("c.ts", []); ("b.ts", [importC; importFsB]); ("a.ts", [importB; importFsA])]
  else if String.eqb (ts.fileName file) "b.ts" then
    [("c.ts", []); ("b.ts", [importC; importFsB])]
  else [("c.ts", [])].

(** *** A cycle: a.ts imports b.ts, b.ts imports c.ts, c.ts imports a.ts *)

Definition importA : ts.Node :=
  namedImport 0 "import { a } from './a';" [specifier None "a"]
    (literal "./a" (Some (codeModule "a.ts"))).

Definition cycleA : ts.SourceFile :=
  sourceFile "a.ts" ts.Standard [importB; plain 24 "var a = b;"].
Definition cycleB : ts.SourceFile :=
  sourceFile "b.ts" ts.Standard [importC; plain 24 "var b = c;"].
Definition cycleC : ts.SourceFile :=
  sourceFile "c.ts" ts.Standard [importA; plain 24 "var c = a;"].

Definition cycle : ts.Program := {| ts.getSourceFiles := [cycleA; cycleB; cycleC] |}.

(** The keys in the order in which a depth-first walk from a.ts finishes
    them. *)
Definition cycleDependencies (file : ts.SourceFile) : Dependencies :=
  [("b.ts", [importC]); ("a.ts", [importB]); ("c.ts", [importA])].

(** *** A plain entry importing a JSX unit *)

Definition importV : ts.Node :=
  namedImport 0 "import { v } from './v';" [specifier None "v"]
    (literal "./v" (Some (codeModule "v.tsx"))).

Definition mainFile : ts.SourceFile :=
  sourceFile "main.ts" ts.Standard [importV; plain 24 "var m = v;"].
Definition viewFile : ts.SourceFile :=
  sourceFile "v.tsx" ts.JSX [plain 0 "var v = <div/>;"].

Definition withView : ts.Program := {| ts.getSourceFiles := [mainFile; viewFile] |}.

Definition viewDependencies (file : ts.SourceFile) : Dependencies :=
  if String.eqb (ts.fileName file) "main.ts"
  then [("v.tsx", []); ("main.ts", [importV])]
  else [("v.tsx", [])].

(** *** Imports that do not resolve, and a side-effect import *)

Definition importUnknown : ts.Node :=
  namedImport 0 "import { x } from 'nope';" [specifier None "x"] (literal "nope" None).

Definition unknownFile : ts.SourceFile :=
  sourceFile "u.ts" ts.Standard [importUnknown; plain 25 "var u = x;"].

(** A local export list, [export { x };], which names no module. *)
Definition localExport : ts.Node :=
  statement 10 "export { x };" 0 [] (ts.ExportDeclaration None).

Definition localExportFile : ts.SourceFile :=
  sourceFile "l.ts" ts.Standard [plain 0 "var x = 1;"; localExport].

Definition sideEffectImport : ts.Node :=
  statement 0 "import 'fs';" 0 [] (ts.ImportDeclaration None fs).

Definition sideEffectFile : ts.SourceFile :=
  sourceFile "s.ts" ts.Standard [sideEffectImport; plain 12 "var s = 1;"].

(** *** Exported declarations *)

Definition exportedNamespace : ts.Node :=
  statement 0 "export namespace Other { }" ts.NodeFlags.Export [exportKeyword 0]
    (ts.ModuleDeclaration "Other").
Definition exportedFunction : ts.Node :=
  statement 26 "export function f() { }" ts.NodeFlags.Export [exportKeyword 26]
    ts.OtherStatement.

Definition exportsFile : ts.SourceFile :=
  sourceFile "e.ts" ts.Standard [exportedNamespace; exportedFunction].

(** An exported alias of an entity name: [export import y = X.Y;] *)
Definition exportedAlias : ts.Node :=
  statement 0 "export import y = X.Y;" ts.NodeFlags.Export [exportKeyword 0]
    (ts.ImportEqualsDeclaration "y" (ts.EntityName "X.Y")).

Definition aliasFile : ts.SourceFile :=
  sourceFile "y.ts" ts.Standard [exportedAlias; plain 22 "var z = y;"].

(** [declare export var k: number;]: the modifiers are [declare], [export]. *)
Definition declareKeyword (pos : Z) : ts.Modifier :=
  {| ts.mod_kind := ts.SyntaxKind.DeclareKeyword; ts.mod_pos := pos;
     ts.mod_end := pos + 7 |}.

Definition declaredExport : ts.Node :=
  statement 0 "declare export var k: number;"
    (Z.lor ts.NodeFlags.Export ts.NodeFlags.Ambient)
    [declareKeyword 0; exportKeyword 7] ts.OtherStatement.

Definition declaredExportFile : ts.SourceFile :=
  sourceFile "k.ts" ts.Standard [declaredExport].

(** *** A side-effect import that does not resolve *)

Definition sideEffectUnknown : ts.Node :=
  statement 0 "import 'nope';" 0 [] (ts.ImportDeclaration None (literal "nope" None)).

Definition sideEffectUnknownFile : ts.SourceFile :=
  sourceFile "n.ts" ts.Standard [sideEffectUnknown; plain 14 "var n = 1;"].

(** *** Two units importing the same name from a module named [__proto__]

    p.ts imports q.ts; both import [x] from the ambient module
    ['__proto__']. *)

Definition protoModule : ts.Expression :=
  literal "__proto__" (Some (ambientModule "proto.d.ts")).

Definition importQ : ts.Node :=
  namedImport 0 "import { q } from './q';" [specifier None "q"]
    (literal "./q" (Some (codeModule "q.ts"))).
Definition importProtoP : ts.Node :=
  namedImport 24 "import { x } from '__proto__';" [specifier None "x"] protoModule.
Definition importProtoQ : ts.Node :=
  namedImport 0 "import { x } from '__proto__';" [specifier None "x"] protoModule.

Definition protoP : ts.SourceFile :=
  sourceFile "p.ts" ts.Standard [importQ; importProtoP; plain 54 "var p = q + x;"].
Definition protoQ : ts.SourceFile :=
  sourceFile "q.ts" ts.Standard [importProtoQ; plain 30 "var q = x;"].

Definition protoProgram : ts.Program := {| ts.getSourceFiles := [protoP; protoQ] |}.

Definition protoDependencies (file : ts.SourceFile) : Dependencies :=
  if String.eqb (ts.fileName file) "p.ts"
  then [("q.ts", [importProtoQ]); ("p.ts", [importQ; importProtoP])]
  else [("q.ts", [importProtoQ])].

End Examples.

(** * Properties *)

(** ** Strings as lists of code units *)

Section StringFacts.

Lemma chars_app (s t : string) :
  Js.chars (s +:+ t) = Js.chars s ++ Js.chars t.
Proof. induction s as [|c s IH]; simpl; [done | by rewrite IH]. Qed.

Lemma chars_length (s : string) : length (Js.chars s) = String.length s.
Proof. induction s as [|c s IH]; simpl; [done | by rewrite IH]. Qed.

Lemma chars_get (s : string) (i : nat) : String.get i s = Js.chars s !! i.
Proof.
  revert i; induction s as [|c s IH]; intros [|i]; simpl; done.
Qed.

Lemma chars_substring (n m : nat) (s : string) :
  Js.chars (String.substring n m s) = take m (drop n (Js.chars s)).
Proof.
  revert n m; induction s as [|c s IH]; intros [|n] [|m]; simpl;
    rewrite ?IH; done.
Qed.

Lemma chars_inj (s t : string) : Js.chars s = Js.chars t -> s = t.
Proof.
  intros H. rewrite <- (String.string_of_list_ascii_of_string s).
  rewrite <- (String.string_of_list_ascii_of_string t). by rewrite H.
Qed.

Lemma string_length_app (s t : string) :
  String.length (s +:+ t) = (String.length s + String.length t)%nat.
Proof. by rewrite <- !chars_length, chars_app, length_app. Qed.

Lemma chars_spaces (n : nat) :
  Js.chars (Nat.iter n (fun w => w +:+ " ") "") = replicate n Js.space.
Proof.
  induction n as [|n IH]; [done|].
  simpl Nat.iter. by rewrite chars_app, IH, replicate_S_end.
Qed.

(** Inside a span, [whiteOut] is the prefix, a run of spaces and the suffix. *)
Lemma chars_whiteOut (pos end_ : Z) (text : string) :
  is_span text pos end_ ->
  Js.chars (whiteOut pos end_ text) =
    take (Z.to_nat pos) (Js.chars text)
    ++ replicate (Z.to_nat (end_ - pos)) Js.space
    ++ drop (Z.to_nat end_) (Js.chars text).
Proof.
  intros (H0 & H1 & H2). unfold whiteOut, Js.for_lt.
  rewrite !chars_app, chars_spaces. f_equal; [|f_equal].
  - unfold Js.substring, Js.clamp. rewrite chars_substring.
    replace (Z.to_nat 0) with 0%nat by done.
    rewrite Nat.min_0_l, Nat.min_0_l, Nat.max_0_l, Nat.sub_0_r, drop_0.
    f_equal. lia.
  - unfold Js.substring_from, Js.substring, Js.clamp. rewrite chars_substring.
    rewrite Nat2Z.id, Nat.min_id.
    replace (Nat.min (Nat.min (Z.to_nat end_) (String.length text)) (String.length text))
      with (Z.to_nat end_) by lia.
    rewrite take_ge; [done|]. rewrite length_drop, chars_length. lia.
Qed.

End StringFacts.

(** ** Length preservation and exact blanking of [whiteOut] *)

Lemma whiteOut_length (pos end_ : Z) (text : string) :
  is_span text pos end_ ->
  String.length (whiteOut pos end_ text) = String.length text.
Proof.
  intros H. pose proof H as (H0 & H1 & H2).
  rewrite <- !chars_length, (chars_whiteOut _ _ _ H).
  rewrite !length_app, length_take, length_replicate, length_drop, chars_length.
  lia.
Qed.

Lemma whiteOut_inside (pos end_ : Z) (text : string) (i : nat) :
  is_span text pos end_ ->
  pos <= Z.of_nat i < end_ ->
  charAt (whiteOut pos end_ text) i = Some Js.space.
Proof.
  intros H Hi. pose proof H as (H0 & H1 & H2). unfold charAt.
  rewrite chars_get, (chars_whiteOut _ _ _ H).
  rewrite lookup_app_r; rewrite length_take, chars_length; [|lia].
  rewrite lookup_app_l; [|rewrite length_replicate; lia].
  apply lookup_replicate_2. lia.
Qed.

Lemma whiteOut_outside (pos end_ : Z) (text : string) (i : nat) :
  is_span text pos end_ ->
  Z.of_nat i < pos \/ end_ <= Z.of_nat i ->
  charAt (whiteOut pos end_ text) i = charAt text i.
Proof.
  intros H Hi. pose proof H as (H0 & H1 & H2). unfold charAt.
  rewrite !chars_get, (chars_whiteOut _ _ _ H).
  destruct Hi as [Hi|Hi].
  - rewrite lookup_app_l; [|rewrite length_take, chars_length; lia].
    apply lookup_take_lt. lia.
  - rewrite lookup_app_r; rewrite length_take, chars_length; [|lia].
    rewrite lookup_app_r; rewrite length_replicate; [|lia].
    rewrite lookup_drop. f_equal. lia.
Qed.

(** Offsets that are not a span of the text are outside this guarantee: the
    run of spaces has length [end_ - pos] whatever the text holds there. The
    positions of the nodes of a file are spans of its text. *)
Lemma whiteOut_beyond_text : whiteOut 0 5 "ab" = "     ".
Proof. reflexivity. Qed.

(** ** The edited text of a unit *)

Lemma is_spanb_spec (text : string) (pos end_ : Z) :
  is_spanb text pos end_ = true <-> is_span text pos end_.
Proof. unfold is_spanb, is_span. rewrite !andb_true_iff, !Z.leb_le. tauto. Qed.

Lemma is_span_length (text text' : string) (pos end_ : Z) :
  String.length text' = String.length text ->
  is_span text pos end_ -> is_span text' pos end_.
Proof. unfold is_span. intros ->. done. Qed.

Lemma charAt_Some_lt (text : string) (i : nat) (c : ascii) :
  charAt text i = Some c -> (i < String.length text)%nat.
Proof.
  unfold charAt. rewrite chars_get, <- chars_length. apply lookup_lt_Some.
Qed.

Section EditedText.

Variable bundle : Bundle.

Lemma wellFormedNode_span (text : string) (node : ts.Node) :
  wellFormedNode text node = true -> is_span text (ts.pos node) (ts.end_ node).
Proof.
  unfold wellFormedNode. rewrite !andb_true_iff. intros [[H _] _].
  by apply is_spanb_spec.
Qed.

Lemma wellFormedNode_modifier (text : string) (node : ts.Node) :
  wellFormedNode text node = true -> isExported node = true ->
  exists m rest,
    ts.modifiers node = m :: rest /\
    ts.pos node <= ts.mod_pos m /\ ts.mod_pos m <= ts.mod_end m /\
    ts.mod_end m <= ts.end_ node.
Proof.
  unfold wellFormedNode. rewrite !andb_true_iff. intros [_ H] He.
  rewrite He in H. destruct (ts.modifiers node) as [|m rest]; [done|].
  rewrite !andb_true_iff, !Z.leb_le in H.
  exists m, rest. tauto.
Qed.

Lemma blankedSpan_is_span (text : string) (node : ts.Node) (p e : Z) :
  wellFormedNode text node = true ->
  blankedSpan bundle node = Some (p, e) ->
  is_span text p e /\ ts.pos node <= p /\ e <= ts.end_ node.
Proof.
  intros Hwf. pose proof (wellFormedNode_span _ _ Hwf) as Hs.
  assert (Hm : isExported node = true ->
               match ts.modifiers node with
               | m :: _ => Some (ts.mod_pos m, ts.mod_end m)
               | [] => None
               end = Some (p, e) ->
               is_span text p e /\ ts.pos node <= p /\ e <= ts.end_ node).
  { intros He Heq.
    destruct (wellFormedNode_modifier _ _ Hwf He) as (m & rest & Hmod & H1 & H2 & H3).
    rewrite Hmod in Heq. injection Heq as <- <-. unfold is_span in *. lia. }
  unfold blankedSpan.
  destruct (isImportOrExport node).
  - destruct (getSymbolFromNode node); [|done]. intros [= <- <-]. split; [done|lia].
  - destruct (bool_decide _); [|done].
    destruct (ts.stmt node); try (destruct (isExported node); [by apply Hm | done]).
    destruct (negb _); simpl; [|done].
    destruct (isExported node); [by apply Hm | done].
Qed.

(** On a well-formed node the callback does not throw: it blanks
    [blankedSpan] and nothing else. *)
Lemma processChild_blankedSpan (text editText : string) (node : ts.Node) :
  wellFormedNode text node = true ->
  processChild bundle editText node =
    Normal match blankedSpan bundle node with
           | Some (p, e) => whiteOut p e editText
           | None => editText
           end.
Proof.
  intros Hwf. unfold processChild, blankedSpan, getSymbolFromNode.
  destruct (isImportOrExport node).
  - pose proof Hwf as Hwf'. unfold wellFormedNode in Hwf'.
    rewrite !andb_true_iff in Hwf'. destruct Hwf' as [[_ Hsym] _].
    destruct (getExternalModuleName node) as [expr|]; [|done].
    destruct (bool_decide _); [|done].
    destruct (ts.expr_symbol expr) as [symbol|]; [|done].
    unfold isCodeModule, firstDeclaration.
    destruct (ts.getDeclarations symbol); [done|].
    by rewrite orb_true_r.
  - destruct (bool_decide _); [|done].
    assert (Hm : isExported node = true ->
                 match firstModifier node with
                 | Normal m => Normal (whiteOut (ts.mod_pos m) (ts.mod_end m) editText)
                 | Throw e => Throw e
                 end =
                 Normal match
                     match ts.modifiers node with
                     | m :: _ => Some (ts.mod_pos m, ts.mod_end m)
                     | [] => None
                     end
                   with
                   | Some (p, e) => whiteOut p e editText
                   | None => editText
                   end).
    { intros He.
      destruct (wellFormedNode_modifier _ _ Hwf He) as (m & rest & Hmod & _).
      unfold firstModifier. by rewrite Hmod. }
    fold (isExported node).
    destruct (ts.stmt node);
      try (destruct (isExported node); [by apply Hm | done]).
    destruct (negb _); simpl; [|done].
    destruct (isExported node); [by apply Hm | done].
Qed.

(** The fold over the statements: no throw, the length is kept, and a
    character is a space where some node blanks it and unchanged elsewhere. *)
Lemma forEachChild_processChild (text : string) (nodes : list ts.Node) (editText : string) :
  forallb (wellFormedNode text) nodes = true ->
  String.length editText = String.length text ->
  exists editText',
    forEachChild nodes (processChild bundle) editText = Normal editText' /\
    String.length editText' = String.length text /\
    forall i, (i < String.length text)%nat ->
      charAt editText' i =
        if existsb (blanks bundle i) nodes then Some Js.space else charAt editText i.
Proof.
  revert editText. induction nodes as [|node nodes IH]; intros editText Hwf Hlen.
  - exists editText. by simpl.
  - simpl in Hwf. apply andb_true_iff in Hwf as [Hnode Hrest].
    simpl. rewrite (processChild_blankedSpan text) by done.
    set (next := match blankedSpan bundle node with
                 | Some (p, e) => whiteOut p e editText
                 | None => editText
                 end).
    assert (Hnext : String.length next = String.length text).
    { subst next. destruct (blankedSpan bundle node) as [[p e]|] eqn:Hb; [|done].
      rewrite whiteOut_length; [done|].
      apply (is_span_length text); [done|].
      by apply (blankedSpan_is_span text node). }
    destruct (IH next Hrest Hnext) as (editText' & Hrun & Hlen' & Hchars).
    exists editText'. split; [done|]. split; [done|].
    intros i Hi. rewrite (Hchars i Hi).
    destruct (existsb (blanks bundle i) nodes) eqn:Hex; [by rewrite orb_true_r|].
    rewrite orb_false_r. subst next. unfold blanks.
    destruct (blankedSpan bundle node) as [[p e]|] eqn:Hb; [|done].
    assert (Hspan : is_span editText p e).
    { apply (is_span_length text); [done|]. by apply (blankedSpan_is_span text node). }
    destruct ((p <=? Z.of_nat i) && (Z.of_nat i <? e)) eqn:Hin.
    + apply andb_true_iff in Hin as [H1 H2].
      apply Z.leb_le in H1. apply Z.ltb_lt in H2.
      apply whiteOut_inside; [done|lia].
    + apply whiteOut_outside; [done|].
      apply andb_false_iff in Hin as [H1|H2].
      * apply Z.leb_gt in H1. lia.
      * apply Z.ltb_ge in H2. lia.
Qed.

Lemma processImportExports_spec (file : ts.SourceFile) :
  wellFormedFile file = true ->
  exists editText,
    processImportExports bundle file = Normal editText /\
    String.length editText = String.length (ts.text file) /\
    forall i, (i < String.length (ts.text file))%nat ->
      charAt editText i =
        if existsb (blanks bundle i) (ts.statements file)
        then Some Js.space else charAt (ts.text file) i.
Proof.
  unfold wellFormedFile. rewrite andb_true_iff. intros [Hwf _].
  by apply forEachChild_processChild.
Qed.

End EditedText.

(** ** Statements do not overlap *)

Section Disjoint.

Variable bundle : Bundle.
Variable text : string.

Lemma consecutive_head (a : ts.Node) (rest : list ts.Node) :
  forallb (wellFormedNode text) rest = true ->
  consecutive (a :: rest) = true ->
  forall b, b ∈ rest -> ts.end_ a <= ts.pos b.
Proof.
  revert a. induction rest as [|c rest IH]; intros a Hwf Hcons b Hb.
  - by apply elem_of_nil in Hb.
  - simpl in Hwf. apply andb_true_iff in Hwf as [Hc Hrest].
    change (consecutive (a :: c :: rest))
      with ((ts.end_ a <=? ts.pos c) && consecutive (c :: rest)) in Hcons.
    apply andb_true_iff in Hcons as [Hac Hcons]. apply Z.leb_le in Hac.
    apply elem_of_cons in Hb as [->|Hb]; [done|].
    pose proof (IH c Hrest Hcons b Hb).
    destruct (wellFormedNode_span _ _ Hc) as (_ & ? & _). lia.
Qed.

Lemma consecutive_tail (a : ts.Node) (rest : list ts.Node) :
  consecutive (a :: rest) = true -> consecutive rest = true.
Proof.
  destruct rest as [|c rest]; [done|].
  change (consecutive (a :: c :: rest))
    with ((ts.end_ a <=? ts.pos c) && consecutive (c :: rest)).
  rewrite andb_true_iff. tauto.
Qed.

Lemma consecutive_split (l1 l2 : list ts.Node) (node : ts.Node) :
  forallb (wellFormedNode text) (l1 ++ node :: l2) = true ->
  consecutive (l1 ++ node :: l2) = true ->
  (forall a, a ∈ l1 -> ts.end_ a <= ts.pos node) /\
  (forall b, b ∈ l2 -> ts.end_ node <= ts.pos b).
Proof.
  induction l1 as [|c l1 IH]; intros Hwf Hcons.
  - split; [intros a Ha; by apply elem_of_nil in Ha|].
    simpl in *. apply andb_true_iff in Hwf as [_ Hwf].
    by apply consecutive_head.
  - simpl in Hwf. pose proof Hwf as Hall.
    apply andb_true_iff in Hwf as [Hc Hwf].
    destruct (IH Hwf (consecutive_tail _ _ Hcons)) as [H1 H2].
    split; [|done]. intros a Ha. apply elem_of_cons in Ha as [->|Ha]; [|by apply H1].
    apply (consecutive_head c (l1 ++ node :: l2)); [done|done|].
    apply elem_of_app. right. apply elem_of_cons. by left.
Qed.

Lemma blanks_within (i : nat) (node : ts.Node) :
  wellFormedNode text node = true ->
  blanks bundle i node = true ->
  ts.pos node <= Z.of_nat i < ts.end_ node.
Proof.
  intros Hwf. unfold blanks.
  destruct (blankedSpan bundle node) as [[p e]|] eqn:Hb; [|done].
  destruct (blankedSpan_is_span bundle text node p e Hwf Hb) as (_ & ? & ?).
  rewrite andb_true_iff, Z.leb_le, Z.ltb_lt. lia.
Qed.

Lemma existsb_blanks_false (i : nat) (nodes : list ts.Node) :
  forallb (wellFormedNode text) nodes = true ->
  (forall a, a ∈ nodes -> ~ (ts.pos a <= Z.of_nat i < ts.end_ a)) ->
  existsb (blanks bundle i) nodes = false.
Proof.
  intros Hwf Hout. apply not_true_is_false. intros Hex.
  apply existsb_exists in Hex as (a & Ha & Hblank).
  rewrite forallb_forall in Hwf.
  apply (Hout a); [by apply list_elem_of_In|].
  apply blanks_within; [by apply Hwf | done].
Qed.

(** Inside the span of a statement, only that statement decides. *)
Lemma existsb_blanks_at (i : nat) (nodes : list ts.Node) (node : ts.Node) :
  forallb (wellFormedNode text) nodes = true ->
  consecutive nodes = true ->
  node ∈ nodes ->
  ts.pos node <= Z.of_nat i < ts.end_ node ->
  existsb (blanks bundle i) nodes = blanks bundle i node.
Proof.
  intros Hwf Hcons Hin Hi.
  apply list_elem_of_split in Hin as (l1 & l2 & ->).
  destruct (consecutive_split l1 l2 node Hwf Hcons) as [H1 H2].
  rewrite forallb_app in Hwf. apply andb_true_iff in Hwf as [Hwf1 Hwf2].
  simpl in Hwf2. apply andb_true_iff in Hwf2 as [Hnode Hwf2].
  rewrite existsb_app. simpl.
  rewrite (existsb_blanks_false i l1), (existsb_blanks_false i l2); try done.
  - by rewrite orb_false_r.
  - intros b Hb. specialize (H2 b Hb). lia.
  - intros a Ha. specialize (H1 a Ha). lia.
Qed.

End Disjoint.

(** In the edited text of a well-formed file, the characters of a statement
    are spaces exactly where that statement is blanked. *)
Lemma processImportExports_at (bundle : Bundle) (file : ts.SourceFile) (node : ts.Node) :
  wellFormedFile file = true ->
  node ∈ ts.statements file ->
  exists editText,
    processImportExports bundle file = Normal editText /\
    String.length editText = String.length (ts.text file) /\
    forall i, ts.pos node <= Z.of_nat i < ts.end_ node ->
      charAt editText i =
        if blanks bundle i node then Some Js.space else charAt (ts.text file) i.
Proof.
  intros Hwf Hin.
  destruct (processImportExports_spec bundle file Hwf) as (editText & Hrun & Hlen & Hchars).
  exists editText. split; [done|]. split; [done|]. intros i Hi.
  unfold wellFormedFile in Hwf. apply andb_true_iff in Hwf as [Hnodes Hcons].
  assert (Hnode : wellFormedNode (ts.text file) node = true).
  { rewrite forallb_forall in Hnodes. apply Hnodes. by apply list_elem_of_In. }
  destruct (wellFormedNode_span _ _ Hnode) as (? & ? & ?).
  rewrite Hchars by lia.
  by rewrite (existsb_blanks_at bundle (ts.text file) i _ node).
Qed.

(** A node whose literal specifier resolves to a symbol is blanked whole. *)
Lemma resolved_node_blanked (bundle : Bundle) (file : ts.SourceFile) (node : ts.Node)
    (symbol : ts.Symbol) :
  wellFormedFile file = true ->
  node ∈ ts.statements file ->
  isImportOrExport node = true ->
  getSymbolFromNode node = Some symbol ->
  exists editText,
    processImportExports bundle file = Normal editText /\
    forall i, ts.pos node <= Z.of_nat i < ts.end_ node ->
      charAt editText i = Some Js.space.
Proof.
  intros Hwf Hin Hkind Hsym.
  destruct (processImportExports_at bundle file node Hwf Hin)
    as (editText & Hrun & _ & Hchars).
  exists editText. split; [done|]. intros i Hi. rewrite (Hchars i Hi).
  unfold blanks, blankedSpan. rewrite Hkind, Hsym.
  replace (ts.pos node <=? Z.of_nat i) with true by (symmetry; apply Z.leb_le; lia).
  replace (Z.of_nat i <? ts.end_ node) with true by (symmetry; apply Z.ltb_lt; lia).
  done.
Qed.

(** A node whose specifier is missing, not a literal or unresolved stays. *)
Lemma unresolved_node_kept (bundle : Bundle) (file : ts.SourceFile) (node : ts.Node) :
  wellFormedFile file = true ->
  node ∈ ts.statements file ->
  isImportOrExport node = true ->
  getSymbolFromNode node = None ->
  exists editText,
    processImportExports bundle file = Normal editText /\
    forall i, ts.pos node <= Z.of_nat i < ts.end_ node ->
      charAt editText i = charAt (ts.text file) i.
Proof.
  intros Hwf Hin Hkind Hsym.
  destruct (processImportExports_at bundle file node Hwf Hin)
    as (editText & Hrun & _ & Hchars).
  exists editText. split; [done|]. intros i Hi. rewrite (Hchars i Hi).
  unfold blanks, blankedSpan. by rewrite Hkind, Hsym.
Qed.

(** ** Span blanking (4.3) *)

(** C3: for every text and every span of it, the span-blanking operation
    returns a text of the same length, in which every character outside the
    span is unchanged and every character inside it is a space; consequently
    the edited body of every unit has the length of its original text. *)
Theorem C3_blanking_preserves_length :
  (forall (text : string) (pos end_ : Z),
     is_span text pos end_ ->
     String.length (whiteOut pos end_ text) = String.length text /\
     (forall i : nat, Z.of_nat i < pos \/ end_ <= Z.of_nat i ->
        charAt (whiteOut pos end_ text) i = charAt text i) /\
     (forall i : nat, pos <= Z.of_nat i < end_ ->
        charAt (whiteOut pos end_ text) i = Some Js.space)) /\
  (forall (bundle : Bundle) (file : ts.SourceFile),
     wellFormedFile file = true ->
     exists editText,
       processImportExports bundle file = Normal editText /\
       String.length editText = String.length (ts.text file)).
Proof.
  split.
  - intros text pos end_ Hspan. split; [|split].
    + by apply whiteOut_length.
    + intros i Hi. by apply whiteOut_outside.
    + intros i Hi. by apply whiteOut_inside.
  - intros bundle file Hwf.
    destruct (processImportExports_spec bundle file Hwf) as (editText & Hrun & Hlen & _).
    by exists editText.
Qed.

Lemma C3_blanking_witness :
  String.length (whiteOut 0 12 (ts.text Examples.sideEffectFile))
    = String.length (ts.text Examples.sideEffectFile) /\
  exists editText,
    processImportExports (Examples.bundleOf ["s.ts"] Library) Examples.sideEffectFile
      = Normal editText /\
    String.length editText = String.length (ts.text Examples.sideEffectFile).
Proof.
  split.
  - apply (proj1 C3_blanking_preserves_length (ts.text Examples.sideEffectFile) 0 12).
    unfold is_span. simpl. lia.
  - apply (proj2 C3_blanking_preserves_length). reflexivity.
Defined.

(** ** Import and export statements (4.3) *)

(** C6, as the code has it: in the edited body of a unit, under both packaging
    types, every top-level import or export node whose module specifier is a
    string literal that resolves to a symbol (an internal unit, an ambient
    declaration or an external package alike) has its whole span replaced by
    spaces; a node with no literal specifier, or one that does not resolve,
    keeps its text. *)
Theorem C6_resolved_import_export_blanked (bundle : Bundle) (file : ts.SourceFile)
    (node : ts.Node) :
  wellFormedFile file = true ->
  node ∈ ts.statements file ->
  isImportOrExport node = true ->
  exists editText,
    processImportExports bundle file = Normal editText /\
    forall i : nat, ts.pos node <= Z.of_nat i < ts.end_ node ->
      charAt editText i =
        match getSymbolFromNode node with
        | Some _ => Some Js.space
        | None => charAt (ts.text file) i
        end.
Proof.
  intros Hwf Hin Hkind.
  destruct (getSymbolFromNode node) as [symbol|] eqn:Hsym.
  - by apply (resolved_node_blanked bundle file node symbol).
  - by apply unresolved_node_kept.
Qed.

Lemma C6_resolved_import_witness :
  exists editText,
    processImportExports (Examples.bundleOf ["a.ts"] Component) Examples.fileA
      = Normal editText /\
    forall i : nat,
      ts.pos Examples.importFsA <= Z.of_nat i < ts.end_ Examples.importFsA ->
      charAt editText i = Some Js.space.
Proof.
  apply (C6_resolved_import_export_blanked
           (Examples.bundleOf ["a.ts"] Component) Examples.fileA Examples.importFsA).
  - reflexivity.
  - apply list_elem_of_In. simpl. tauto.
  - reflexivity.
Defined.

(** C6, as stated, fails: an import whose module does not resolve and an
    export list that names no module are External for the specification, and
    their spans are left in the body unchanged, under both packaging types. *)
Lemma C6_unresolved_import_not_blanked :
  (Examples.importUnknown ∈ ts.statements Examples.unknownFile /\
   isImportOrExport Examples.importUnknown = true /\
   Spec.classify Examples.importUnknown = Spec.External /\
   wellFormedFile Examples.unknownFile = true /\
   processImportExports (Examples.bundleOf ["u.ts"] Library) Examples.unknownFile
     = Normal "import { x } from 'nope';var u = x;" /\
   processImportExports (Examples.bundleOf ["u.ts"] Component) Examples.unknownFile
     = Normal "import { x } from 'nope';var u = x;" /\
   ts.pos Examples.importUnknown = 0 /\ ts.end_ Examples.importUnknown = 25 /\
   charAt "import { x } from 'nope';var u = x;" 0 <> Some Js.space) /\
  (Examples.localExport ∈ ts.statements Examples.localExportFile /\
   isImportOrExport Examples.localExport = true /\
   Spec.classify Examples.localExport = Spec.External /\
   wellFormedFile Examples.localExportFile = true /\
   processImportExports (Examples.bundleOf ["l.ts"] Library) Examples.localExportFile
     = Normal "var x = 1;export { x };" /\
   processImportExports (Examples.bundleOf ["l.ts"] Component) Examples.localExportFile
     = Normal "var x = 1;export { x };" /\
   ts.pos Examples.localExport = 10 /\ ts.end_ Examples.localExport = 23 /\
   charAt "var x = 1;export { x };" 10 <> Some Js.space).
Proof.
  split.
  - split; [apply list_elem_of_In; simpl; tauto|].
    repeat split; try reflexivity. discriminate.
  - split; [apply list_elem_of_In; simpl; tauto|].
    repeat split; try reflexivity. discriminate.
Qed.

(** ** Export modifiers under Component packaging (4.3) *)

(** Under Component packaging the code blanks [node.modifiers[0]] of a
    declaration flagged [Export] (lines 493, 500), and nothing else of it. *)
Lemma first_modifier_blanked (bundle : Bundle) (file : ts.SourceFile)
    (node : ts.Node) (m : ts.Modifier) (rest : list ts.Modifier) :
  getPackageType (package (config bundle)) = Component ->
  wellFormedFile file = true ->
  node ∈ ts.statements file ->
  isImportOrExport node = false ->
  isExported node = true ->
  ts.modifiers node = m :: rest ->
  (forall name_getText, ts.stmt node = ts.ModuleDeclaration name_getText ->
     name_getText <> getPackageNamespace (package (config bundle))) ->
  exists editText,
    processImportExports bundle file = Normal editText /\
    (forall i : nat, ts.mod_pos m <= Z.of_nat i < ts.mod_end m ->
       charAt editText i = Some Js.space) /\
    (forall i : nat, ts.pos node <= Z.of_nat i < ts.end_ node ->
       ~ (ts.mod_pos m <= Z.of_nat i < ts.mod_end m) ->
       charAt editText i = charAt (ts.text file) i).
Proof.
  intros Htype Hwf Hin Hkind Hexp Hmod Hname.
  destruct (processImportExports_at bundle file node Hwf Hin)
    as (editText & Hrun & _ & Hchars).
  assert (Hnode : wellFormedNode (ts.text file) node = true).
  { unfold wellFormedFile in Hwf. apply andb_true_iff in Hwf as [Hnodes _].
    rewrite forallb_forall in Hnodes. apply Hnodes. by apply list_elem_of_In. }
  destruct (wellFormedNode_modifier _ _ Hnode Hexp)
    as (m' & rest' & Hmod' & H1 & H2 & H3).
  assert (m' = m) as -> by congruence.
  assert (Hspan : blankedSpan bundle node = Some (ts.mod_pos m, ts.mod_end m)).
  { unfold blankedSpan. rewrite Hkind, Htype, Hexp, Hmod.
    rewrite bool_decide_eq_true_2 by done.
    destruct (ts.stmt node) as [| | |name_getText|] eqn:Hstmt; try done.
    specialize (Hname name_getText eq_refl).
    apply String.eqb_neq in Hname. by rewrite Hname. }
  exists editText. split; [done|]. split.
  - intros i Hi. rewrite Hchars by lia. unfold blanks. rewrite Hspan.
    replace (ts.mod_pos m <=? Z.of_nat i) with true by (symmetry; apply Z.leb_le; lia).
    replace (Z.of_nat i <? ts.mod_end m) with true by (symmetry; apply Z.ltb_lt; lia).
    done.
  - intros i Hi Hout. rewrite Hchars by lia. unfold blanks. rewrite Hspan.
    destruct ((ts.mod_pos m <=? Z.of_nat i) && (Z.of_nat i <? ts.mod_end m)) eqn:Hb; [|done].
    apply andb_true_iff in Hb as [Ha Hb]. apply Z.leb_le in Ha. apply Z.ltb_lt in Hb.
    lia.
Qed.

(** C8, as the code has it: under Component packaging, a top-level namespace
    or module declaration whose name differs from the configured namespace
    and whose first modifier is its export keyword has exactly that
    modifier's span blanked, and so has every other top-level declaration
    whose first modifier is its export keyword and that is not an import or
    export statement; the rest of the declaration's text is unchanged. *)
Theorem C8_component_export_modifier_blanked (bundle : Bundle) (file : ts.SourceFile)
    (node : ts.Node) (m : ts.Modifier) (rest : list ts.Modifier) :
  getPackageType (package (config bundle)) = Component ->
  wellFormedFile file = true ->
  node ∈ ts.statements file ->
  isImportOrExport node = false ->
  isExported node = true ->
  ts.modifiers node = m :: rest ->
  ts.mod_kind m = ts.SyntaxKind.ExportKeyword ->
  (forall name_getText, ts.stmt node = ts.ModuleDeclaration name_getText ->
     name_getText <> getPackageNamespace (package (config bundle))) ->
  exists editText,
    processImportExports bundle file = Normal editText /\
    exportModifier node = Some m /\
    (forall i : nat, ts.mod_pos m <= Z.of_nat i < ts.mod_end m ->
       charAt editText i = Some Js.space) /\
    (forall i : nat, ts.pos node <= Z.of_nat i < ts.end_ node ->
       ~ (ts.mod_pos m <= Z.of_nat i < ts.mod_end m) ->
       charAt editText i = charAt (ts.text file) i).
Proof.
  intros Htype Hwf Hin Hkind Hexp Hmod Hexport Hname.
  destruct (first_modifier_blanked bundle file node m rest
              Htype Hwf Hin Hkind Hexp Hmod Hname)
    as (editText & Hrun & Hinside & Houtside).
  exists editText. split; [done|]. split; [|done].
  unfold exportModifier. rewrite Hmod. simpl.
  by rewrite bool_decide_eq_true_2.
Qed.

Lemma C8_component_export_witness :
  exists editText,
    processImportExports (Examples.bundleOf ["e.ts"] Component) Examples.exportsFile
      = Normal editText /\
    exportModifier Examples.exportedNamespace = Some (Examples.exportKeyword 0) /\
    (forall i : nat, 0 <= Z.of_nat i < 6 -> charAt editText i = Some Js.space) /\
    (forall i : nat,
       ts.pos Examples.exportedNamespace <= Z.of_nat i < ts.end_ Examples.exportedNamespace ->
       ~ (0 <= Z.of_nat i < 6) ->
       charAt editText i = charAt (ts.text Examples.exportsFile) i).
Proof.
  apply (C8_component_export_modifier_blanked
           (Examples.bundleOf ["e.ts"] Component) Examples.exportsFile
           Examples.exportedNamespace (Examples.exportKeyword 0) []).
  - reflexivity.
  - reflexivity.
  - apply list_elem_of_In. simpl. tauto.
  - reflexivity.
  - reflexivity.
  - reflexivity.
  - reflexivity.
  - intros name_getText [= <-]. discriminate.
Defined.

(** C8, as stated, fails: an exported alias is a top-level declaration that
    carries an export modifier; being an import statement, it follows the
    import policy, and its modifier stays under Component packaging. *)
Lemma C8_exported_alias_keeps_modifier :
  Examples.exportedAlias ∈ ts.statements Examples.aliasFile /\
  wellFormedFile Examples.aliasFile = true /\
  isExported Examples.exportedAlias = true /\
  exportModifier Examples.exportedAlias = Some (Examples.exportKeyword 0) /\
  ts.mod_pos (Examples.exportKeyword 0) = 0 /\
  ts.mod_end (Examples.exportKeyword 0) = 6 /\
  processImportExports (Examples.bundleOf ["y.ts"] Component) Examples.aliasFile
    = Normal "export import y = X.Y;var z = y;" /\
  charAt "export import y = X.Y;var z = y;" 0 <> Some Js.space.
Proof.
  split; [apply list_elem_of_In; simpl; tauto|].
  repeat split; try reflexivity. discriminate.
Qed.

(** ** Builder actions *)

Lemma bind_Normal {A B} (c : M A) (k : A -> M B) (s s' : BundleBuilder) (b : B) :
  bind c k s = Normal (b, s') <->
  exists a s1, c s = Normal (a, s1) /\ k a s1 = Normal (b, s').
Proof.
  unfold bind. split.
  - destruct (c s) as [[a s1]|e]; [|done]. intros H. by exists a, s1.
  - intros (a & s1 & -> & H). done.
Qed.

Lemma lift_Normal {A} (c : Completion A) (s s' : BundleBuilder) (a : A) :
  lift c s = Normal (a, s') <-> c = Normal a /\ s' = s.
Proof.
  unfold lift. destruct c as [a'|e]; split; try done.
  - intros [= -> ->]. done.
  - intros [[= ->] ->]. done.
  - intros [? _]. done.
Qed.

Lemma hoare_bind {A B} (P : BundleBuilder -> Prop) (Q : A -> BundleBuilder -> Prop)
    (R : B -> BundleBuilder -> Prop) (c : M A) (k : A -> M B) :
  hoare P c Q -> (forall a, hoare (Q a) (k a) R) -> hoare P (bind c k) R.
Proof.
  intros Hc Hk s b s' HP Hrun.
  apply bind_Normal in Hrun as (a & s1 & H1 & H2).
  eapply Hk; [|done]. by eapply Hc.
Qed.

Lemma hoare_ret {A} (P : BundleBuilder -> Prop) (Q : A -> BundleBuilder -> Prop) (a : A) :
  (forall s, P s -> Q a s) -> hoare P (ret a) Q.
Proof. intros H s a' s' HP Heq. unfold ret in Heq. simplify_eq. by apply H. Qed.

Lemma hoare_weaken {A} (P P' : BundleBuilder -> Prop) (Q Q' : A -> BundleBuilder -> Prop)
    (c : M A) :
  hoare P' c Q' -> (forall s, P s -> P' s) -> (forall a s, Q' a s -> Q a s) ->
  hoare P c Q.
Proof. intros H HP HQ s a s' Hs Hrun. apply HQ. eapply H; [by apply HP | done]. Qed.


Lemma runs_bind {A B} (c : M A) (k : A -> M B) :
  runs c -> (forall a, runs (k a)) -> runs (bind c k).
Proof.
  intros Hc Hk s. destruct (Hc s) as (a & s1 & H1).
  destruct (Hk a s1) as (b & s2 & H2).
  exists b, s2. apply bind_Normal. by exists a, s1.
Qed.

Lemma runs_ret {A} (a : A) : runs (ret a).
Proof. intros s. by exists a, s. Qed.

Lemma runs_gets {A} (f : BundleBuilder -> A) : runs (gets f).
Proof. intros s. by exists (f s), s. Qed.

Lemma runs_modify (f : BundleBuilder -> BundleBuilder) : runs (modify f).
Proof. intros s. by exists tt, (f s). Qed.

Lemma runs_lift {A} (c : Completion A) (a : A) : c = Normal a -> runs (lift c).
Proof. intros -> s. by exists a, s. Qed.

Lemma runs_forEach {A} (l : list A) (f : A -> M unit) :
  (forall x, x ∈ l -> runs (f x)) -> runs (forEach l f).
Proof.
  induction l as [|x l IH]; intros Hf.
  - apply runs_ret.
  - simpl. apply runs_bind; [apply Hf; by left|].
    intros _. apply IH. intros y Hy. apply Hf. by right.
Qed.


(** ** The import registry (4.2) *)

Lemma hasProperty_insert_pair {V} (m : gmap string V) (k : string) (v : V) (k' : string) :
  Js.hasProperty (<[k := v]> m) k' = Js.hasProperty m k' || bool_decide (k' = k).
Proof.
  unfold Js.hasProperty. destruct (decide (k' = k)) as [->|Hne].
  - rewrite lookup_insert_eq, (bool_decide_eq_true_2 (is_Some _)) by (by eexists).
    rewrite (bool_decide_eq_true_2 (k = k)) by done. by rewrite orb_true_r.
  - rewrite lookup_insert_ne by done.
    rewrite (bool_decide_eq_false_2 (k' = k)) by done. by rewrite orb_false_r.
Qed.

Lemma hasProperty_empty {V} (k : string) : Js.hasProperty (∅ : gmap string V) k = false.
Proof.
  unfold Js.hasProperty. rewrite lookup_empty.
  apply bool_decide_eq_false_2. by intros [? ?].
Qed.

Lemma hasProperty_lookup {V} (m : gmap string V) (k : string) (v : V) :
  m !! k = Some v -> Js.hasProperty m k = true.
Proof. intros H. unfold Js.hasProperty. apply bool_decide_eq_true_2. by eexists. Qed.

Lemma hasProperty_None {V} (m : gmap string V) (k : string) :
  m !! k = None -> Js.hasProperty m k = false.
Proof.
  intros H. unfold Js.hasProperty. rewrite H.
  apply bool_decide_eq_false_2. by intros [? ?].
Qed.

(** Replacing the object under [m] by one that also has [n]. *)
Lemma registered_insert (registry : gmap string (gmap string string))
    (moduleImports : gmap string string) (s : BundleBuilder) (m n m' n' : string) :
  default ∅ (registry !! m) = moduleImports ->
  registered m' n'
    (set_bundleModuleImports (<[m := <[n := n]> moduleImports]> registry) s) =
  (match registry !! m' with
   | Some moduleImports => Js.hasProperty moduleImports n'
   | None => false
   end) || (bool_decide (m' = m) && bool_decide (n' = n)).
Proof.
  intros <-. unfold registered. simpl.
  destruct (decide (m' = m)) as [->|Hm].
  - rewrite lookup_insert_eq, bool_decide_eq_true_2 by done. simpl.
    rewrite hasProperty_insert_pair.
    destruct (registry !! m) as [mi|]; simpl; [done|]. by rewrite hasProperty_empty.
  - rewrite lookup_insert_ne by done.
    rewrite (bool_decide_eq_false_2 (m' = m)) by done.
    by rewrite orb_false_r.
Qed.

(** [addModuleImport] answers whether the pair is new and records it when
    [records] holds; it keeps every other pair and touches nothing else. *)
Lemma addModuleImport_spec (m n : string) (s : BundleBuilder) :
  exists s',
    addModuleImport m n s = Normal (negb (registered m n s), s') /\
    (forall m' n', registered m' n' s' =
                   registered m' n' s
                   || (bool_decide (m' = m) && bool_decide (n' = n) && records m n s)) /\
    unitView s' = unitView s /\
    bundleImportText s' = bundleImportText s /\
    emittedImports s' = emittedImports s /\
    (forall m' n', records m' n' s' = records m' n' s).
Proof.
  unfold addModuleImport, bind, gets.
  destruct (bundleModuleImports s !! m) as [mi|] eqn:Hm.
  - (* the registry has an object under [m] *)
    rewrite (hasProperty_lookup _ _ _ Hm). simpl.
    unfold getModuleImports, ret at 1. rewrite Hm.
    assert (Hregistered : registered m n s = Js.hasProperty mi n).
    { unfold registered. by rewrite Hm. }
    rewrite Hregistered.
    assert (Hrecords : records m n s = negb (Js.isProtoKey n)).
    { unfold records. rewrite (hasProperty_lookup _ _ _ Hm).
      by rewrite orb_true_r, andb_true_r. }
    destruct (Js.hasProperty mi n) eqn:Hn; simpl.
    + exists s. split; [done|]. split; [|done].
      intros m' n'. destruct (decide (m' = m)) as [->|Hne].
      * destruct (decide (n' = n)) as [->|Hne'].
        -- by rewrite Hregistered.
        -- rewrite (bool_decide_eq_false_2 (n' = n)) by done.
           by rewrite andb_false_r, orb_false_r.
      * rewrite (bool_decide_eq_false_2 (m' = m)) by done. by rewrite orb_false_r.
    + unfold setModuleImport. rewrite Hrecords.
      destruct (Js.isProtoKey n); simpl.
      * exists s. split; [done|]. split; [|done].
        intros m' n'. by rewrite andb_false_r, orb_false_r.
      * unfold modify, ret. rewrite Hm. eexists. split; [done|].
        split; [|split; [done|split; [done|split; [done|]]]].
        -- intros m' n'. rewrite andb_true_r.
           apply (registered_insert (bundleModuleImports s) mi s m n m' n').
           by rewrite Hm.
        -- intros m' n'. unfold records. simpl. rewrite hasProperty_insert_pair.
           destruct (decide (m' = m)) as [->|Hne].
           ++ by rewrite (hasProperty_lookup _ _ _ Hm).
           ++ rewrite (bool_decide_eq_false_2 (m' = m)) by done.
              by rewrite orb_false_r.
  - (* the registry has nothing under [m] *)
    rewrite (hasProperty_None _ _ Hm). simpl.
    assert (Hregistered : registered m n s = false).
    { unfold registered. by rewrite Hm. }
    rewrite Hregistered. simpl.
    unfold newModuleImports, setModuleImport, getModuleImports.
    destruct (Js.isProtoKey m) eqn:Hproto.
    + (* the new object becomes the prototype; nothing is recorded *)
      assert (Hrecords : records m n s = false).
      { unfold records. rewrite Hproto, (hasProperty_None _ _ Hm). simpl.
        by rewrite andb_false_r. }
      unfold modify, ret. simpl. rewrite Hm. simpl. rewrite hasProperty_empty. simpl.
      destruct (Js.isProtoKey n); simpl; rewrite ?Hm; simpl;
        (eexists; split; [done|]; split; [|done];
         intros m' n'; unfold registered; simpl;
         by rewrite Hrecords, andb_false_r, orb_false_r).
    + (* an empty object is recorded under [m], then the name in it *)
      assert (Hrecords : records m n s = negb (Js.isProtoKey n)).
      { unfold records. rewrite Hproto. simpl. by rewrite andb_true_r. }
      unfold modify, ret. simpl. rewrite lookup_insert_eq, hasProperty_empty. simpl.
      rewrite Hrecords.
      destruct (Js.isProtoKey n); simpl.
      * eexists. split; [done|]. split; [|split; [done|split; [done|split; [done|]]]].
        -- intros m' n'. rewrite andb_false_r, orb_false_r.
           unfold registered. simpl.
           destruct (decide (m' = m)) as [->|Hne].
           ++ by rewrite lookup_insert_eq, Hm, hasProperty_empty.
           ++ by rewrite lookup_insert_ne.
        -- intros m' n'. unfold records. simpl. rewrite hasProperty_insert_pair.
           destruct (decide (m' = m)) as [->|Hne].
           ++ by rewrite Hproto.
           ++ rewrite (bool_decide_eq_false_2 (m' = m)) by done.
              by rewrite orb_false_r.
      * rewrite lookup_insert_eq. eexists. split; [done|].
        split; [|split; [done|split; [done|split; [done|]]]].
        -- intros m' n'. rewrite andb_true_r. simpl. rewrite insert_insert_eq.
           pose proof (registered_insert (bundleModuleImports s) ∅ s m n m' n') as H.
           rewrite Hm in H. specialize (H eq_refl). exact H.
        -- intros m' n'. unfold records. simpl.
           rewrite insert_insert_eq, hasProperty_insert_pair.
           destruct (decide (m' = m)) as [->|Hne].
           ++ by rewrite Hproto.
           ++ rewrite (bool_decide_eq_false_2 (m' = m)) by done.
              by rewrite orb_false_r.
Qed.

Lemma runs_addModuleImport (m n : string) : runs (addModuleImport m n).
Proof. intros s. destruct (addModuleImport_spec m n s) as (s' & H & _). eauto. Qed.

(** The answers of a sequence of calls: the [i]-th is [true] exactly when its
    pair was not registered at the start and no earlier call recorded it. *)
Lemma registerAll_spec (calls : list (string * string)) (s : BundleBuilder) :
  exists answers s',
    registerAll calls s = Normal (answers, s') /\
    length answers = length calls /\
    (forall i m n, calls !! i = Some (m, n) ->
       answers !! i =
         Some (negb (registered m n s)
               && negb (records m n s && bool_decide ((m, n) ∈ take i calls)))) /\
    (forall m n, registered m n s' =
                 registered m n s || (records m n s && bool_decide ((m, n) ∈ calls))).
Proof.
  revert s. induction calls as [|[m n] calls IH]; intros s.
  - exists [], s. split; [done|]. split; [done|]. split; [done|].
    intros m n. case_bool_decide as Hin; [by apply elem_of_nil in Hin|].
    by rewrite andb_false_r, orb_false_r.
  - destruct (addModuleImport_spec m n s) as (s1 & Hadd & Hreg & _ & _ & _ & Hrec).
    destruct (IH s1) as (answers & s' & Hrun & Hlen & Hans & Hreg').
    assert (Hpair : forall m' n',
              bool_decide (m' = m) && bool_decide (n' = n)
              = bool_decide ((m', n') = (m, n))).
    { intros m' n'. rewrite <- bool_decide_and. apply bool_decide_ext.
      split; [by intros [-> ->] | by intros [= -> ->]]. }
    assert (Hsame : forall m' n',
              bool_decide ((m', n') = (m, n)) && records m n s
              = records m' n' s && bool_decide ((m', n') = (m, n))).
    { intros m' n'. destruct (decide ((m', n') = (m, n))) as [[= -> ->]|Hne].
      - rewrite bool_decide_eq_true_2 by done. by rewrite andb_true_r.
      - rewrite bool_decide_eq_false_2 by done. by rewrite andb_false_r. }
    exists (negb (registered m n s) :: answers), s'.
    split; [|split; [|split]].
    + simpl. apply bind_Normal. exists (negb (registered m n s)), s1. split; [done|].
      apply bind_Normal. by exists answers, s'.
    + simpl. by rewrite Hlen.
    + intros [|i] m' n' Hi.
      * injection Hi as <- <-. simpl.
        by rewrite andb_false_r, andb_true_r.
      * simpl in Hi. simpl. rewrite (Hans i m' n' Hi), Hreg, Hrec, Hpair, Hsame.
        f_equal. rewrite negb_orb, <- andb_assoc. f_equal.
        rewrite <- negb_orb. f_equal. rewrite <- andb_orb_distrib_r. f_equal.
        rewrite <- bool_decide_or. apply bool_decide_ext. rewrite elem_of_cons. tauto.
    + intros m' n'. rewrite Hreg', Hreg, Hrec, Hpair, Hsame, <- orb_assoc. f_equal.
      rewrite <- andb_orb_distrib_r. f_equal.
      rewrite <- bool_decide_or. apply bool_decide_ext. by rewrite elem_of_cons.
Qed.

(** ** String concatenation, and the state in which [build] ends *)

Lemma string_app_assoc (a b c : string) : (a +:+ b) +:+ c = a +:+ (b +:+ c).
Proof. apply chars_inj. by rewrite !chars_app, app_assoc. Qed.

Lemma string_app_empty_r (a : string) : a +:+ "" = a.
Proof. apply chars_inj. by rewrite chars_app, app_nil_r. Qed.

(** [build] leaves the state in which its loop ended. *)
Lemma build_Normal (host : Host) (program : ts.Program)
    (dependencies : ts.SourceFile -> Dependencies) (bundle : Bundle)
    (s0 s' : BundleBuilder) (result : BundleResult) :
  build host program dependencies bundle s0 = Normal (result, s') ->
  exists outcome,
    forEachBundleFile host program dependencies bundle (fileNames bundle) false ∅ reset
      = Normal (outcome, s') /\
    match outcome with
    | inl failure => result = failure
    | inr isBundleTsx =>
        let bundleExtension := if isBundleTsx : bool then ".tsx" else ".ts" in
        result =
          {| status := ts.Success; errors := None;
             bundleSource :=
               Some {| path := bundleFilePath host bundle +:+ bundleExtension;
                       extension := bundleExtension;
                       bundle_text :=
                         assemble bundle (bundleImportText s') (bundleCodeText s') |} |}
    end.
Proof.
  unfold build. intros H.
  apply bind_Normal in H as (? & s1 & H1 & H). unfold modify in H1. simplify_eq.
  apply bind_Normal in H as (outcome & s2 & H2 & H).
  exists outcome. destruct outcome as [failure|isBundleTsx].
  - unfold ret in H. by simplify_eq.
  - apply bind_Normal in H as (importText & s3 & H3 & H).
    apply bind_Normal in H as (codeText & s4 & H4 & H).
    unfold gets, ret in *. by simplify_eq.
Qed.

(** C4: the registry records no pair whose module name or binding name is
    [__proto__]: an assignment under that key creates no own property of the
    object, so [addModuleImport] answers [true] on every call for such a pair
    (and only on the first call for another pair); a build in which two units
    import [x] from the module ['__proto__'] writes the same import statement
    twice into the preamble. *)
Theorem C4_proto_pair_written_twice :
  (exists s',
     registerAll [("__proto__", "x"); ("__proto__", "x")] reset
       = Normal ([true; true], s')) /\
  (exists s',
     registerAll [("fs", "__proto__"); ("fs", "__proto__")] reset
       = Normal ([true; true], s')) /\
  (exists s',
     registerAll [("fs", "x"); ("fs", "x")] reset = Normal ([true; false], s')) /\
  wellFormedProgram Examples.protoProgram Examples.protoDependencies = true /\
  (exists file s',
     build Examples.host Examples.protoProgram Examples.protoDependencies
       (Examples.bundleOf ["p.ts"] Component) reset
       = Normal ({| status := ts.Success; errors := None;
                    bundleSource := Some file |}, s') /\
     bundleImportText s' =
       ("import { x } from '__proto__';" +:+ Js.LF)
       +:+ ("import { x } from '__proto__';" +:+ Js.LF) /\
     bundle_text file = bundleImportText s' +:+ bundleCodeText s').
Proof.
  split; [eexists; vm_compute; reflexivity|].
  split; [eexists; vm_compute; reflexivity|].
  split; [eexists; vm_compute; reflexivity|].
  split; [vm_compute; reflexivity|].
  eexists _, _. split; [vm_compute; reflexivity|].
  split; vm_compute; reflexivity.
Qed.

(** ** The build returns on well-formed input *)

Section Totality.

Variable host : Host.
Variable program : ts.Program.
Variable dependencies : ts.SourceFile -> Dependencies.
Variable bundle : Bundle.
Hypothesis Hwf : wellFormedProgram program dependencies = true.

Lemma getSourceFile_Some (fileName : string) (file : ts.SourceFile) :
  ts.getSourceFile program fileName = Some file ->
  file ∈ ts.getSourceFiles program /\ ts.fileName file = fileName.
Proof.
  unfold ts.getSourceFile. intros H. apply find_some in H as [Hin Heq].
  split; [by apply list_elem_of_In | by apply String.eqb_eq].
Qed.

Lemma program_file_wellFormed (file : ts.SourceFile) :
  file ∈ ts.getSourceFiles program ->
  wellFormedFile file = true /\
  resolvedDependencies program (dependencies file) = true.
Proof.
  intros Hin. unfold wellFormedProgram in Hwf. rewrite forallb_forall in Hwf.
  apply list_elem_of_In in Hin. apply Hwf in Hin. by apply andb_true_iff in Hin.
Qed.

Lemma runs_addSourceFile (file : ts.SourceFile) :
  wellFormedFile file = true -> runs (addSourceFile bundle file).
Proof.
  intros Hfile. unfold addSourceFile. destruct (isCodeSourceFile file).
  - destruct (processImportExports_spec bundle file Hfile) as (editText & Hrun & _).
    apply runs_bind; [by apply (runs_lift _ editText)|]. intros ?.
    repeat (apply runs_bind; [apply runs_modify|]; intros ?). apply runs_modify.
  - apply runs_bind; [apply runs_gets|]. intros sources.
    destruct (negb _); [apply runs_modify | apply runs_ret].
Qed.

Lemma runs_writeNamedImports (m : string) (elements : list ts.ImportSpecifier)
    (acc : string * bool * list string) :
  runs (writeNamedImports m elements acc).
Proof.
  revert acc. induction elements as [|element rest IH]; intros acc.
  - apply runs_ret.
  - simpl. apply runs_bind; [|intros ?; apply IH].
    destruct acc as [[text flag] written]. unfold writeNamedImport.
    apply runs_bind; [apply runs_addModuleImport|]. intros [|]; apply runs_ret.
Qed.

Lemma runs_emit (text : string) (e : ImportEmission) :
  runs (emitModuleImportDeclaration text ;; modify (note_import e)).
Proof. apply runs_bind; [apply runs_modify|]. intros ?. apply runs_modify. Qed.

Lemma runs_writeImportDeclaration (node : ts.Node) : runs (writeImportDeclaration node).
Proof.
  unfold writeImportDeclaration.
  destruct (ts.stmt node) as [[importClause|] moduleSpecifier| | | |];
    try apply runs_ret.
  apply runs_bind.
  - unfold writeDefaultBinding.
    destruct (ts.clause_name importClause) as [name|]; [|apply runs_ret].
    apply runs_bind; [apply runs_addModuleImport|]. intros [|]; apply runs_ret.
  - intros [[text hasDefaultBinding] written].
    apply runs_bind.
    + unfold writeNamedBindings.
      destruct (ts.namedBindings importClause) as [[name|elements]|].
      * apply runs_bind; [apply runs_addModuleImport|]. intros [|]; apply runs_ret.
      * apply runs_bind; [apply runs_writeNamedImports|].
        intros [[text' flag'] written']. apply runs_ret.
      * apply runs_ret.
    + intros [[text' hasNamedBindings] written'].
      destruct (hasDefaultBinding || hasNamedBindings); [apply runs_emit | apply runs_ret].
Qed.

(** What [resolvedImport] says about the node handled by the loop. *)
Lemma resolvedImport_cases (importNode : ts.Node) :
  resolvedImport program importNode = true ->
  exists declaration,
    firstDeclaration (getSymbolFromNode importNode) = Normal declaration /\
    ((codeTarget importNode = None /\
      isCodeModule (getSymbolFromNode importNode) = Normal false) \/
     (exists file,
        codeTarget importNode = Some (ts.decl_sourceFile declaration) /\
        isCodeModule (getSymbolFromNode importNode) = Normal true /\
        getSourceFileOf program declaration = Normal file /\
        ts.fileName file = ts.decl_sourceFile declaration /\
        file ∈ ts.getSourceFiles program /\
        isCodeSourceFile file = true)).
Proof.
  unfold resolvedImport, codeTarget, isCodeModule, getSourceFileOf.
  destruct (firstDeclaration _) as [d|]; [|done]. intros H. exists d. split; [done|].
  destruct (bool_decide (ts.decl_kind d = ts.SyntaxKind.SourceFile)) eqn:Hkind;
    [|left; done].
  destruct (ts.getSourceFile program (ts.decl_sourceFile d)) as [file|] eqn:Hfile; [|done].
  apply Z.eqb_eq in H. simpl.
  destruct (ts.hasFlag (ts.decl_flags d) ts.NodeFlags.DeclarationFile) eqn:Hflag;
    [left; done|]. right. exists file.
  destruct (getSourceFile_Some _ _ Hfile) as [Hin Hname].
  repeat split; try done.
  unfold isCodeSourceFile. rewrite <- H, Hflag. done.
Qed.

(** The two ways of the loop body: an internal unit is added unless it was
    added before; any other reference goes to the binding rewriter. *)
Lemma processImportNode_internal (importNode : ts.Node) (declaration : ts.Declaration)
    (file : ts.SourceFile) (s : BundleBuilder) :
  firstDeclaration (getSymbolFromNode importNode) = Normal declaration ->
  isCodeModule (getSymbolFromNode importNode) = Normal true ->
  getSourceFileOf program declaration = Normal file ->
  processImportNode program bundle importNode s =
    if negb (Js.hasProperty (bundleImportedFiles s) (ts.fileName file))
    then addSourceFile bundle file s
    else Normal (tt, s).
Proof.
  intros Hd Hcode Hfile. unfold processImportNode, bind, lift, gets.
  rewrite Hcode, Hd, Hfile. by destruct (negb _).
Qed.

Lemma processImportNode_external (importNode : ts.Node) (s : BundleBuilder) :
  isCodeModule (getSymbolFromNode importNode) = Normal false ->
  processImportNode program bundle importNode s =
    match ts.stmt importNode with
    | ts.ImportEqualsDeclaration importName moduleReference =>
        (fresh <- addModuleImport (getImportModuleName moduleReference) importName ;;
         if fresh : bool then
           emitModuleImportDeclaration (ts.getText importNode) ;;
           modify (note_import {| em_module := getImportModuleName moduleReference;
                                  em_bindings := [importName];
                                  em_text := ts.getText importNode |})
         else ret tt) s
    | _ => writeImportDeclaration importNode s
    end.
Proof.
  intros Hcode. unfold processImportNode at 1. unfold bind at 1. unfold lift.
  rewrite Hcode. by destruct (ts.stmt importNode).
Qed.

Lemma runs_processImportNode (importNode : ts.Node) :
  resolvedImport program importNode = true ->
  runs (processImportNode program bundle importNode).
Proof.
  intros Hres s.
  destruct (resolvedImport_cases importNode Hres)
    as (d & Hd & [[_ Hcode]|(file & _ & Hcode & Hfile & _ & Hin & _)]).
  - rewrite processImportNode_external by done.
    destruct (ts.stmt importNode) as [| importName moduleReference | | |];
      try apply runs_writeImportDeclaration.
    apply runs_bind; [apply runs_addModuleImport|].
    intros [|]; [apply runs_emit | apply runs_ret].
  - rewrite (processImportNode_internal importNode d file) by done.
    destruct (negb _); [|by exists tt, s].
    apply runs_addSourceFile. by apply program_file_wellFormed.
Qed.

Lemma runs_traverseDependencies (d : Dependencies) :
  resolvedDependencies program d = true ->
  runs (traverseDependencies program bundle d).
Proof.
  intros Hres. unfold traverseDependencies. apply runs_forEach.
  intros [depKey importNodes] Hin. apply runs_forEach. intros importNode Hnode.
  apply runs_processImportNode.
  unfold resolvedDependencies in Hres. rewrite forallb_forall in Hres.
  apply list_elem_of_In in Hin. specialize (Hres _ Hin). simpl in Hres.
  rewrite forallb_forall in Hres. apply Hres. by apply list_elem_of_In.
Qed.

Lemma runs_forEachBundleFile (fileNames : list string) (isBundleTsx : bool)
    (allDependencies : gmap string (list ts.Node)) :
  runs (forEachBundleFile host program dependencies bundle fileNames
          isBundleTsx allDependencies).
Proof.
  revert isBundleTsx allDependencies.
  induction fileNames as [|fileName rest IH]; intros isBundleTsx allDependencies.
  - apply runs_ret.
  - simpl. destruct (ts.getSourceFile program _) as [file|] eqn:Hfile; [|apply runs_ret].
    destruct (getSourceFile_Some _ _ Hfile) as [Hin _].
    destruct (program_file_wellFormed _ Hin) as [Hwff Hres].
    apply runs_bind; [by apply runs_traverseDependencies|]. intros ?.
    apply runs_bind; [by apply runs_addSourceFile|]. intros ?. apply IH.
Qed.

Lemma runs_build : runs (build host program dependencies bundle).
Proof.
  unfold build. apply runs_bind; [apply runs_modify|]. intros ?.
  apply runs_bind; [apply runs_forEachBundleFile|]. intros [failure|isBundleTsx].
  - apply runs_ret.
  - apply runs_bind; [apply runs_gets|]. intros ?.
    apply runs_bind; [apply runs_gets|]. intros ?. apply runs_ret.
Qed.

(** The loop leaves [build] at the first entry that is not a source file of
    the program. *)
Lemma forEachBundleFile_missing (pre post : list string) (missing : string)
    (isBundleTsx : bool) (allDependencies : gmap string (list ts.Node))
    (s : BundleBuilder) :
  (forall fileName, fileName ∈ pre ->
     is_Some (ts.getSourceFile program
                (getCanonicalFileName host (normalizeSlashes host fileName)))) ->
  ts.getSourceFile program (getCanonicalFileName host (normalizeSlashes host missing))
    = None ->
  exists s',
    forEachBundleFile host program dependencies bundle (pre ++ missing :: post)
      isBundleTsx allDependencies s =
    Normal (inl (sourceFileNotFound
                   (getCanonicalFileName host (normalizeSlashes host missing))), s').
Proof.
  intros Hpre Hmissing. revert isBundleTsx allDependencies s.
  induction pre as [|fileName pre IH]; intros isBundleTsx allDependencies s.
  - simpl. rewrite Hmissing. by exists s.
  - simpl. destruct (Hpre fileName) as [file Hfile]; [by left|]. rewrite Hfile.
    destruct (getSourceFile_Some _ _ Hfile) as [Hin _].
    destruct (program_file_wellFormed _ Hin) as [Hwff Hres].
    destruct (runs_traverseDependencies _ Hres s) as (? & s1 & H1).
    destruct (runs_addSourceFile file Hwff s1) as (? & s2 & H2).
    destruct (IH (fun f Hf => Hpre f (list_elem_of_further _ _ _ Hf))
                (if bool_decide (ts.languageVariant file = ts.JSX) then true else isBundleTsx)
                (mergeDependencies allDependencies (dependencies file)) s2)
      as (s' & H3).
    exists s'. apply bind_Normal. eexists _, s1. split; [done|].
    apply bind_Normal. eexists _, s2. split; [done|]. done.
Qed.

End Totality.

(** A result that leaves the loop early is a failure without output. *)
Lemma forEachBundleFile_inl (host : Host) (program : ts.Program)
    (dependencies : ts.SourceFile -> Dependencies) (bundle : Bundle)
    (fileNames : list string) (isBundleTsx : bool)
    (allDependencies : gmap string (list ts.Node)) (s s' : BundleBuilder)
    (failure : BundleResult) :
  forEachBundleFile host program dependencies bundle fileNames isBundleTsx allDependencies s
    = Normal (inl failure, s') ->
  exists bundleSourceFileName, failure = sourceFileNotFound bundleSourceFileName.
Proof.
  revert isBundleTsx allDependencies s.
  induction fileNames as [|fileName rest IH]; intros isBundleTsx allDependencies s.
  - simpl. unfold ret. intros H. simplify_eq.
  - simpl. destruct (ts.getSourceFile program _) as [file|].
    + intros H. apply bind_Normal in H as (? & s1 & _ & H).
      apply bind_Normal in H as (? & s2 & _ & H). by apply IH in H.
    + unfold ret. intros H. simplify_eq. by eexists.
Qed.

(** ** Results of [build] (4.6, 7) *)

(** C5: if an entry file path of the bundle does not resolve to a source file,
    [build] stops there and returns a failure carrying exactly one diagnostic,
    which identifies the missing path, and no output text. *)
Theorem C5_missing_entry_fails (host : Host) (program : ts.Program)
    (dependencies : ts.SourceFile -> Dependencies) (bundle : Bundle)
    (pre post : list string) (missing : string) (s0 : BundleBuilder) :
  wellFormedProgram program dependencies = true ->
  fileNames bundle = pre ++ missing :: post ->
  (forall fileName, fileName ∈ pre ->
     is_Some (ts.getSourceFile program
                (getCanonicalFileName host (normalizeSlashes host fileName)))) ->
  ts.getSourceFile program (getCanonicalFileName host (normalizeSlashes host missing))
    = None ->
  exists diagnostic s',
    build host program dependencies bundle s0 =
      Normal ({| status := ts.DiagnosticsPresent_OutputsSkipped;
                 errors := Some [diagnostic];
                 bundleSource := None |}, s') /\
    code diagnostic = 6060 /\
    category diagnostic = ts.Error /\
    arguments diagnostic = [getCanonicalFileName host (normalizeSlashes host missing)].
Proof.
  intros Hwf Hnames Hpre Hmissing.
  destruct (forEachBundleFile_missing host program dependencies bundle Hwf
              pre post missing false ∅ reset Hpre Hmissing) as (s' & Hloop).
  eexists _, s'. split.
  - unfold build. apply bind_Normal. exists tt, reset. split; [done|].
    apply bind_Normal. rewrite Hnames. eexists _, s'. split; [exact Hloop|]. done.
  - done.
Qed.

Lemma C5_missing_entry_witness :
  exists diagnostic s',
    build Examples.host Examples.chain Examples.chainDependencies
      (Examples.bundleOf ["a.ts"; "missing.ts"; "b.ts"] Library) reset =
      Normal ({| status := ts.DiagnosticsPresent_OutputsSkipped;
                 errors := Some [diagnostic];
                 bundleSource := None |}, s') /\
    code diagnostic = 6060 /\
    category diagnostic = ts.Error /\
    arguments diagnostic = ["missing.ts"].
Proof.
  apply (C5_missing_entry_fails Examples.host Examples.chain Examples.chainDependencies
           (Examples.bundleOf ["a.ts"; "missing.ts"; "b.ts"] Library)
           ["a.ts"] ["b.ts"] "missing.ts" reset).
  - reflexivity.
  - reflexivity.
  - intros fileName Hin. apply list_elem_of_singleton in Hin. subst fileName.
    eexists. reflexivity.
  - reflexivity.
Defined.

(** C7, as the code has it: under Library packaging with namespace N, the
    output text is the preamble followed by [export namespace N {], a carriage
    return and a line feed, the body, a space, a carriage return, a line feed
    and the closing brace. *)
Theorem C7_library_wrapping (host : Host) (program : ts.Program)
    (dependencies : ts.SourceFile -> Dependencies) (bundle : Bundle)
    (s0 s' : BundleBuilder) (result : BundleResult) :
  getPackageType (package (config bundle)) = Library ->
  build host program dependencies bundle s0 = Normal (result, s') ->
  status result = ts.Success ->
  exists file,
    bundleSource result = Some file /\
    bundle_text file =
      bundleImportText s' +:+ "export namespace "
      +:+ getPackageNamespace (package (config bundle)) +:+ " {" +:+ Js.CR +:+ Js.LF
      +:+ bundleCodeText s' +:+ " " +:+ Js.CR +:+ Js.LF +:+ "}".
Proof.
  intros Htype Hrun Hstatus.
  apply build_Normal in Hrun as ([failure|isBundleTsx] & Hloop & Hresult).
  - apply forEachBundleFile_inl in Hloop as (fileName & ->).
    simpl in Hresult. rewrite Hresult in Hstatus. discriminate.
  - simpl in Hresult. rewrite Hresult. eexists. split; [done|]. simpl.
    unfold assemble. rewrite Htype. rewrite bool_decide_eq_true_2 by done.
    by rewrite !string_app_assoc.
Qed.

Lemma C7_library_wrapping_witness :
  exists result s' file,
    build Examples.host Examples.chain Examples.chainDependencies
      (Examples.bundleOf ["a.ts"] Library) reset = Normal (result, s') /\
    bundleSource result = Some file /\
    bundle_text file =
      bundleImportText s' +:+ "export namespace " +:+ "Pkg" +:+ " {" +:+ Js.CR +:+ Js.LF
      +:+ bundleCodeText s' +:+ " " +:+ Js.CR +:+ Js.LF +:+ "}".
Proof.
  destruct (build Examples.host Examples.chain Examples.chainDependencies
              (Examples.bundleOf ["a.ts"] Library) reset)
    as [[result s']|e] eqn:Hrun.
  - assert (Hstatus : status result = ts.Success).
    { vm_compute in Hrun. injection Hrun as <- _. reflexivity. }
    destruct (C7_library_wrapping Examples.host Examples.chain Examples.chainDependencies
                (Examples.bundleOf ["a.ts"] Library) reset s' result
                eq_refl Hrun Hstatus) as (file & Hfile & Htext).
    exists result, s', file. split; [reflexivity|]. split; assumption.
  - vm_compute in Hrun. discriminate.
Defined.

(** C7, as stated, fails: the namespace is not wrapped with bare line feeds. *)
Lemma C7_wrapping_is_not_bare_line_feeds :
  exists result s' file,
    build Examples.host Examples.chain Examples.chainDependencies
      (Examples.bundleOf ["a.ts"] Library) reset = Normal (result, s') /\
    status result = ts.Success /\
    bundleSource result = Some file /\
    bundle_text file <>
      bundleImportText s' +:+ "export namespace Pkg {" +:+ Js.LF
      +:+ bundleCodeText s' +:+ Js.LF +:+ "}".
Proof.
  eexists _, _, _. split; [vm_compute; reflexivity|].
  split; [reflexivity|]. split; [reflexivity|]. vm_compute. discriminate.
Qed.

(** C9: the extension follows the entry files only. With a plain entry that
    imports a JSX unit, the unit is processed and emitted, and the extension
    of the result is ".ts". *)
Theorem C9_jsx_dependency_yields_ts :
  exists s' file,
    build Examples.host Examples.withView Examples.viewDependencies
      (Examples.bundleOf ["main.ts"] Component) reset =
      Normal ({| status := ts.Success; errors := None; bundleSource := Some file |}, s') /\
    Examples.viewFile ∈ emittedUnits s' /\
    ts.languageVariant Examples.viewFile = ts.JSX /\
    extension file = ".ts".
Proof.
  eexists _, _. split; [vm_compute; reflexivity|].
  split; [|split; reflexivity]. apply list_elem_of_In. simpl. tauto.
Qed.

(** C1: the entry file is appended without looking at the files already
    added. With entries a.ts and b.ts, where a.ts imports b.ts, the body of
    b.ts is appended twice. *)
Theorem C1_entry_emitted_twice :
  exists result s',
    build Examples.host Examples.chain Examples.chainDependencies
      (Examples.bundleOf ["a.ts"; "b.ts"] Component) reset = Normal (result, s') /\
    status result = ts.Success /\
    emittedNames s' = ["c.ts"; "b.ts"; "a.ts"; "b.ts"] /\
    bodyText (Examples.bundleOf ["a.ts"; "b.ts"] Component) (emittedUnits s')
      = Some (bundleCodeText s') /\
    count_occ string_dec (emittedNames s') "b.ts" = 2%nat.
Proof.
  eexists _, _. split; [vm_compute; reflexivity|].
  repeat split; vm_compute; reflexivity.
Qed.

(** ** Side-effect imports (4.4) *)

(** C10, as the code has it: for an import declaration without an import
    clause, the binding rewriter emits nothing and registers nothing. When
    the module specifier resolves to a symbol that is not an internal unit,
    the loop of [build] passes over the declaration without an error and its
    text is blanked from the body of its unit, so the statement is absent
    from the output. When the module specifier does not resolve, the
    statement is not dropped: it keeps its text in the body of its unit. *)
Theorem C10_side_effect_import_dropped (node : ts.Node) (moduleSpecifier : ts.Expression) :
  ts.stmt node = ts.ImportDeclaration None moduleSpecifier ->
  (forall s, writeImportDeclaration node s = Normal (tt, s)) /\
  (isCodeModule (getSymbolFromNode node) = Normal false ->
   (forall program bundle s, processImportNode program bundle node s = Normal (tt, s)) /\
   (forall bundle file,
      wellFormedFile file = true ->
      node ∈ ts.statements file ->
      exists editText,
        processImportExports bundle file = Normal editText /\
        forall i : nat, ts.pos node <= Z.of_nat i < ts.end_ node ->
          charAt editText i = Some Js.space)) /\
  (getSymbolFromNode node = None ->
   forall bundle file,
     wellFormedFile file = true ->
     node ∈ ts.statements file ->
     exists editText,
       processImportExports bundle file = Normal editText /\
       forall i : nat, ts.pos node <= Z.of_nat i < ts.end_ node ->
         charAt editText i = charAt (ts.text file) i).
Proof.
  intros Hstmt.
  assert (Hwrite : forall s, writeImportDeclaration node s = Normal (tt, s)).
  { intros s. unfold writeImportDeclaration. by rewrite Hstmt. }
  assert (Hkind : isImportOrExport node = true).
  { unfold isImportOrExport, ts.kind. by rewrite Hstmt. }
  split; [done|]. split.
  - intros Hexternal. split.
    + intros program bundle s. rewrite processImportNode_external by done.
      rewrite Hstmt. apply Hwrite.
    + intros bundle file Hwf Hin.
      destruct (getSymbolFromNode node) as [symbol|] eqn:Hsym; [|done].
      by apply (resolved_node_blanked bundle file node symbol).
  - intros Hsym bundle file Hwf Hin.
    by apply (unresolved_node_kept bundle file node).
Qed.

Lemma C10_side_effect_import_witness :
  (forall s, writeImportDeclaration Examples.sideEffectImport s = Normal (tt, s)) /\
  (forall program bundle s,
     processImportNode program bundle Examples.sideEffectImport s = Normal (tt, s)) /\
  (exists editText,
     processImportExports (Examples.bundleOf ["s.ts"] Library) Examples.sideEffectFile
       = Normal editText /\
     forall i : nat,
       ts.pos Examples.sideEffectImport <= Z.of_nat i < ts.end_ Examples.sideEffectImport ->
       charAt editText i = Some Js.space) /\
  (exists editText,
     processImportExports (Examples.bundleOf ["n.ts"] Library)
       Examples.sideEffectUnknownFile = Normal editText /\
     forall i : nat,
       ts.pos Examples.sideEffectUnknown <= Z.of_nat i < ts.end_ Examples.sideEffectUnknown ->
       charAt editText i = charAt (ts.text Examples.sideEffectUnknownFile) i).
Proof.
  destruct (C10_side_effect_import_dropped Examples.sideEffectImport Examples.fs eq_refl)
    as (Hwrite & Hexternal & _).
  destruct (Hexternal eq_refl) as [Hloop Hbody].
  destruct (C10_side_effect_import_dropped Examples.sideEffectUnknown
              (Examples.literal "nope" None) eq_refl)
    as (_ & _ & Hunresolved).
  split; [exact Hwrite|]. split; [exact Hloop|]. split.
  - apply Hbody; [reflexivity|]. apply list_elem_of_In. simpl. tauto.
  - apply (Hunresolved eq_refl); [reflexivity|]. apply list_elem_of_In. simpl. tauto.
Defined.

(** C10, as stated, fails: a side-effect import whose module does not resolve
    is External for the specification; it is not dropped from the output,
    its text stays in the body under both packaging types, and the loop of
    [build] throws on it. *)
Lemma C10_unresolved_side_effect_import_kept :
  Examples.sideEffectUnknown ∈ ts.statements Examples.sideEffectUnknownFile /\
  ts.stmt Examples.sideEffectUnknown
    = ts.ImportDeclaration None (Examples.literal "nope" None) /\
  Spec.classify Examples.sideEffectUnknown = Spec.External /\
  wellFormedFile Examples.sideEffectUnknownFile = true /\
  processImportExports (Examples.bundleOf ["n.ts"] Library) Examples.sideEffectUnknownFile
    = Normal "import 'nope';var n = 1;" /\
  processImportExports (Examples.bundleOf ["n.ts"] Component)
    Examples.sideEffectUnknownFile = Normal "import 'nope';var n = 1;" /\
  ts.pos Examples.sideEffectUnknown = 0 /\ ts.end_ Examples.sideEffectUnknown = 14 /\
  charAt "import 'nope';var n = 1;" 0 <> Some Js.space /\
  processImportNode Examples.chain (Examples.bundleOf ["n.ts"] Component)
    Examples.sideEffectUnknown reset = Throw TypeError.
Proof.
  split; [apply list_elem_of_In; simpl; tauto|].
  repeat split; try reflexivity. discriminate.
Qed.

(** ** Emission order (4.5) *)

Lemma ordered_nil (program : ts.Program) : ordered program [].
Proof. intros l1 A l2 H. by destruct l1. Qed.

Lemma ordered_snoc (program : ts.Program) (l : list string) (k : string) :
  ordered program l ->
  k ∈ l \/ (forall B, imports program k B -> B ∈ l) ->
  ordered program (l ++ [k]).
Proof.
  intros Hord Hk l1 A l2 Heq HA B Himp.
  destruct l2 as [|x l2 _] using rev_ind.
  - apply app_inj_tail in Heq as [-> ->].
    destruct Hk as [Hk|Hk]; [done | by apply Hk].
  - rewrite app_comm_cons, app_assoc in Heq.
    apply app_inj_tail in Heq as [-> _]. by apply (Hord l1 A l2).
Qed.

Lemma bodyText_snoc (bundle : Bundle) (units : list ts.SourceFile) (file : ts.SourceFile)
    (text editText : string) :
  bodyText bundle units = Some text ->
  processImportExports bundle file = Normal editText ->
  bodyText bundle (units ++ [file]) = Some (text +:+ (editText +:+ Js.LF)).
Proof.
  intros Hunits Hfile. revert text Hunits.
  induction units as [|u units IH]; intros text Hunits.
  - simpl in *. rewrite Hfile. injection Hunits as <-.
    by rewrite string_app_empty_r.
  - simpl in *. destruct (processImportExports bundle u) as [e|]; [|done].
    destruct (bodyText bundle units) as [t|]; [|done].
    rewrite (IH t eq_refl). injection Hunits as <-.
    by rewrite (string_app_assoc (e +:+ Js.LF) t).
Qed.

Lemma hasProperty_insert (m : gmap string string) (k v name : string) :
  Js.hasProperty (<[k := v]> m) name = true <->
  name = k \/ Js.hasProperty m name = true.
Proof.
  unfold Js.hasProperty. rewrite !bool_decide_eq_true.
  destruct (decide (name = k)) as [->|Hne].
  - rewrite lookup_insert_eq. split; [by left | by eexists].
  - rewrite lookup_insert_ne by done. split; [by right|]. by intros [?|?].
Qed.

Lemma addSourceFile_code (bundle : Bundle) (file : ts.SourceFile) (editText : string)
    (s : BundleBuilder) :
  isCodeSourceFile file = true ->
  processImportExports bundle file = Normal editText ->
  addSourceFile bundle file s =
    Normal (tt,
            note_unit file
              (set_bundleImportedFiles
                 (<[ts.fileName file := ts.fileName file]> (bundleImportedFiles s))
                 (set_bundleCodeText (bundleCodeText s +:+ (editText +:+ Js.LF)) s))).
Proof.
  intros Hcode Hedit. unfold addSourceFile, bind, lift, modify.
  by rewrite Hcode, Hedit.
Qed.

Lemma addSourceFile_declaration (bundle : Bundle) (file : ts.SourceFile)
    (s s' : BundleBuilder) (u : unit) :
  isCodeSourceFile file = false ->
  addSourceFile bundle file s = Normal (u, s') ->
  unitView s' = unitView s.
Proof.
  intros Hcode. unfold addSourceFile, bind, gets. rewrite Hcode.
  destruct (negb _); unfold modify, ret; intros H; by simplify_eq.
Qed.

Section UnitViewFrame.

Variable v : string * gmap string string * list ts.SourceFile.

Abbreviation unchanged := (unitViewIs v).

Lemma addModuleImport_unitView (m n : string) :
  hoare unchanged (addModuleImport m n) (fun _ => unchanged).
Proof.
  intros s fresh s' Hs Hrun.
  destruct (addModuleImport_spec m n s) as (s1 & Hadd & _ & Hview & _).
  rewrite Hadd in Hrun. injection Hrun as _ <-. unfold unitViewIs in *. congruence.
Qed.

Lemma emit_unitView (text : string) (e : ImportEmission) :
  hoare unchanged
    (emitModuleImportDeclaration text ;; modify (note_import e))
    (fun _ => unchanged).
Proof.
  intros s u s' Hs Hrun. apply bind_Normal in Hrun as (? & s1 & H1 & H2).
  unfold emitModuleImportDeclaration, modify, unitViewIs in *. by simplify_eq.
Qed.

Lemma writeNamedImports_unitView (m : string) (elements : list ts.ImportSpecifier)
    (acc : string * bool * list string) :
  hoare unchanged (writeNamedImports m elements acc) (fun _ => unchanged).
Proof.
  revert acc. induction elements as [|element rest IH]; intros acc.
  - by apply hoare_ret.
  - simpl. eapply hoare_bind; [|intros acc'; apply IH].
    destruct acc as [[text flag] written]. unfold writeNamedImport.
    eapply hoare_bind; [apply addModuleImport_unitView|].
    intros [|]; by apply hoare_ret.
Qed.

Lemma writeImportDeclaration_unitView (node : ts.Node) :
  hoare unchanged (writeImportDeclaration node) (fun _ => unchanged).
Proof.
  unfold writeImportDeclaration.
  destruct (ts.stmt node) as [[importClause|] moduleSpecifier| | | |];
    try (by apply hoare_ret).
  eapply hoare_bind with (Q := fun _ => unchanged).
  - unfold writeDefaultBinding.
    destruct (ts.clause_name importClause) as [name|]; [|by apply hoare_ret].
    eapply hoare_bind; [apply addModuleImport_unitView|].
    intros [|]; by apply hoare_ret.
  - intros [[text hasDefaultBinding] written].
    eapply hoare_bind with (Q := fun _ => unchanged).
    + unfold writeNamedBindings.
      destruct (ts.namedBindings importClause) as [[name|elements]|].
      * eapply hoare_bind; [apply addModuleImport_unitView|].
        intros [|]; by apply hoare_ret.
      * eapply hoare_bind; [apply writeNamedImports_unitView|].
        intros [[text' flag'] written']. by apply hoare_ret.
      * by apply hoare_ret.
    + intros [[text' hasNamedBindings] written'].
      destruct (hasDefaultBinding || hasNamedBindings);
        [apply emit_unitView | by apply hoare_ret].
Qed.

End UnitViewFrame.

Section Order.

Variable host : Host.
Variable program : ts.Program.
Variable dependencies : ts.SourceFile -> Dependencies.
Variable bundle : Bundle.
Hypothesis Hwf : wellFormedProgram program dependencies = true.

Lemma unitsInvariant_view (s s' : BundleBuilder) :
  unitView s' = unitView s ->
  unitsInvariant program bundle s -> unitsInvariant program bundle s'.
Proof.
  unfold unitView, unitsInvariant, emittedNames. intros [= -> -> ->]. done.
Qed.

Lemma unitsEmitted_view (have : list string) (s s' : BundleBuilder) :
  unitView s' = unitView s ->
  unitsEmitted program bundle have s -> unitsEmitted program bundle have s'.
Proof.
  intros Hview [Hinv Hhave]. split; [by apply (unitsInvariant_view s)|].
  unfold unitView, emittedNames in *. injection Hview as _ _ ->. done.
Qed.

Lemma unitsEmitted_weaken (have have' : list string) (s : BundleBuilder) :
  (forall name, name ∈ have' -> name ∈ have) ->
  unitsEmitted program bundle have s -> unitsEmitted program bundle have' s.
Proof. intros Hsub [Hinv Hhave]. split; [done|]. intros name Hn. by apply Hhave, Hsub. Qed.

(** Adding a file whose imports are emitted keeps the unit side consistent. *)
Lemma unitsEmitted_addSourceFile (have : list string) (file : ts.SourceFile)
    (s s' : BundleBuilder) (u : unit) :
  file ∈ ts.getSourceFiles program ->
  (ts.fileName file ∈ emittedNames s \/
   forall B, imports program (ts.fileName file) B -> B ∈ have) ->
  unitsEmitted program bundle have s ->
  addSourceFile bundle file s = Normal (u, s') ->
  unitsEmitted program bundle have s' /\
  (isCodeSourceFile file = true -> ts.fileName file ∈ emittedNames s').
Proof.
  intros Hin Hready [(Hseen & Hord & Hbody) Hhave] Hrun.
  destruct (isCodeSourceFile file) eqn:Hcode.
  - destruct (program_file_wellFormed program dependencies Hwf file Hin) as [Hfile _].
    destruct (processImportExports_spec bundle file Hfile) as (editText & Hedit & _).
    rewrite (addSourceFile_code bundle file editText s Hcode Hedit) in Hrun.
    injection Hrun as _ Hs'. subst s'.
    assert (Hnames : forall x, emittedNames (note_unit file x) =
                               emittedNames x ++ [ts.fileName file]).
    { intros x. unfold emittedNames. simpl. by rewrite map_app. }
    split; [split; [split; [|split]|]|].
    + intros name. rewrite Hnames. simpl. rewrite hasProperty_insert, elem_of_app.
      rewrite list_elem_of_singleton, Hseen. unfold emittedNames. simpl. tauto.
    + rewrite Hnames. apply ordered_snoc; [done|].
      destruct Hready as [?|Hready]; [by left|right].
      intros B HB. apply Hhave. by apply Hready.
    + simpl. by apply bodyText_snoc.
    + intros name Hn. rewrite Hnames. apply elem_of_app. left. by apply Hhave.
    + intros _. rewrite Hnames. apply elem_of_app. right. by apply list_elem_of_singleton.
  - split; [|done].
    apply (unitsEmitted_view have s); [|done].
    by apply (addSourceFile_declaration bundle file s s' u).
Qed.

(** One node of a dependency list: afterwards its internal target is
    emitted. *)
Lemma processImportNode_unitsEmitted (have : list string) (importNode : ts.Node) :
  resolvedImport program importNode = true ->
  (forall target B, codeTarget importNode = Some target ->
     imports program target B -> B ∈ have) ->
  hoare (unitsEmitted program bundle have)
    (processImportNode program bundle importNode)
    (fun _ => unitsEmitted program bundle (have ++ targets [importNode])).
Proof.
  intros Hres Hready s u s' Hinv Hrun.
  destruct (resolvedImport_cases program importNode Hres)
    as (d & Hd & [[Htarget Hcode]|(file & Htarget & Hcode & Hfile & Hname & Hin & Hfcode)]).
  - assert (Hview : unitView s' = unitView s).
    { rewrite processImportNode_external in Hrun by done.
      destruct (ts.stmt importNode) as [| importName moduleReference | | |];
        try (by apply (writeImportDeclaration_unitView (unitView s) importNode s u s')).
      apply bind_Normal in Hrun as (fresh & s1 & H1 & H2).
      pose proof (addModuleImport_unitView (unitView s) _ _ s fresh s1 eq_refl H1) as Hv.
      destruct fresh.
      - rewrite <- Hv. eapply (emit_unitView (unitView s1)); [|exact H2]. done.
      - unfold ret in H2. injection H2 as _ <-. exact Hv. }
    unfold targets. simpl. rewrite Htarget, app_nil_r.
    by apply (unitsEmitted_view have s).
  - rewrite (processImportNode_internal program bundle importNode d file) in Hrun by done.
    unfold targets. simpl. rewrite Htarget.
    destruct (Js.hasProperty (bundleImportedFiles s) (ts.fileName file)) eqn:Hseen; simpl in Hrun.
    + injection Hrun as _ <-. destruct Hinv as [Hinv Hhave]. split; [done|].
      intros name Hn. apply elem_of_app in Hn as [Hn|Hn]; [by apply Hhave|].
      apply list_elem_of_singleton in Hn as ->.
      destruct Hinv as (Hs & _). apply Hs. by rewrite <- Hname.
    + destruct (unitsEmitted_addSourceFile have file s s' u Hin) as [[Hinv' Hhave'] Hnew];
        try done.
      { right. intros B HB. apply (Hready (ts.decl_sourceFile d)); [done|].
        by rewrite <- Hname. }
      split; [done|]. intros name Hn.
      apply elem_of_app in Hn as [Hn|Hn]; [by apply Hhave'|].
      apply list_elem_of_singleton in Hn as ->. rewrite <- Hname. by apply Hnew.
Qed.


Lemma elem_of_targets (importNodes : list ts.Node) (target : string) :
  target ∈ targets importNodes <->
  exists node, node ∈ importNodes /\ codeTarget node = Some target.
Proof. unfold targets. apply list_elem_of_omap. Qed.

(** The nodes of one key. *)
Lemma importNodes_unitsEmitted (have : list string) (importNodes : list ts.Node) :
  forallb (resolvedImport program) importNodes = true ->
  (forall node target B, node ∈ importNodes -> codeTarget node = Some target ->
     imports program target B -> B ∈ have) ->
  hoare (unitsEmitted program bundle have)
    (forEach importNodes (processImportNode program bundle))
    (fun _ => unitsEmitted program bundle (have ++ targets importNodes)).
Proof.
  revert have. induction importNodes as [|node rest IH]; intros have Hres Hready.
  - apply hoare_ret. intros s. unfold targets. simpl. by rewrite app_nil_r.
  - simpl in Hres. apply andb_true_iff in Hres as [Hnode Hrest].
    simpl. eapply hoare_bind.
    + apply (processImportNode_unitsEmitted have node Hnode).
      intros target B. apply Hready. by left.
    + intros ?. eapply hoare_weaken.
      * apply (IH (have ++ targets [node]) Hrest).
        intros node' target B Hin Htarget Himp. apply elem_of_app. left.
        apply (Hready node' target B); [by right|done|done].
      * done.
      * intros ? s. simpl. unfold targets at 1. simpl.
        destruct (codeTarget node); simpl; by rewrite <- ?app_assoc, ?app_nil_r.
Qed.

(** When the keys listed so far cover their imports, a unit with a key is
    ready: what it imports is among the targets of the nodes seen. *)
Lemma covered_imports (done : Dependencies) (key B : string) :
  coversImports program done = true ->
  key ∈ map fst done ->
  imports program key B ->
  B ∈ allTargets done.
Proof.
  intros Hcov Hkey (file & node & Hfile & Hin & Hkind & Htarget).
  apply list_elem_of_fmap in Hkey as ([key' importNodes] & -> & Hentry). simpl in *.
  unfold coversImports in Hcov. rewrite forallb_forall in Hcov.
  pose proof Hentry as Hentry'. apply list_elem_of_In in Hentry'.
  specialize (Hcov _ Hentry'). simpl in Hcov. rewrite Hfile in Hcov.
  rewrite forallb_forall in Hcov. apply list_elem_of_In in Hin.
  specialize (Hcov _ Hin). rewrite Htarget, Hkind in Hcov. simpl in Hcov.
  apply bool_decide_eq_true in Hcov.
  apply list_elem_of_fmap in Hcov as (node' & Hsame & Hnode').
  unfold allTargets. apply list_elem_of_In, in_flat_map.
  exists (key', importNodes). split; [by apply list_elem_of_In|].
  apply list_elem_of_In, elem_of_targets. by exists node'.
Qed.

Lemma coversImports_app (d1 d2 : Dependencies) :
  coversImports program (d1 ++ d2) = coversImports program d1 && coversImports program d2.
Proof. unfold coversImports. apply forallb_app. Qed.

Lemma allTargets_app (d1 d2 : Dependencies) :
  allTargets (d1 ++ d2) = allTargets d1 ++ allTargets d2.
Proof. unfold allTargets. apply flat_map_app. Qed.

(** The keys of a dependency map, in turn. *)
Lemma traverseDependencies_unitsEmitted (done todo : Dependencies) :
  resolvedDependencies program todo = true ->
  coversImports program (done ++ todo) = true ->
  keysBottomUp (map fst done) todo = true ->
  hoare (unitsEmitted program bundle (allTargets done))
    (traverseDependencies program bundle todo)
    (fun _ => unitsEmitted program bundle (allTargets (done ++ todo))).
Proof.
  unfold traverseDependencies.
  revert done. induction todo as [|[depKey importNodes] todo IH]; intros done Hres Hcov Hkeys.
  - apply hoare_ret. intros s. by rewrite app_nil_r.
  - simpl in Hres. apply andb_true_iff in Hres as [Hnodes Hrest].
    simpl in Hkeys. apply andb_true_iff in Hkeys as [Hhere Hlater].
    simpl. eapply hoare_bind.
    + apply (importNodes_unitsEmitted (allTargets done) importNodes Hnodes).
      intros node target B Hin Htarget Himp.
      rewrite forallb_forall in Hhere. apply list_elem_of_In in Hin.
      specialize (Hhere _ Hin). rewrite Htarget in Hhere.
      apply bool_decide_eq_true in Hhere.
      rewrite coversImports_app in Hcov. apply andb_true_iff in Hcov as [Hcov _].
      by apply (covered_imports done target B).
    + intros ?. eapply hoare_weaken.
      * apply (IH (done ++ [(depKey, importNodes)])); [done| |].
        -- by rewrite <- app_assoc.
        -- by rewrite map_app.
      * intros s. rewrite allTargets_app. unfold allTargets at 2. simpl.
        by rewrite app_nil_r.
      * intros ? s. by rewrite <- app_assoc.
Qed.

(** One pass of the loop over the entry files. *)
Lemma entry_unitsInvariant (bundleSourceFile : ts.SourceFile) :
  bundleSourceFile ∈ ts.getSourceFiles program ->
  bottomUp program bundleSourceFile (dependencies bundleSourceFile) = true ->
  hoare (unitsInvariant program bundle)
    (traverseDependencies program bundle (dependencies bundleSourceFile) ;;
     addSourceFile bundle bundleSourceFile)
    (fun _ => unitsInvariant program bundle).
Proof.
  intros Hin Hbottom.
  destruct (program_file_wellFormed program dependencies Hwf _ Hin) as [_ Hres].
  unfold bottomUp in Hbottom. rewrite !andb_true_iff in Hbottom.
  destruct Hbottom as [[Hkeys Hcov] Hkey]. apply bool_decide_eq_true in Hkey.
  eapply hoare_bind.
  - eapply hoare_weaken.
    + by apply (traverseDependencies_unitsEmitted [] (dependencies bundleSourceFile)).
    + intros s Hinv. split; [done|]. intros name Hn. by apply elem_of_nil in Hn.
    + intros ? s H. exact H.
  - intros ? s u s' Hinv Hrun. simpl in Hinv.
    destruct (unitsEmitted_addSourceFile (allTargets (dependencies bundleSourceFile))
                bundleSourceFile s s' u Hin) as [[Hinv' _] _];
      try done.
    right. intros B HB. by apply (covered_imports _ (ts.fileName bundleSourceFile)).
Qed.

Lemma forEachBundleFile_unitsInvariant (fileNames : list string) (isBundleTsx : bool)
    (allDependencies : gmap string (list ts.Node)) :
  bottomUpProgram program dependencies = true ->
  hoare (unitsInvariant program bundle)
    (forEachBundleFile host program dependencies bundle fileNames isBundleTsx allDependencies)
    (fun _ => unitsInvariant program bundle).
Proof.
  intros Hbottom. revert isBundleTsx allDependencies.
  induction fileNames as [|fileName rest IH]; intros isBundleTsx allDependencies.
  - by apply hoare_ret.
  - simpl. destruct (ts.getSourceFile program _) as [file|] eqn:Hfile;
      [|by apply hoare_ret].
    destruct (getSourceFile_Some program _ _ Hfile) as [Hin _].
    assert (Hb : bottomUp program file (dependencies file) = true).
    { unfold bottomUpProgram in Hbottom. rewrite forallb_forall in Hbottom.
      apply Hbottom. by apply list_elem_of_In. }
    intros s outcome s' Hinv Hrun.
    apply bind_Normal in Hrun as (? & s1 & H1 & Hrun).
    apply bind_Normal in Hrun as (? & s2 & H2 & Hrun).
    eapply IH; [|exact Hrun].
    eapply (entry_unitsInvariant file Hin Hb s); [done|].
    apply bind_Normal. eexists _, s1. split; [exact H1 | exact H2].
Qed.

End Order.

Lemma unitsInvariant_reset (program : ts.Program) (bundle : Bundle) :
  unitsInvariant program bundle reset.
Proof.
  split; [|split; [apply ordered_nil | done]].
  intros name. unfold Js.hasProperty, emittedNames. simpl.
  rewrite lookup_empty, bool_decide_eq_false_2 by (by intros [? ?]).
  split; [done|]. intros H. by apply elem_of_nil in H.
Qed.

(** C2, as the code has it: for every pair of internal units A and B where A
    imports B, B is emitted strictly before the first emission of A, provided
    every dependency map lists its keys bottom-up (a unit after the units it
    imports, hence no import cycle) and covers the imports of its keys. The
    body is the edited text of the emitted units, in that order. *)
Theorem C2_dependencies_precede_dependents (host : Host) (program : ts.Program)
    (dependencies : ts.SourceFile -> Dependencies) (bundle : Bundle)
    (s0 : BundleBuilder) :
  wellFormedProgram program dependencies = true ->
  bottomUpProgram program dependencies = true ->
  exists result s',
    build host program dependencies bundle s0 = Normal (result, s') /\
    bodyText bundle (emittedUnits s') = Some (bundleCodeText s') /\
    forall A B, imports program A B -> A ∈ emittedNames s' ->
      emittedBefore B A (emittedNames s').
Proof.
  intros Hwf Hbottom.
  destruct (runs_build host program dependencies bundle Hwf s0) as (result & s' & Hrun).
  exists result, s'. split; [done|].
  pose proof Hrun as Hloop. apply build_Normal in Hloop as (outcome & Hloop & _).
  destruct (forEachBundleFile_unitsInvariant host program dependencies bundle Hwf
              (fileNames bundle) false ∅ Hbottom reset outcome s'
              (unitsInvariant_reset program bundle) Hloop) as (_ & Hord & Hbody).
  split; [done|]. intros A B Himp HA.
  apply list_elem_of_split_l in HA as (l1 & l2 & Heq & Hfirst).
  exists l1, l2. split; [done|]. split; [done|].
  by apply (Hord l1 A l2).
Qed.

Lemma C2_chain_witness :
  exists result s',
    build Examples.host Examples.chain Examples.chainDependencies
      (Examples.bundleOf ["a.ts"] Component) reset = Normal (result, s') /\
    bodyText (Examples.bundleOf ["a.ts"] Component) (emittedUnits s')
      = Some (bundleCodeText s') /\
    forall A B, imports Examples.chain A B -> A ∈ emittedNames s' ->
      emittedBefore B A (emittedNames s').
Proof.
  apply (C2_dependencies_precede_dependents Examples.host Examples.chain
           Examples.chainDependencies (Examples.bundleOf ["a.ts"] Component) reset).
  - reflexivity.
  - reflexivity.
Defined.

(** Of two units, the one that is in a prefix of the emission order where the
    other is not has the longer prefix. *)
Lemma prefix_elem_length (names p p' q q' : list string) (x : string) :
  names = p ++ p' -> names = q ++ q' -> x ∈ p -> x ∉ q ->
  (length q < length p)%nat.
Proof.
  intros Hp Hq Hin Hnot.
  destruct (decide (length p <= length q)%nat) as [Hle|Hgt]; [|lia].
  exfalso. apply Hnot.
  assert (Htake : p = take (length p) q).
  { rewrite <- (take_app_le q q') by done. rewrite <- Hq, Hp.
    by rewrite take_app_length. }
  rewrite Htake in Hin. apply elem_of_take in Hin as (i & Hi & _).
  by apply list_elem_of_lookup_2 in Hi.
Qed.

(** No emission order puts each unit of a cycle after the one it imports. *)
Lemma emittedBefore_cycle (a b c : string) (names : list string) :
  emittedBefore b a names -> emittedBefore c b names -> emittedBefore a c names ->
  False.
Proof.
  intros (l1 & l2 & Hl & Hal & Hbl) (m1 & m2 & Hm & Hbm & Hcm) (n1 & n2 & Hn & Hcn & Han).
  pose proof (prefix_elem_length names l1 _ m1 _ b Hl Hm Hbl Hbm).
  pose proof (prefix_elem_length names m1 _ n1 _ c Hm Hn Hcm Hcn).
  pose proof (prefix_elem_length names n1 _ l1 _ a Hn Hl Han Hal).
  lia.
Qed.

(** C2, as stated, fails on an import cycle: with a.ts importing b.ts, b.ts
    importing c.ts and c.ts importing a.ts, the units are emitted in the order
    c.ts, b.ts, a.ts, a.ts, so that a.ts, which c.ts imports, never comes
    before c.ts; and no order of emission would satisfy the three imports. *)
Lemma C2_cycle_breaks_order :
  (exists result s',
     build Examples.host Examples.cycle Examples.cycleDependencies
       (Examples.bundleOf ["a.ts"] Component) reset = Normal (result, s') /\
     status result = ts.Success /\
     emittedNames s' = ["c.ts"; "b.ts"; "a.ts"; "a.ts"] /\
     imports Examples.cycle "c.ts" "a.ts" /\
     ~ emittedBefore "a.ts" "c.ts" (emittedNames s')) /\
  imports Examples.cycle "a.ts" "b.ts" /\
  imports Examples.cycle "b.ts" "c.ts" /\
  (forall names : list string,
     ~ (emittedBefore "b.ts" "a.ts" names /\
        emittedBefore "c.ts" "b.ts" names /\
        emittedBefore "a.ts" "c.ts" names)).
Proof.
  split; [|split; [|split]].
  - eexists _, _. split; [vm_compute; reflexivity|].
    split; [reflexivity|]. split; [vm_compute; reflexivity|]. split.
    + exists Examples.cycleC, Examples.importA.
      split; [reflexivity|]. split; [|split; reflexivity].
      apply list_elem_of_In. simpl. tauto.
    + intros (l1 & l2 & Heq & Hfirst & Hin).
      change (emittedNames _) with ["c.ts"; "b.ts"; "a.ts"; "a.ts"] in Heq.
      destruct l1 as [|x l1].
      * by apply elem_of_nil in Hin.
      * injection Heq as <- _. apply Hfirst. by left.
  - exists Examples.cycleA, Examples.importB.
    split; [reflexivity|]. split; [|split; reflexivity].
    apply list_elem_of_In. simpl. tauto.
  - exists Examples.cycleB, Examples.importC.
    split; [reflexivity|]. split; [|split; reflexivity].
    apply list_elem_of_In. simpl. tauto.
  - intros names (H1 & H2 & H3). by apply (emittedBefore_cycle "a.ts" "b.ts" "c.ts" names).
Qed.
(** * Further properties of the code *)

(** ** [whiteOut] on arbitrary offsets *)

Lemma chars_js_substring (s : string) (a b : Z) :
  Js.chars (Js.substring s a b) =
    take (Nat.max (Js.clamp (String.length s) a) (Js.clamp (String.length s) b)
          - Nat.min (Js.clamp (String.length s) a) (Js.clamp (String.length s) b))
      (drop (Nat.min (Js.clamp (String.length s) a) (Js.clamp (String.length s) b))
         (Js.chars s)).
Proof. unfold Js.substring. apply chars_substring. Qed.

(** Whatever the offsets: the text up to [pos], a run of spaces, the text from
    [end_], each offset clamped into the text. *)
Lemma chars_whiteOut_any (pos end_ : Z) (text : string) :
  Js.chars (whiteOut pos end_ text) =
    take (Js.clamp (String.length text) pos) (Js.chars text)
    ++ replicate (Z.to_nat (end_ - pos)) Js.space
    ++ drop (Js.clamp (String.length text) end_) (Js.chars text).
Proof.
  unfold whiteOut, Js.for_lt, Js.substring_from.
  rewrite !chars_app, chars_spaces, !chars_js_substring. f_equal; [|f_equal].
  - unfold Js.clamp. replace (Z.to_nat 0) with 0%nat by done.
    rewrite !Nat.min_0_l, Nat.max_0_l, Nat.sub_0_r, drop_0. done.
  - unfold Js.clamp. rewrite Nat2Z.id, Nat.min_id.
    set (e := Nat.min (Z.to_nat end_) (String.length text)).
    replace (Nat.min e (String.length text)) with e by lia.
    replace (Nat.max e (String.length text)) with (String.length text) by lia.
    apply take_ge. rewrite length_drop, chars_length. lia.
Qed.

(** X1: whatever the offsets, [whiteOut] never returns a text shorter than
    its input, and with [pos = end_] it returns the text unchanged. *)
Theorem X1_whiteOut_never_shortens :
  (forall (pos end_ : Z) (text : string),
     (String.length text <= String.length (whiteOut pos end_ text))%nat) /\
  (forall (pos : Z) (text : string), whiteOut pos pos text = text).
Proof.
  split.
  - intros pos end_ text. rewrite <- (chars_length (whiteOut _ _ _)), chars_whiteOut_any.
    rewrite !length_app, length_take, length_replicate, length_drop, chars_length.
    unfold Js.clamp. lia.
  - intros pos text. apply chars_inj. rewrite chars_whiteOut_any.
    rewrite Z.sub_diag. simpl. apply take_drop.
Qed.

(** X2: with the offsets reversed ([end_ <= pos], both in the text),
    [whiteOut] blanks nothing: it returns the text up to [pos] followed by the
    text from [end_], so that the characters between are repeated. *)
Theorem X2_whiteOut_reversed_span (pos end_ : Z) (text : string) :
  0 <= end_ -> end_ <= pos -> pos <= Z.of_nat (String.length text) ->
  Js.chars (whiteOut pos end_ text) =
    take (Z.to_nat pos) (Js.chars text) ++ drop (Z.to_nat end_) (Js.chars text) /\
  String.length (whiteOut pos end_ text) =
    (String.length text + Z.to_nat (pos - end_))%nat.
Proof.
  intros H0 H1 H2.
  assert (Hchars : Js.chars (whiteOut pos end_ text) =
                   take (Z.to_nat pos) (Js.chars text) ++ drop (Z.to_nat end_) (Js.chars text)).
  { rewrite chars_whiteOut_any. unfold Js.clamp.
    replace (Z.to_nat (end_ - pos)) with 0%nat by lia. simpl.
    f_equal; f_equal; lia. }
  split; [done|].
  rewrite <- (chars_length (whiteOut _ _ _)), Hchars.
  rewrite length_app, length_take, length_drop, chars_length. lia.
Qed.

Lemma X2_whiteOut_reversed_witness :
  Js.chars (whiteOut 4 1 "abcdef") =
    take (Z.to_nat 4) (Js.chars "abcdef") ++ drop (Z.to_nat 1) (Js.chars "abcdef") /\
  String.length (whiteOut 4 1 "abcdef") =
    (String.length "abcdef" + Z.to_nat (4 - 1))%nat.
Proof. apply (X2_whiteOut_reversed_span 4 1 "abcdef"); simpl; lia. Defined.

(** ** Blanking composes *)

Lemma string_ext (s t : string) :
  (forall i, charAt s i = charAt t i) -> s = t.
Proof.
  intros H. apply chars_inj. apply list_eq. intros i.
  specialize (H i). unfold charAt in H. by rewrite !chars_get in H.
Qed.

Lemma charAt_whiteOut (pos end_ : Z) (text : string) (i : nat) :
  is_span text pos end_ ->
  charAt (whiteOut pos end_ text) i =
    if inSpan pos end_ i then Some Js.space else charAt text i.
Proof.
  intros Hspan. unfold inSpan.
  destruct ((pos <=? Z.of_nat i) && (Z.of_nat i <? end_)) eqn:Hin.
  - apply andb_true_iff in Hin as [H1 H2]. apply Z.leb_le in H1. apply Z.ltb_lt in H2.
    by apply whiteOut_inside.
  - apply whiteOut_outside; [done|].
    apply andb_false_iff in Hin as [H|H]; [apply Z.leb_gt in H | apply Z.ltb_ge in H]; lia.
Qed.

(** X3: blanking is idempotent, and blanking two spans of a text gives the
    same text in either order. *)
Theorem X3_whiteOut_composes (text : string) (p1 e1 p2 e2 : Z) :
  is_span text p1 e1 -> is_span text p2 e2 ->
  whiteOut p1 e1 (whiteOut p1 e1 text) = whiteOut p1 e1 text /\
  whiteOut p1 e1 (whiteOut p2 e2 text) = whiteOut p2 e2 (whiteOut p1 e1 text).
Proof.
  intros H1 H2.
  assert (H1' : is_span (whiteOut p2 e2 text) p1 e1).
  { apply (is_span_length text); [by apply whiteOut_length | done]. }
  assert (H2' : is_span (whiteOut p1 e1 text) p2 e2).
  { apply (is_span_length text); [by apply whiteOut_length | done]. }
  assert (H1'' : is_span (whiteOut p1 e1 text) p1 e1).
  { apply (is_span_length text); [by apply whiteOut_length | done]. }
  split; apply string_ext; intros i.
  - rewrite !charAt_whiteOut by done. by destruct (inSpan p1 e1 i).
  - rewrite !charAt_whiteOut by done.
    by destruct (inSpan p1 e1 i), (inSpan p2 e2 i).
Qed.

Lemma X3_whiteOut_composes_witness :
  whiteOut 0 6 (whiteOut 0 6 "import x;export y;") = whiteOut 0 6 "import x;export y;" /\
  whiteOut 0 6 (whiteOut 9 15 "import x;export y;")
    = whiteOut 9 15 (whiteOut 0 6 "import x;export y;").
Proof.
  apply (X3_whiteOut_composes "import x;export y;" 0 6 9 15);
    unfold is_span; simpl; lia.
Defined.

(** ** What [processImportExports] leaves alone *)

Lemma unblanked_node_kept (bundle : Bundle) (file : ts.SourceFile) (node : ts.Node) :
  wellFormedFile file = true ->
  node ∈ ts.statements file ->
  blankedSpan bundle node = None ->
  exists editText,
    processImportExports bundle file = Normal editText /\
    forall i : nat, ts.pos node <= Z.of_nat i < ts.end_ node ->
      charAt editText i = charAt (ts.text file) i.
Proof.
  intros Hwf Hin Hnone.
  destruct (processImportExports_at bundle file node Hwf Hin)
    as (editText & Hrun & _ & Hchars).
  exists editText. split; [done|]. intros i Hi. rewrite (Hchars i Hi).
  unfold blanks. by rewrite Hnone.
Qed.

(** X4: under Library packaging no export modifier is stripped: the text of
    every top-level statement that is not an import or export statement is
    unchanged in the edited body. *)
Theorem X4_library_keeps_declarations (bundle : Bundle) (file : ts.SourceFile)
    (node : ts.Node) :
  getPackageType (package (config bundle)) = Library ->
  wellFormedFile file = true ->
  node ∈ ts.statements file ->
  isImportOrExport node = false ->
  exists editText,
    processImportExports bundle file = Normal editText /\
    forall i : nat, ts.pos node <= Z.of_nat i < ts.end_ node ->
      charAt editText i = charAt (ts.text file) i.
Proof.
  intros Htype Hwf Hin Hkind. apply unblanked_node_kept; [done|done|].
  unfold blankedSpan. rewrite Hkind, Htype. done.
Qed.

Lemma X4_library_keeps_witness :
  exists editText,
    processImportExports (Examples.bundleOf ["e.ts"] Library) Examples.exportsFile
      = Normal editText /\
    forall i : nat,
      ts.pos Examples.exportedFunction <= Z.of_nat i < ts.end_ Examples.exportedFunction ->
      charAt editText i = charAt (ts.text Examples.exportsFile) i.
Proof.
  apply (X4_library_keeps_declarations (Examples.bundleOf ["e.ts"] Library)
           Examples.exportsFile Examples.exportedFunction).
  - reflexivity.
  - reflexivity.
  - apply list_elem_of_In. simpl. tauto.
  - reflexivity.
Defined.

(** X5: under Component packaging, a namespace declaration named as the
    package namespace keeps its export modifier, and a declaration that is
    not exported is not touched: their text is unchanged in the edited
    body. *)
Theorem X5_component_keeps_package_namespace (bundle : Bundle) (file : ts.SourceFile)
    (node : ts.Node) :
  wellFormedFile file = true ->
  node ∈ ts.statements file ->
  isImportOrExport node = false ->
  ts.stmt node = ts.ModuleDeclaration (getPackageNamespace (package (config bundle)))
  \/ isExported node = false ->
  exists editText,
    processImportExports bundle file = Normal editText /\
    forall i : nat, ts.pos node <= Z.of_nat i < ts.end_ node ->
      charAt editText i = charAt (ts.text file) i.
Proof.
  intros Hwf Hin Hkind Hcase. apply unblanked_node_kept; [done|done|].
  unfold blankedSpan. rewrite Hkind.
  destruct (bool_decide _); [|done].
  destruct Hcase as [Hstmt|Hexp].
  - rewrite Hstmt, String.eqb_refl. done.
  - rewrite Hexp. destruct (ts.stmt node); try done. by rewrite andb_false_r.
Qed.

Lemma X5_component_keeps_witness :
  exists editText,
    processImportExports
      {| name := "out"; fileNames := ["e.ts"];
         config := {| outDir := None;
                      package := {| getPackageType := Component;
                                    getPackageNamespace := "Other" |} |} |}
      Examples.exportsFile = Normal editText /\
    forall i : nat,
      ts.pos Examples.exportedNamespace <= Z.of_nat i < ts.end_ Examples.exportedNamespace ->
      charAt editText i = charAt (ts.text Examples.exportsFile) i.
Proof.
  apply (X5_component_keeps_package_namespace
           {| name := "out"; fileNames := ["e.ts"];
              config := {| outDir := None;
                           package := {| getPackageType := Component;
                                         getPackageNamespace := "Other" |} |} |}
           Examples.exportsFile Examples.exportedNamespace).
  - reflexivity.
  - apply list_elem_of_In. simpl. tauto.
  - reflexivity.
  - left. reflexivity.
Defined.

(** ** The first bundler's [editImportStatements] *)

Lemma editImportStatements_fold (file : ts.SourceFile) :
  Bundler.editImportStatements file =
    fold_left (fun editText node =>
                 if isImportOrExport node
                 then whiteOut (ts.pos node) (ts.end_ node) editText
                 else editText)
      (ts.statements file) (ts.text file).
Proof. reflexivity. Qed.

(** X6: on a file all of whose import and export statements resolve, the
    second bundler under Library packaging edits the text exactly as the
    first bundler did: every import and export statement blanked, nothing
    else. *)
Theorem X6_library_edit_agrees_with_first_bundler (bundle : Bundle)
    (file : ts.SourceFile) :
  getPackageType (package (config bundle)) = Library ->
  wellFormedFile file = true ->
  (forall node, node ∈ ts.statements file -> isImportOrExport node = true ->
     is_Some (getSymbolFromNode node)) ->
  processImportExports bundle file = Normal (Bundler.editImportStatements file).
Proof.
  intros Htype Hwf Hres. rewrite editImportStatements_fold.
  unfold processImportExports, wellFormedFile in *.
  apply andb_true_iff in Hwf as [Hnodes _].
  revert Hnodes Hres. generalize (ts.text file) at 2 3.
  generalize (ts.text file) as text0.
  induction (ts.statements file) as [|node rest IH]; intros text0 text Hnodes Hres.
  - done.
  - simpl in Hnodes. apply andb_true_iff in Hnodes as [Hnode Hrest].
    simpl. rewrite (processChild_blankedSpan bundle text0) by done.
    assert (Hspan : blankedSpan bundle node =
                    if isImportOrExport node
                    then Some (ts.pos node, ts.end_ node) else None).
    { unfold blankedSpan. destruct (isImportOrExport node) eqn:Hkind.
      - destruct (Hres node) as [symbol ->]; [by left|done|done].
      - by rewrite Htype. }
    rewrite Hspan.
    replace (match (if isImportOrExport node
                    then Some (ts.pos node, ts.end_ node) else None) with
             | Some (p, e) => whiteOut p e text
             | None => text
             end)
      with (if isImportOrExport node
            then whiteOut (ts.pos node) (ts.end_ node) text else text)
      by (by destruct (isImportOrExport node)).
    apply (IH text0); [done|]. intros n Hn. apply Hres. by right.
Qed.

Lemma X6_library_edit_witness :
  processImportExports (Examples.bundleOf ["a.ts"] Library) Examples.fileA
    = Normal (Bundler.editImportStatements Examples.fileA).
Proof.
  apply (X6_library_edit_agrees_with_first_bundler
           (Examples.bundleOf ["a.ts"] Library) Examples.fileA).
  - reflexivity.
  - reflexivity.
  - intros node Hin Hkind. apply list_elem_of_In in Hin. simpl in Hin.
    destruct Hin as [<-|[<-|[<-|[]]]]; try (eexists; reflexivity).
    discriminate Hkind.
Defined.

Lemma editImportStatements_chars (text0 : string) (nodes : list ts.Node) (text : string) :
  forallb (wellFormedNode text0) nodes = true ->
  String.length text = String.length text0 ->
  String.length
    (fold_left (fun editText node =>
                  if isImportOrExport node
                  then whiteOut (ts.pos node) (ts.end_ node) editText
                  else editText) nodes text) = String.length text0 /\
  forall i,
    charAt
      (fold_left (fun editText node =>
                    if isImportOrExport node
                    then whiteOut (ts.pos node) (ts.end_ node) editText
                    else editText) nodes text) i =
    if existsb (fun node => isImportOrExport node
                            && inSpan (ts.pos node) (ts.end_ node) i) nodes
    then Some Js.space else charAt text i.
Proof.
  revert text. induction nodes as [|node rest IH]; intros text Hwf Hlen.
  - done.
  - simpl in Hwf. apply andb_true_iff in Hwf as [Hnode Hrest]. simpl.
    assert (Hspan : is_span text (ts.pos node) (ts.end_ node)).
    { apply (is_span_length text0); [done|]. by apply wellFormedNode_span. }
    set (next := if isImportOrExport node
                 then whiteOut (ts.pos node) (ts.end_ node) text else text).
    assert (Hnext : String.length next = String.length text0).
    { subst next. destruct (isImportOrExport node); [|done].
      by rewrite whiteOut_length. }
    destruct (IH next Hrest Hnext) as [Hl Hc]. split; [done|].
    intros i. rewrite Hc.
    destruct (existsb _ rest); [by rewrite orb_true_r|]. rewrite orb_false_r.
    subst next. destruct (isImportOrExport node); simpl; [|done].
    by apply charAt_whiteOut.
Qed.

(** X7: the first bundler's [editImportStatements] keeps the length of the
    text and replaces every top-level import, import-equals and export
    statement by spaces, whether or not its module resolves; the text of the
    other statements is unchanged. *)
Theorem X7_first_bundler_blanks_every_import (file : ts.SourceFile) (node : ts.Node) :
  wellFormedFile file = true ->
  node ∈ ts.statements file ->
  String.length (Bundler.editImportStatements file) = String.length (ts.text file) /\
  forall i : nat, ts.pos node <= Z.of_nat i < ts.end_ node ->
    charAt (Bundler.editImportStatements file) i =
      if isImportOrExport node then Some Js.space else charAt (ts.text file) i.
Proof.
  intros Hwf Hin. rewrite editImportStatements_fold.
  unfold wellFormedFile in Hwf. apply andb_true_iff in Hwf as [Hnodes Hcons].
  destruct (editImportStatements_chars (ts.text file) (ts.statements file) (ts.text file)
              Hnodes eq_refl) as [Hlen Hchars].
  split; [done|]. intros i Hi. rewrite Hchars.
  apply list_elem_of_split in Hin as (l1 & l2 & Hsplit). rewrite Hsplit in *.
  destruct (consecutive_split (ts.text file) l1 l2 node Hnodes Hcons) as [H1 H2].
  rewrite existsb_app. simpl.
  assert (Hout : forall l, (forall a, a ∈ l -> ~ (ts.pos a <= Z.of_nat i < ts.end_ a)) ->
                 existsb (fun n => isImportOrExport n
                                   && inSpan (ts.pos n) (ts.end_ n) i) l = false).
  { intros l Hl. apply not_true_is_false. intros Hex.
    apply existsb_exists in Hex as (a & Ha & Hb).
    apply andb_true_iff in Hb as [_ Hb]. unfold inSpan in Hb.
    apply andb_true_iff in Hb as [Hb1 Hb2]. apply Z.leb_le in Hb1. apply Z.ltb_lt in Hb2.
    apply (Hl a); [by apply list_elem_of_In | lia]. }
  rewrite (Hout l1), (Hout l2).
  - rewrite orb_false_r. simpl. unfold inSpan.
    replace (ts.pos node <=? Z.of_nat i) with true by (symmetry; apply Z.leb_le; lia).
    replace (Z.of_nat i <? ts.end_ node) with true by (symmetry; apply Z.ltb_lt; lia).
    by rewrite andb_true_r.
  - intros b Hb. specialize (H2 b Hb). lia.
  - intros a Ha. specialize (H1 a Ha). lia.
Qed.

Lemma X7_first_bundler_witness :
  String.length (Bundler.editImportStatements Examples.unknownFile)
    = String.length (ts.text Examples.unknownFile) /\
  forall i : nat,
    ts.pos Examples.importUnknown <= Z.of_nat i < ts.end_ Examples.importUnknown ->
    charAt (Bundler.editImportStatements Examples.unknownFile) i =
      if isImportOrExport Examples.importUnknown
      then Some Js.space else charAt (ts.text Examples.unknownFile) i.
Proof.
  apply (X7_first_bundler_blanks_every_import Examples.unknownFile Examples.importUnknown).
  - reflexivity.
  - apply list_elem_of_In. simpl. tauto.
Defined.

(** ** The result of [build] *)

(** The loop runs to its end only when every entry resolves, and then
    [isBundleTsx] tells whether an entry is a JSX file. *)
Lemma forEachBundleFile_inr (host : Host) (program : ts.Program)
    (dependencies : ts.SourceFile -> Dependencies) (bundle : Bundle)
    (fileNames : list string) (isBundleTsx tsx : bool)
    (allDependencies : gmap string (list ts.Node)) (s s' : BundleBuilder) :
  forEachBundleFile host program dependencies bundle fileNames isBundleTsx allDependencies s
    = Normal (inr tsx, s') ->
  length (entryFiles host program fileNames) = length fileNames /\
  tsx = isBundleTsx || someEntryIsJsx host program fileNames.
Proof.
  revert isBundleTsx allDependencies s.
  induction fileNames as [|fileName rest IH]; intros isBundleTsx allDependencies s.
  - simpl. unfold ret. intros H. simplify_eq. by rewrite orb_false_r.
  - simpl. unfold entryFiles, someEntryIsJsx, entryFiles. simpl.
    destruct (ts.getSourceFile program _) as [file|].
    + intros H. apply bind_Normal in H as (? & s1 & _ & H).
      apply bind_Normal in H as (? & s2 & _ & H).
      apply IH in H as [Hlen ->]. simpl. split; [by f_equal|].
      unfold someEntryIsJsx. by destruct (bool_decide _), isBundleTsx.
    + unfold ret. intros H. simplify_eq.
Qed.

(** The loop leaves [build] early only at an entry that does not resolve. *)
Lemma forEachBundleFile_inl_missing (host : Host) (program : ts.Program)
    (dependencies : ts.SourceFile -> Dependencies) (bundle : Bundle)
    (fileNames : list string) (isBundleTsx : bool)
    (allDependencies : gmap string (list ts.Node)) (s s' : BundleBuilder)
    (failure : BundleResult) :
  forEachBundleFile host program dependencies bundle fileNames isBundleTsx allDependencies s
    = Normal (inl failure, s') ->
  exists fileName,
    fileName ∈ fileNames /\
    ts.getSourceFile program (getCanonicalFileName host (normalizeSlashes host fileName))
      = None /\
    failure = sourceFileNotFound (getCanonicalFileName host (normalizeSlashes host fileName)).
Proof.
  revert isBundleTsx allDependencies s.
  induction fileNames as [|fileName rest IH]; intros isBundleTsx allDependencies s.
  - simpl. unfold ret. intros H. simplify_eq.
  - simpl. destruct (ts.getSourceFile program _) as [file|] eqn:Hfile.
    + intros H. apply bind_Normal in H as (? & s1 & _ & H).
      apply bind_Normal in H as (? & s2 & _ & H).
      apply IH in H as (f & Hin & Hnone & ->). exists f. split; [by right|done].
    + unfold ret. intros H. simplify_eq. exists fileName. split; [by left|done].
Qed.

(** X8: a result of [build] is exactly one of two: a success, with no
    diagnostics and a bundle file whose path is the bundle file path followed
    by its extension, ".ts" or ".tsx"; or a failure for an entry of the
    bundle that is not a source file of the program, with no bundle file. *)
Theorem X8_build_result_shape (host : Host) (program : ts.Program)
    (dependencies : ts.SourceFile -> Dependencies) (bundle : Bundle)
    (s0 s' : BundleBuilder) (result : BundleResult) :
  build host program dependencies bundle s0 = Normal (result, s') ->
  (status result = ts.Success /\ errors result = None /\
   exists file,
     bundleSource result = Some file /\
     (extension file = ".ts" \/ extension file = ".tsx") /\
     path file = bundleFilePath host bundle +:+ extension file /\
     bundle_text file = assemble bundle (bundleImportText s') (bundleCodeText s')) \/
  (status result = ts.DiagnosticsPresent_OutputsSkipped /\
   bundleSource result = None /\
   exists fileName,
     fileName ∈ fileNames bundle /\
     ts.getSourceFile program (getCanonicalFileName host (normalizeSlashes host fileName))
       = None /\
     result = sourceFileNotFound
                (getCanonicalFileName host (normalizeSlashes host fileName))).
Proof.
  intros Hrun. apply build_Normal in Hrun as ([failure|isBundleTsx] & Hloop & Hresult).
  - right. apply forEachBundleFile_inl_missing in Hloop as (f & Hin & Hnone & ->).
    simpl in Hresult. subst result. split; [done|]. split; [done|]. by exists f.
  - left. simpl in Hresult. subst result. split; [done|]. split; [done|].
    eexists. split; [done|]. simpl. split; [|done].
    destruct isBundleTsx; [by right | by left].
Qed.

Lemma X8_build_result_witness :
  exists result s',
    build Examples.host Examples.chain Examples.chainDependencies
      (Examples.bundleOf ["a.ts"] Component) reset = Normal (result, s') /\
    ((status result = ts.Success /\ errors result = None /\
      exists file,
        bundleSource result = Some file /\
        (extension file = ".ts" \/ extension file = ".tsx") /\
        path file =
          bundleFilePath Examples.host (Examples.bundleOf ["a.ts"] Component)
          +:+ extension file /\
        bundle_text file =
          assemble (Examples.bundleOf ["a.ts"] Component)
            (bundleImportText s') (bundleCodeText s')) \/
     (status result = ts.DiagnosticsPresent_OutputsSkipped /\
      bundleSource result = None /\
      exists fileName,
        fileName ∈ fileNames (Examples.bundleOf ["a.ts"] Component) /\
        ts.getSourceFile Examples.chain
          (getCanonicalFileName Examples.host (normalizeSlashes Examples.host fileName))
          = None /\
        result = sourceFileNotFound
                   (getCanonicalFileName Examples.host
                      (normalizeSlashes Examples.host fileName)))).
Proof.
  destruct (build Examples.host Examples.chain Examples.chainDependencies
              (Examples.bundleOf ["a.ts"] Component) reset)
    as [[result s']|e] eqn:Hrun.
  - exists result, s'. split; [reflexivity|].
    exact (X8_build_result_shape _ _ _ _ _ _ _ Hrun).
  - vm_compute in Hrun. discriminate.
Defined.

(** X9: the extension of a successful build is ".tsx" exactly when one of the
    entry files of the bundle is a JSX file; the files reached only as
    dependencies do not count. *)
Theorem X9_extension_follows_entries (host : Host) (program : ts.Program)
    (dependencies : ts.SourceFile -> Dependencies) (bundle : Bundle)
    (s0 s' : BundleBuilder) (result : BundleResult) (file : BundleFile) :
  build host program dependencies bundle s0 = Normal (result, s') ->
  bundleSource result = Some file ->
  extension file =
    if someEntryIsJsx host program (fileNames bundle) then ".tsx" else ".ts".
Proof.
  intros Hrun Hfile.
  apply build_Normal in Hrun as ([failure|isBundleTsx] & Hloop & Hresult).
  - apply forEachBundleFile_inl in Hloop as (f & ->). simpl in Hresult.
    subst result. discriminate.
  - apply forEachBundleFile_inr in Hloop as [_ ->]. simpl in Hresult.
    subst result. simpl in Hfile. injection Hfile as <-. done.
Qed.

Lemma X9_extension_witness :
  exists result s' file,
    build Examples.host Examples.withView Examples.viewDependencies
      (Examples.bundleOf ["main.ts"; "v.tsx"] Component) reset = Normal (result, s') /\
    bundleSource result = Some file /\
    extension file = ".tsx".
Proof.
  destruct (build Examples.host Examples.withView Examples.viewDependencies
              (Examples.bundleOf ["main.ts"; "v.tsx"] Component) reset)
    as [[result s']|e] eqn:Hrun.
  - destruct (bundleSource result) as [file|] eqn:Hfile.
    + exists result, s', file. split; [reflexivity|]. split; [exact Hfile|].
      exact (X9_extension_follows_entries _ _ _ _ _ _ _ _ Hrun Hfile).
    + vm_compute in Hrun. injection Hrun as <- _. discriminate.
  - vm_compute in Hrun. discriminate.
Defined.

(** X10: under Component packaging the output text of a successful build is
    the preamble followed by the body, with nothing between, before or
    after. *)
Theorem X10_component_text_unwrapped (host : Host) (program : ts.Program)
    (dependencies : ts.SourceFile -> Dependencies) (bundle : Bundle)
    (s0 s' : BundleBuilder) (result : BundleResult) (file : BundleFile) :
  getPackageType (package (config bundle)) = Component ->
  build host program dependencies bundle s0 = Normal (result, s') ->
  bundleSource result = Some file ->
  bundle_text file = bundleImportText s' +:+ bundleCodeText s'.
Proof.
  intros Htype Hrun Hfile.
  apply build_Normal in Hrun as ([failure|isBundleTsx] & Hloop & Hresult).
  - apply forEachBundleFile_inl in Hloop as (f & ->). simpl in Hresult.
    subst result. discriminate.
  - simpl in Hresult. subst result. simpl in Hfile. injection Hfile as <-. simpl.
    unfold assemble. by rewrite Htype.
Qed.

Lemma X10_component_text_witness :
  exists result s' file,
    build Examples.host Examples.chain Examples.chainDependencies
      (Examples.bundleOf ["a.ts"] Component) reset = Normal (result, s') /\
    bundleSource result = Some file /\
    bundle_text file = bundleImportText s' +:+ bundleCodeText s'.
Proof.
  destruct (build Examples.host Examples.chain Examples.chainDependencies
              (Examples.bundleOf ["a.ts"] Component) reset)
    as [[result s']|e] eqn:Hrun.
  - destruct (bundleSource result) as [file|] eqn:Hfile.
    + exists result, s', file. split; [reflexivity|]. split; [exact Hfile|].
      exact (X10_component_text_unwrapped Examples.host Examples.chain
               Examples.chainDependencies (Examples.bundleOf ["a.ts"] Component)
               reset s' result file eq_refl Hrun Hfile).
    + vm_compute in Hrun. injection Hrun as <- _. discriminate.
  - vm_compute in Hrun. discriminate.
Defined.

(** X11: on a well-formed program, when every entry file name of the bundle
    (none included) resolves to a source file, [build] returns a success. *)
Theorem X11_build_succeeds_when_entries_resolve (host : Host) (program : ts.Program)
    (dependencies : ts.SourceFile -> Dependencies) (bundle : Bundle)
    (s0 : BundleBuilder) :
  wellFormedProgram program dependencies = true ->
  (forall fileName, fileName ∈ fileNames bundle ->
     is_Some (ts.getSourceFile program
                (getCanonicalFileName host (normalizeSlashes host fileName)))) ->
  exists file s',
    build host program dependencies bundle s0 =
      Normal ({| status := ts.Success; errors := None; bundleSource := Some file |}, s').
Proof.
  intros Hwf Hall.
  destruct (runs_build host program dependencies bundle Hwf s0) as (result & s' & Hrun).
  pose proof Hrun as Hloop.
  apply build_Normal in Hloop as ([failure|isBundleTsx] & Hloop & Hresult).
  - apply forEachBundleFile_inl_missing in Hloop as (f & Hin & Hnone & _).
    destruct (Hall f Hin) as [file Hfile]. congruence.
  - simpl in Hresult. subst result. by eexists _, s'.
Qed.

Lemma X11_build_succeeds_witness :
  exists file s',
    build Examples.host Examples.chain Examples.chainDependencies
      (Examples.bundleOf ["a.ts"] Library) reset =
      Normal ({| status := ts.Success; errors := None; bundleSource := Some file |}, s').
Proof.
  apply (X11_build_succeeds_when_entries_resolve Examples.host Examples.chain
           Examples.chainDependencies (Examples.bundleOf ["a.ts"] Library) reset).
  - reflexivity.
  - intros fileName Hin. apply list_elem_of_singleton in Hin as ->. by eexists.
Defined.

(** ** What reaches the body, and how often *)




Section Emission.

Variable program : ts.Program.
Variable bundle : Bundle.







End Emission.








(** ** An entry follows the units of its dependency map *)



Section EntryOrder.

Variable program : ts.Program.
Variable bundle : Bundle.




End EntryOrder.




(** ** Errors of the loop over the dependencies *)

(** X15: a node of a dependency list whose module name gives no symbol, or a
    symbol without declarations, makes [build] throw (a property read of
    [undefined] in [isCodeModule]) instead of returning a diagnostic: here
    for the first node of the first entry file. *)
Theorem X15_unresolved_dependency_throws (host : Host) (program : ts.Program)
    (dependencies : ts.SourceFile -> Dependencies) (bundle : Bundle)
    (fileName : string) (rest : list string) (file : ts.SourceFile)
    (depKey : string) (importNode : ts.Node) (importNodes : list ts.Node)
    (d : Dependencies) (s0 : BundleBuilder) :
  fileNames bundle = fileName :: rest ->
  ts.getSourceFile program (getCanonicalFileName host (normalizeSlashes host fileName))
    = Some file ->
  dependencies file = (depKey, importNode :: importNodes) :: d ->
  (getSymbolFromNode importNode = None \/
   exists symbol,
     getSymbolFromNode importNode = Some symbol /\ ts.getDeclarations symbol = []) ->
  build host program dependencies bundle s0 = Throw TypeError.
Proof.
  intros Hnames Hfile Hdeps Hsymbol.
  assert (Hthrow : isCodeModule (getSymbolFromNode importNode) = Throw TypeError).
  { unfold isCodeModule, firstDeclaration.
    destruct Hsymbol as [->|(symbol & -> & ->)]; done. }
  unfold build, bind, modify. rewrite Hnames. simpl. rewrite Hfile.
  unfold bind, traverseDependencies. rewrite Hdeps. simpl.
  unfold bind, processImportNode, bind, lift. by rewrite Hthrow.
Qed.

Lemma X15_unresolved_dependency_witness :
  build Examples.host {| ts.getSourceFiles := [Examples.unknownFile] |}
    (fun _ => [("u.ts", [Examples.importUnknown])])
    (Examples.bundleOf ["u.ts"] Component) reset = Throw TypeError.
Proof.
  apply (X15_unresolved_dependency_throws Examples.host
           {| ts.getSourceFiles := [Examples.unknownFile] |}
           (fun _ => [("u.ts", [Examples.importUnknown])])
           (Examples.bundleOf ["u.ts"] Component)
           "u.ts" [] Examples.unknownFile "u.ts" Examples.importUnknown [] [] reset).
  - reflexivity.
  - reflexivity.
  - reflexivity.
  - left. reflexivity.
Defined.

(** X16: the branch of [getImportModuleName] for an entity name is not
    reached from the loop of [build], as its comment says: where the loop
    step completes on an [ImportEqualsDeclaration], the module reference is an
    external module reference; an alias of an entity name has no symbol and
    the step throws. *)
Theorem X16_entity_name_branch_not_reached (program : ts.Program) (bundle : Bundle)
    (importNode : ts.Node) (importName : string) (moduleReference : ts.ModuleReference)
    (s : BundleBuilder) :
  ts.stmt importNode = ts.ImportEqualsDeclaration importName moduleReference ->
  match moduleReference with
  | ts.ExternalModuleReference _ => True
  | ts.EntityName _ => processImportNode program bundle importNode s = Throw TypeError
  end.
Proof.
  intros Hstmt. destruct moduleReference as [expression|entity]; [done|].
  unfold processImportNode, bind, lift, isCodeModule, firstDeclaration,
    getSymbolFromNode, getExternalModuleName.
  by rewrite Hstmt.
Qed.

Lemma X16_entity_name_witness :
  processImportNode Examples.chain (Examples.bundleOf [] Component)
    Examples.exportedAlias reset = Throw TypeError.
Proof.
  exact (X16_entity_name_branch_not_reached Examples.chain (Examples.bundleOf [] Component)
           Examples.exportedAlias "y" (ts.EntityName "X.Y") reset eq_refl).
Defined.

(** ** What the loop writes into the preamble *)

(** X17: an [import x = require('m')] of a module that is no code module is
    written again verbatim, followed by a line feed, exactly when the pair
    (m, x) was not registered; afterwards the pair is registered, unless [m]
    or [x] is [__proto__], for which nothing is recorded; the body is
    untouched. *)
Theorem X17_import_equals_written_once (program : ts.Program) (bundle : Bundle)
    (importNode : ts.Node) (importName : string) (moduleReference : ts.ModuleReference)
    (s : BundleBuilder) :
  ts.stmt importNode = ts.ImportEqualsDeclaration importName moduleReference ->
  isCodeModule (getSymbolFromNode importNode) = Normal false ->
  exists s',
    processImportNode program bundle importNode s = Normal (tt, s') /\
    bundleImportText s' =
      (if registered (getImportModuleName moduleReference) importName s
       then bundleImportText s
       else bundleImportText s +:+ (ts.getText importNode +:+ Js.LF)) /\
    registered (getImportModuleName moduleReference) importName s' =
      registered (getImportModuleName moduleReference) importName s
      || records (getImportModuleName moduleReference) importName s /\
    unitView s' = unitView s.
Proof.
  intros Hstmt Hcode. rewrite processImportNode_external by done. rewrite Hstmt.
  destruct (addModuleImport_spec (getImportModuleName moduleReference) importName s)
    as (s1 & Hadd & Hreg & Hview & Htext & _).
  assert (Hregistered :
            registered (getImportModuleName moduleReference) importName s1 =
              registered (getImportModuleName moduleReference) importName s
              || records (getImportModuleName moduleReference) importName s).
  { by rewrite Hreg, !bool_decide_eq_true_2 by done. }
  unfold bind. rewrite Hadd.
  destruct (registered (getImportModuleName moduleReference) importName s); simpl.
  - exists s1. done.
  - eexists. split; [done|]. simpl. rewrite Htext. split; [done|]. split; [|done].
    exact Hregistered.
Qed.

Lemma X17_import_equals_witness :
  exists s',
    processImportNode Examples.chain (Examples.bundleOf [] Component)
      (Examples.statement 0 "import fs = require('fs');" 0 []
         (ts.ImportEqualsDeclaration "fs" (ts.ExternalModuleReference Examples.fs)))
      reset = Normal (tt, s') /\
    bundleImportText s' = "import fs = require('fs');" +:+ Js.LF.
Proof.
  destruct (X17_import_equals_written_once Examples.chain (Examples.bundleOf [] Component)
              (Examples.statement 0 "import fs = require('fs');" 0 []
                 (ts.ImportEqualsDeclaration "fs" (ts.ExternalModuleReference Examples.fs)))
              "fs" (ts.ExternalModuleReference Examples.fs) reset eq_refl eq_refl)
    as (s' & Hrun & Htext & _).
  exists s'. split; [exact Hrun | exact Htext].
Defined.

Lemma pickFresh_ext (p q r r' : string -> bool) (elements : list ts.ImportSpecifier) :
  (forall n, p n = q n) -> (forall n, r n = r' n) ->
  pickFresh p r elements = pickFresh q r' elements.
Proof.
  revert p q. induction elements as [|element rest IH]; intros p q Hpq Hr; [done|].
  simpl. rewrite Hpq. destruct (q (ts.spec_name element)).
  - by apply IH.
  - f_equal. apply IH; [|done]. intros n. by rewrite Hpq, Hr.
Qed.

Lemma concat_cons (sep x : string) (l : list string) :
  String.concat sep (x :: l) =
    x +:+ (if bool_decide (l = []) then "" else sep) +:+ String.concat sep l.
Proof. destruct l; simpl; [by rewrite string_app_empty_r | done]. Qed.

Lemma join_step (text x : string) (has : bool) (l : list string) :
  (text +:+ (if has then ", " else "") +:+ x)
    +:+ (if true && negb (bool_decide (l = [])) then ", " else "")
    +:+ String.concat ", " l =
  text +:+ (if has && negb (bool_decide (x :: l = [])) then ", " else "")
       +:+ String.concat ", " (x :: l).
Proof.
  rewrite concat_cons, (bool_decide_eq_false_2 (x :: l = [])) by done.
  rewrite andb_true_r. destruct (bool_decide (l = [])); simpl negb; cbv iota;
    by rewrite ?string_app_assoc.
Qed.

Lemma pickFresh_cons (p r : string -> bool) (element : ts.ImportSpecifier)
    (rest : list ts.ImportSpecifier) :
  pickFresh p r (element :: rest) =
    if p (ts.spec_name element) then pickFresh p r rest
    else element
         :: pickFresh (fun n => p n || (String.eqb n (ts.spec_name element) && r n))
              r rest.
Proof. reflexivity. Qed.

Lemma writeNamedImports_cons (m : string) (element : ts.ImportSpecifier)
    (rest : list ts.ImportSpecifier) (acc : string * bool * list string)
    (s : BundleBuilder) :
  writeNamedImports m (element :: rest) acc s =
    match writeNamedImport m acc element s with
    | Normal (acc', s1) => writeNamedImports m rest acc' s1
    | Throw e => Throw e
    end.
Proof. reflexivity. Qed.

(** One element of the named imports: appended, after a comma when it is not
    the first, unless its name is registered. *)
Lemma writeNamedImport_spec (m : string) (text : string) (has : bool)
    (written : list string) (element : ts.ImportSpecifier) (s : BundleBuilder) :
  exists s1,
    writeNamedImport m (text, has, written) element s =
      Normal (if registered m (ts.spec_name element) s then (text, has, written)
              else (text +:+ (if has then ", " else "") +:+ renderSpecifier element,
                    true, written ++ [ts.spec_name element]), s1) /\
    (forall m' n', registered m' n' s1 =
       registered m' n' s
       || (bool_decide (m' = m) && bool_decide (n' = ts.spec_name element)
           && records m (ts.spec_name element) s)) /\
    unitView s1 = unitView s /\
    bundleImportText s1 = bundleImportText s /\
    emittedImports s1 = emittedImports s /\
    (forall m' n', records m' n' s1 = records m' n' s).
Proof.
  destruct (addModuleImport_spec m (ts.spec_name element) s)
    as (s1 & Hadd & Hfacts).
  exists s1. split; [|exact Hfacts].
  unfold writeNamedImport, bind. rewrite Hadd.
  destruct (registered m (ts.spec_name element) s); [done|].
  unfold renderSpecifier.
  destruct (ts.propertyName element), has; simpl; by rewrite ?string_app_assoc.
Qed.

(** After a call for [name], the registry of the module holds [name] too when
    the call records it. *)
Lemma registered_after_call (m name : string) (s s1 : BundleBuilder) :
  (forall m' n', registered m' n' s1 =
     registered m' n' s
     || (bool_decide (m' = m) && bool_decide (n' = name) && records m name s)) ->
  forall n, registered m n s1 =
            registered m n s || (String.eqb n name && records m n s).
Proof.
  intros Hreg n. rewrite Hreg, (bool_decide_eq_true_2 (m = m)) by done. simpl.
  f_equal. destruct (String.eqb_spec n name) as [->|Hne].
  - by rewrite bool_decide_eq_true_2.
  - by rewrite bool_decide_eq_false_2.
Qed.

Lemma registered_after_calls (m name : string) (names : list string)
    (s s1 s' : BundleBuilder) :
  (forall m' n', registered m' n' s1 =
     registered m' n' s
     || (bool_decide (m' = m) && bool_decide (n' = name) && records m name s)) ->
  (forall m' n', records m' n' s1 = records m' n' s) ->
  (forall m' n', registered m' n' s' =
     registered m' n' s1
     || (bool_decide (m' = m) && records m n' s1 && bool_decide (n' ∈ names))) ->
  forall m' n', registered m' n' s' =
    registered m' n' s
    || (bool_decide (m' = m) && records m n' s && bool_decide (n' ∈ name :: names)).
Proof.
  intros Hreg Hrec Hs' m' n'. rewrite Hs', Hreg, Hrec, <- orb_assoc. f_equal.
  destruct (bool_decide (m' = m)); [|done]. simpl.
  destruct (decide (n' = name)) as [->|Hne].
  - rewrite (bool_decide_eq_true_2 (name = name)) by done.
    rewrite (bool_decide_eq_true_2 (name ∈ name :: names)) by apply list_elem_of_here.
    by destruct (records m name s).
  - rewrite (bool_decide_eq_false_2 (n' = name)) by done. simpl. f_equal.
    apply bool_decide_ext. rewrite elem_of_cons. tauto.
Qed.

(** The loop over the named imports: the new elements are appended, separated
    by commas, and registered. *)
Lemma writeNamedImports_spec (m : string) (elements : list ts.ImportSpecifier) :
  forall (text : string) (has : bool) (written : list string) (s : BundleBuilder),
  exists s',
    writeNamedImports m elements (text, has, written) s =
      Normal ((text
               +:+ (if has && negb (bool_decide
                                      (pickFresh (fun n => registered m n s)
                                         (fun n => records m n s) elements = []))
                    then ", " else "")
               +:+ String.concat ", "
                     (map renderSpecifier
                        (pickFresh (fun n => registered m n s)
                           (fun n => records m n s) elements)),
               has || negb (bool_decide
                              (pickFresh (fun n => registered m n s)
                                 (fun n => records m n s) elements = [])),
               written ++ map ts.spec_name
                            (pickFresh (fun n => registered m n s)
                               (fun n => records m n s) elements)), s') /\
    (forall m' n', registered m' n' s' =
       registered m' n' s
       || (bool_decide (m' = m) && records m n' s
           && bool_decide (n' ∈ map ts.spec_name elements))) /\
    unitView s' = unitView s /\
    bundleImportText s' = bundleImportText s /\
    emittedImports s' = emittedImports s /\
    (forall m' n', records m' n' s' = records m' n' s).
Proof.
  induction elements as [|element rest IH]; intros text has written s.
  - exists s. simpl. rewrite andb_false_r, orb_false_r, app_nil_r.
    rewrite !string_app_empty_r. split; [done|]. split; [|done].
    intros m' n'. by rewrite andb_false_r, orb_false_r.
  - destruct (writeNamedImport_spec m text has written element s)
      as (s1 & Hstep & Hreg & Hview & Htext & Himports & Hrec).
    pose proof (registered_after_call m _ s s1 Hreg) as Hext.
    rewrite writeNamedImports_cons, Hstep, pickFresh_cons.
    destruct (registered m (ts.spec_name element) s) eqn:Hregistered.
    + destruct (IH text has written s1)
        as (s' & Hrun & Hreg' & Hview' & Htext' & Himports' & Hrec').
      rewrite (pickFresh_ext _ (fun n => registered m n s) _ (fun n => records m n s))
        in Hrun.
      2:{ intros n. rewrite Hext.
          destruct (String.eqb_spec n (ts.spec_name element)) as [->|Hne];
            [by rewrite Hregistered | by rewrite orb_false_r]. }
      2:{ intros n. apply Hrec. }
      exists s'. split; [exact Hrun|].
      split; [by apply (registered_after_calls m _ _ s s1 s')|].
      split; [congruence|]. split; [congruence|]. split; [congruence|].
      intros m' n'. by rewrite Hrec', Hrec.
    + destruct (IH (text +:+ (if has then ", " else "") +:+ renderSpecifier element)
                  true (written ++ [ts.spec_name element]) s1)
        as (s' & Hrun & Hreg' & Hview' & Htext' & Himports' & Hrec').
      rewrite (pickFresh_ext _ (fun n => registered m n s
                                         || (String.eqb n (ts.spec_name element)
                                             && records m n s))
                 _ (fun n => records m n s))
        in Hrun; [|exact Hext|intros n; apply Hrec].
      exists s'. split.
      2:{ split; [by apply (registered_after_calls m _ _ s s1 s')|].
          split; [congruence|]. split; [congruence|]. split; [congruence|].
          intros m' n'. by rewrite Hrec', Hrec. }
      rewrite Hrun.
      set (fresh := pickFresh _ _ rest).
      change (map renderSpecifier (element :: fresh))
        with (renderSpecifier element :: map renderSpecifier fresh).
      change (map ts.spec_name (element :: fresh))
        with (ts.spec_name element :: map ts.spec_name fresh).
      rewrite <- app_assoc.
      rewrite (bool_decide_eq_false_2 (element :: fresh = [])) by done.
      rewrite orb_true_r, andb_true_r.
      assert (Hjoin := join_step text (renderSpecifier element) has
                         (map renderSpecifier fresh)).
      rewrite (bool_decide_eq_false_2 (_ :: _ = [])), andb_true_r in Hjoin by done.
      assert (Hnil : bool_decide (map renderSpecifier fresh = [])
                     = bool_decide (fresh = [])).
      { apply bool_decide_ext. by destruct fresh. }
      rewrite Hnil in Hjoin. rewrite Hjoin. done.
Qed.

(** The default binding: written when it is not registered. *)
Lemma writeDefaultBinding_spec (m : string) (importClause : ts.ImportClause)
    (s : BundleBuilder) :
  exists s1,
    writeDefaultBinding m importClause s =
      Normal (match ts.clause_name (freshBindings m importClause s) with
              | Some name => ("import " +:+ name, true, [name])
              | None => ("import ", false, [])
              end, s1) /\
    (forall n, registered m n s1 =
               afterDefault (fun n => registered m n s) (fun n => records m n s)
                 importClause n) /\
    (forall m' n', registered m' n' s1 =
       registered m' n' s
       || (bool_decide (m' = m) && records m n' s
           && bool_decide (n' ∈ option_list (ts.clause_name importClause)))) /\
    unitView s1 = unitView s /\
    bundleImportText s1 = bundleImportText s /\
    emittedImports s1 = emittedImports s /\
    (forall m' n', records m' n' s1 = records m' n' s).
Proof.
  unfold writeDefaultBinding, freshBindings, freshClause, afterDefault. simpl.
  destruct (ts.clause_name importClause) as [name|].
  - destruct (addModuleImport_spec m name s)
      as (s1 & Hadd & Hreg & Hview & Htext & Himports & Hrec).
    exists s1. split; [|split; [|split; [|done]]].
    + unfold bind. rewrite Hadd. by destruct (registered m name s).
    + apply (registered_after_call m name s s1 Hreg).
    + apply (registered_after_calls m name [] s s1 s1 Hreg Hrec).
      intros m' n'. rewrite (bool_decide_eq_false_2 (n' ∈ [])) by apply not_elem_of_nil.
      by rewrite andb_false_r, orb_false_r.
  - exists s. split; [done|]. split; [|split; [|done]].
    + intros n. by rewrite orb_false_r.
    + intros m' n'. simpl. by rewrite andb_false_r, orb_false_r.
Qed.

(** The names of the namespace import or of the named imports. *)
Lemma writeNamedBindings_spec (m : string) (importClause : ts.ImportClause)
    (text : string) (hasDefaultBinding : bool) (written : list string)
    (s : BundleBuilder) :
  exists s',
    writeNamedBindings m importClause text hasDefaultBinding written s =
      Normal (match ts.namedBindings importClause with
              | Some (ts.NamespaceImport name) =>
                  if registered m name s then (text, false, written)
                  else (text +:+ (if hasDefaultBinding then ", " else "")
                             +:+ "* as " +:+ name, true, written ++ [name])
              | Some (ts.NamedImports elements) =>
                  (text +:+ (if hasDefaultBinding then ", " else "") +:+ "{ "
                        +:+ String.concat ", "
                              (map renderSpecifier
                                 (pickFresh (fun n => registered m n s)
                                    (fun n => records m n s) elements))
                        +:+ " }",
                   negb (bool_decide (pickFresh (fun n => registered m n s)
                                        (fun n => records m n s) elements = [])),
                   written ++ map ts.spec_name
                                (pickFresh (fun n => registered m n s)
                                   (fun n => records m n s) elements))
              | None => (text, false, written)
              end, s') /\
    (forall m' n', registered m' n' s' =
       registered m' n' s
       || (bool_decide (m' = m) && records m n' s
           && bool_decide (n' ∈ match ts.namedBindings importClause with
                                | Some (ts.NamespaceImport name) => [name]
                                | Some (ts.NamedImports elements) =>
                                    map ts.spec_name elements
                                | None => []
                                end))) /\
    unitView s' = unitView s /\
    bundleImportText s' = bundleImportText s /\
    emittedImports s' = emittedImports s /\
    (forall m' n', records m' n' s' = records m' n' s).
Proof.
  unfold writeNamedBindings.
  destruct (ts.namedBindings importClause) as [[name|elements]|].
  - destruct (addModuleImport_spec m name s)
      as (s1 & Hadd & Hreg & Hview & Htext & Himports & Hrec).
    exists s1. split; [|split; [|done]].
    + unfold bind. rewrite Hadd.
      destruct (registered m name s); [done|]. simpl.
      destruct hasDefaultBinding; by rewrite ?string_app_assoc.
    + apply (registered_after_calls m name [] s s1 s1 Hreg Hrec).
      intros m' n'. rewrite (bool_decide_eq_false_2 (n' ∈ [])) by apply not_elem_of_nil.
      by rewrite andb_false_r, orb_false_r.
  - destruct (writeNamedImports_spec m elements
                ((if hasDefaultBinding then text +:+ ", " else text) +:+ "{ ")
                false written s)
      as (s' & Hrun & Hfacts).
    exists s'. split; [|exact Hfacts].
    unfold bind. rewrite Hrun. unfold ret. simpl.
    destruct hasDefaultBinding; by rewrite ?string_app_assoc.
  - exists s. split; [done|]. split; [|done].
    intros m' n'. rewrite (bool_decide_eq_false_2 (n' ∈ [])) by apply not_elem_of_nil.
    by rewrite andb_false_r, orb_false_r.
Qed.

Lemma freshBindings_namedBindings (m : string) (importClause : ts.ImportClause)
    (s s1 : BundleBuilder) :
  (forall n, registered m n s1 =
             afterDefault (fun n => registered m n s) (fun n => records m n s)
               importClause n) ->
  (forall m' n', records m' n' s1 = records m' n' s) ->
  ts.namedBindings (freshBindings m importClause s) =
    match ts.namedBindings importClause with
    | Some (ts.NamespaceImport name) =>
        if registered m name s1 then None else Some (ts.NamespaceImport name)
    | Some (ts.NamedImports elements) =>
        Some (ts.NamedImports (pickFresh (fun n => registered m n s1)
                                 (fun n => records m n s1) elements))
    | None => None
    end.
Proof.
  intros Hafter Hrec. unfold freshBindings, freshClause. simpl.
  destruct (ts.namedBindings importClause) as [[name|elements]|]; [|do 2 f_equal|done].
  - by rewrite Hafter.
  - apply pickFresh_ext; [intros n; by rewrite Hafter | intros n; by rewrite Hrec].
Qed.

(** What [writeImportDeclaration] does for an import clause: it writes the
    statement of the bindings that are new, when there is one, and records
    their names. *)
Lemma writeImportDeclaration_spec (node : ts.Node) (importClause : ts.ImportClause)
    (moduleSpecifier : ts.Expression) (s : BundleBuilder) :
  ts.stmt node = ts.ImportDeclaration (Some importClause) moduleSpecifier ->
  exists s',
    writeImportDeclaration node s = Normal (tt, s') /\
    bundleImportText s' =
      (if hasBindings (freshBindings (ts.expr_text moduleSpecifier) importClause s)
       then bundleImportText s
            +:+ (renderImport
                   (freshBindings (ts.expr_text moduleSpecifier) importClause s)
                   (ts.expr_getText moduleSpecifier) +:+ Js.LF)
       else bundleImportText s) /\
    emittedImports s' =
      (if hasBindings (freshBindings (ts.expr_text moduleSpecifier) importClause s)
       then emittedImports s
            ++ [{| em_module := ts.expr_text moduleSpecifier;
                   em_bindings :=
                     clauseNames
                       (freshBindings (ts.expr_text moduleSpecifier) importClause s);
                   em_text :=
                     renderImport
                       (freshBindings (ts.expr_text moduleSpecifier) importClause s)
                       (ts.expr_getText moduleSpecifier) |}]
       else emittedImports s) /\
    (forall m' n', registered m' n' s' =
       registered m' n' s
       || (bool_decide (m' = ts.expr_text moduleSpecifier)
           && records (ts.expr_text moduleSpecifier) n' s
           && bool_decide (n' ∈ clauseNames importClause))) /\
    unitView s' = unitView s /\
    (forall m' n', records m' n' s' = records m' n' s).
Proof.
  intros Hstmt. set (m := ts.expr_text moduleSpecifier).
  destruct (writeDefaultBinding_spec m importClause s)
    as (s1 & H1 & Hafter & Hreg1 & Hview1 & Htext1 & Himports1 & Hrec1).
  pose proof (freshBindings_namedBindings m importClause s s1 Hafter Hrec1) as Hnamed.
  assert (Hregistered : forall s2 : BundleBuilder,
            (forall m' n', registered m' n' s2 =
               registered m' n' s1
               || (bool_decide (m' = m) && records m n' s1
                   && bool_decide (n' ∈ match ts.namedBindings importClause with
                                        | Some (ts.NamespaceImport name) => [name]
                                        | Some (ts.NamedImports elements) =>
                                            map ts.spec_name elements
                                        | None => []
                                        end))) ->
            forall m' n', registered m' n' s2 =
              registered m' n' s
              || (bool_decide (m' = m) && records m n' s
                  && bool_decide (n' ∈ clauseNames importClause))).
  { intros s2 Hreg2 m' n'. rewrite Hreg2, Hreg1, Hrec1, <- orb_assoc. f_equal.
    rewrite <- andb_orb_distrib_r. f_equal.
    rewrite <- bool_decide_or. apply bool_decide_ext.
    unfold clauseNames. by rewrite elem_of_app. }
  set (allNames := clauseNames importClause) in *. clearbody allNames.
  unfold writeImportDeclaration. rewrite Hstmt. fold m. unfold bind at 1. rewrite H1.
  set (fresh := freshBindings m importClause s) in *.
  unfold hasBindings, renderImport, clauseNames. rewrite Hnamed.
  destruct (ts.clause_name fresh) as [d|];
    [destruct (writeNamedBindings_spec m importClause ("import " +:+ d) true [d] s1)
       as (s2 & H2 & Hreg2 & Hview2 & Htext2 & Himports2 & Hrec2)
    |destruct (writeNamedBindings_spec m importClause "import " false [] s1)
       as (s2 & H2 & Hreg2 & Hview2 & Htext2 & Himports2 & Hrec2)];
    unfold bind at 1; rewrite H2;
    (destruct (ts.namedBindings importClause) as [[name|elements]|];
     [destruct (registered m name s1)| |]);
    try (match goal with
         | |- context [pickFresh ?p ?r elements] =>
             destruct (pickFresh p r elements) as [|element rest]
         end);
    simpl;
    (eexists; split; [done|]; simpl;
     rewrite ?Htext2, ?Htext1, ?Himports2, ?Himports1, ?string_app_assoc;
     split; [done|]; split; [done|];
     split; [exact (Hregistered _ Hreg2)|];
     split; [by rewrite <- Hview1, <- Hview2|];
     intros m' n'; by rewrite <- Hrec1, <- Hrec2).
Qed.

(** X18: for an import declaration with an import clause,
    [writeImportDeclaration] appends to the preamble one statement and a line
    feed when the clause has a binding that is new, and nothing otherwise. A
    binding is new when its name is not registered for the module and was
    not recorded by an earlier binding of the clause. The statement is
    [import], the new default binding, then [* as ns] or [{ a, b as c }] with
    the new named imports in order (after [, ] when there is a new default
    binding), then [from], the text of the module specifier and [;].
    Afterwards the names of the clause are registered, except where the
    module name or the binding name is [__proto__]; the body is unchanged. *)
Theorem X18_import_statement_written (node : ts.Node) (importClause : ts.ImportClause)
    (moduleSpecifier : ts.Expression) (s : BundleBuilder) :
  ts.stmt node = ts.ImportDeclaration (Some importClause) moduleSpecifier ->
  exists s',
    writeImportDeclaration node s = Normal (tt, s') /\
    bundleImportText s' =
      (if hasBindings (freshBindings (ts.expr_text moduleSpecifier) importClause s)
       then bundleImportText s
            +:+ (renderImport
                   (freshBindings (ts.expr_text moduleSpecifier) importClause s)
                   (ts.expr_getText moduleSpecifier) +:+ Js.LF)
       else bundleImportText s) /\
    (forall n, registered (ts.expr_text moduleSpecifier) n s' =
               registered (ts.expr_text moduleSpecifier) n s
               || (records (ts.expr_text moduleSpecifier) n s
                   && bool_decide (n ∈ clauseNames importClause))) /\
    unitView s' = unitView s.
Proof.
  intros Hstmt.
  destruct (writeImportDeclaration_spec node importClause moduleSpecifier s Hstmt)
    as (s' & Hrun & Htext & _ & Hreg & Hview & _).
  exists s'. split; [done|]. split; [done|]. split; [|done].
  intros n. by rewrite Hreg, bool_decide_eq_true_2.
Qed.

Lemma X18_import_statement_witness :
  (exists s',
     writeImportDeclaration Examples.importFsB reset = Normal (tt, s') /\
     bundleImportText s' =
       "import { readFile, writeFile as w } from 'fs';" +:+ Js.LF) /\
  (exists s1 s',
     writeImportDeclaration Examples.importFsA reset = Normal (tt, s1) /\
     writeImportDeclaration Examples.importFsB s1 = Normal (tt, s') /\
     bundleImportText s' =
       ("import { readFile } from 'fs';" +:+ Js.LF)
       +:+ ("import { writeFile as w } from 'fs';" +:+ Js.LF)).
Proof.
  split.
  - destruct (X18_import_statement_written Examples.importFsB
                {| ts.clause_name := None;
                   ts.namedBindings :=
                     Some (ts.NamedImports [Examples.specifier None "readFile";
                                            Examples.specifier (Some "writeFile") "w"]) |}
                Examples.fs reset eq_refl)
      as (s' & Hrun & Htext & _).
    exists s'. split; [exact Hrun | exact Htext].
  - exists (match writeImportDeclaration Examples.importFsA reset with
            | Normal (_, s1) => s1
            | Throw _ => reset
            end).
    eexists. split; [reflexivity|]. split; vm_compute; reflexivity.
Defined.

(** ** The maps that [build] only writes *)

(** X19: merging the dependencies of an entry never replaces the list recorded
    under a key: a key of [allDependencies] keeps its list, a new key gets the
    list of the entry's map. *)
Theorem X19_merge_keeps_first_list (sourceDependencies : Dependencies) :
  forall (allDependencies : gmap string (list ts.Node)) (key : string),
  mergeDependencies allDependencies sourceDependencies !! key =
    match allDependencies !! key with
    | Some importNodes => Some importNodes
    | None => firstUnder key sourceDependencies
    end.
Proof.
  unfold mergeDependencies, firstUnder.
  induction sourceDependencies as [|[mergeKey importNodes] rest IH];
    intros allDependencies key.
  - simpl. by destruct (allDependencies !! key).
  - simpl. rewrite IH. unfold Js.hasProperty.
    destruct (String.eqb_spec mergeKey key) as [->|Hne].
    + destruct (allDependencies !! key) as [nodes|] eqn:Hkey.
      * rewrite bool_decide_eq_true_2 by (by eexists). simpl. by rewrite Hkey.
      * rewrite bool_decide_eq_false_2 by (by intros [? ?]). simpl.
        by rewrite lookup_insert_eq.
    + destruct (bool_decide (is_Some (allDependencies !! mergeKey))); simpl; [done|].
      by rewrite lookup_insert_ne.
Qed.

(** X20: the merged map is only written: the loop over the entry files does
    the same, and leaves the same state, whatever [allDependencies] holds. *)
Theorem X20_merged_dependencies_unused (host : Host) (program : ts.Program)
    (dependencies : ts.SourceFile -> Dependencies) (bundle : Bundle)
    (fileNames : list string) :
  forall (isBundleTsx : bool) (all all' : gmap string (list ts.Node))
         (s : BundleBuilder),
  forEachBundleFile host program dependencies bundle fileNames isBundleTsx all s =
  forEachBundleFile host program dependencies bundle fileNames isBundleTsx all' s.
Proof.
  induction fileNames as [|fileName rest IH]; intros isBundleTsx all all' s; [done|].
  simpl. destruct (ts.getSourceFile program _) as [file|]; [|done].
  unfold bind. destruct (traverseDependencies _ _ _ _) as [[u1 s1]|e]; [|done].
  destruct (addSourceFile _ _ _) as [[u2 s2]|e]; [|done].
  apply IH.
Qed.

(** X21: a declaration file handed to [addSourceFile] adds nothing to the
    body or to the preamble; its text is recorded in [bundleSourceFiles]
    under its name, unless a text is recorded there already. *)
Theorem X21_declaration_file_kept_out_of_body (bundle : Bundle) (file : ts.SourceFile)
    (s : BundleBuilder) :
  isCodeSourceFile file = false ->
  exists s',
    addSourceFile bundle file s = Normal (tt, s') /\
    unitView s' = unitView s /\
    importView s' = importView s /\
    bundleSourceFiles s' =
      match bundleSourceFiles s !! ts.fileName file with
      | Some _ => bundleSourceFiles s
      | None => <[ts.fileName file := ts.text file]> (bundleSourceFiles s)
      end.
Proof.
  intros Hcode. unfold addSourceFile. rewrite Hcode.
  unfold bind, gets, Js.hasProperty.
  destruct (bundleSourceFiles s !! ts.fileName file) as [text|] eqn:Hlookup.
  - rewrite bool_decide_eq_true_2 by (by eexists). simpl. by exists s.
  - rewrite bool_decide_eq_false_2 by (by intros [? ?]). simpl. eexists. done.
Qed.

Lemma X21_declaration_file_witness :
  exists s',
    addSourceFile (Examples.bundleOf [] Component)
      {| ts.fileName := "node.d.ts"; ts.text := "declare module 'fs' { }";
         ts.sf_flags := ts.NodeFlags.DeclarationFile;
         ts.languageVariant := ts.Standard; ts.statements := [] |} reset
      = Normal (tt, s') /\
    bundleCodeText s' = "" /\
    bundleSourceFiles s' !! "node.d.ts" = Some "declare module 'fs' { }".
Proof.
  destruct (X21_declaration_file_kept_out_of_body (Examples.bundleOf [] Component)
              {| ts.fileName := "node.d.ts"; ts.text := "declare module 'fs' { }";
                 ts.sf_flags := ts.NodeFlags.DeclarationFile;
                 ts.languageVariant := ts.Standard; ts.statements := [] |} reset eq_refl)
    as (s' & Hrun & Hview & _ & Hsources).
  exists s'. split; [exact Hrun|]. split.
  - unfold unitView in Hview. by injection Hview as -> _ _.
  - rewrite Hsources. reflexivity.
Defined.

(** ** The preamble binds no pair twice *)



Lemma ordinaryPair_records (m n : string) (s : BundleBuilder) :
  ordinaryPair (m, n) = true -> records m n s = true.
Proof.
  unfold ordinaryPair, records. simpl. intros H.
  apply andb_true_iff in H as [-> ->]. done.
Qed.









Section Preamble.

Variable program : ts.Program.
Variable bundle : Bundle.





End Preamble.




(** ** The modifier that is blanked, and the registry *)

(** X22: under Component packaging the span blanked for a declaration flagged
    [Export] is that of its first modifier, whatever its kind, and the rest
    of the declaration is unchanged: in [declare export var k: number;] the
    [declare] keyword is blanked and [export] stays. *)
Theorem X22_first_modifier_blanked_whatever_its_kind (bundle : Bundle)
    (file : ts.SourceFile) (node : ts.Node) (m : ts.Modifier) (rest : list ts.Modifier) :
  getPackageType (package (config bundle)) = Component ->
  wellFormedFile file = true ->
  node ∈ ts.statements file ->
  isImportOrExport node = false ->
  isExported node = true ->
  ts.modifiers node = m :: rest ->
  (forall name_getText, ts.stmt node = ts.ModuleDeclaration name_getText ->
     name_getText <> getPackageNamespace (package (config bundle))) ->
  exists editText,
    processImportExports bundle file = Normal editText /\
    (forall i : nat, ts.mod_pos m <= Z.of_nat i < ts.mod_end m ->
       charAt editText i = Some Js.space) /\
    (forall i : nat, ts.pos node <= Z.of_nat i < ts.end_ node ->
       ~ (ts.mod_pos m <= Z.of_nat i < ts.mod_end m) ->
       charAt editText i = charAt (ts.text file) i).
Proof. apply first_modifier_blanked. Qed.

Lemma X22_first_modifier_witness :
  (exists editText,
     processImportExports (Examples.bundleOf ["k.ts"] Component)
       Examples.declaredExportFile = Normal editText /\
     (forall i : nat, 0 <= Z.of_nat i < 7 -> charAt editText i = Some Js.space) /\
     (forall i : nat,
        ts.pos Examples.declaredExport <= Z.of_nat i < ts.end_ Examples.declaredExport ->
        ~ (0 <= Z.of_nat i < 7) ->
        charAt editText i = charAt (ts.text Examples.declaredExportFile) i)) /\
  ts.mod_kind (Examples.declareKeyword 0) = ts.SyntaxKind.DeclareKeyword /\
  exportModifier Examples.declaredExport = Some (Examples.exportKeyword 7) /\
  processImportExports (Examples.bundleOf ["k.ts"] Component) Examples.declaredExportFile
    = Normal "        export var k: number;".
Proof.
  split; [|repeat split; reflexivity].
  apply (X22_first_modifier_blanked_whatever_its_kind
           (Examples.bundleOf ["k.ts"] Component) Examples.declaredExportFile
           Examples.declaredExport (Examples.declareKeyword 0) [Examples.exportKeyword 7]).
  - reflexivity.
  - reflexivity.
  - apply list_elem_of_In. simpl. tauto.
  - reflexivity.
  - reflexivity.
  - reflexivity.
  - intros name_getText H. discriminate H.
Defined.

(** X23: in a sequence of calls of [addModuleImport], a call answers [true]
    exactly when its pair was not registered at the start and no earlier call
    of the sequence recorded it, and the pairs registered at the end are those
    registered at the start and those recorded. A call records its pair when
    neither the module name nor the import name is [__proto__]: for such a
    pair the answer is [true] on the first call only. *)
Theorem X23_registering_answers_once_but_for_proto (calls : list (string * string))
    (s : BundleBuilder) :
  (exists answers s',
     registerAll calls s = Normal (answers, s') /\
     length answers = length calls /\
     (forall i m n, calls !! i = Some (m, n) ->
        answers !! i =
          Some (negb (registered m n s)
                && negb (records m n s && bool_decide ((m, n) ∈ take i calls)))) /\
     (forall m n, registered m n s' =
                  registered m n s || (records m n s && bool_decide ((m, n) ∈ calls)))) /\
  (forall m n, ordinaryPair (m, n) = true -> records m n s = true) /\
  (forall m n, Js.isProtoKey n = true -> records m n s = false) /\
  (forall n, Js.hasProperty (bundleModuleImports s) Js.protoKey = false ->
     records Js.protoKey n s = false).
Proof.
  split; [apply registerAll_spec|]. split; [|split].
  - intros m n. apply ordinaryPair_records.
  - intros m n Hn. unfold records. by rewrite Hn.
  - intros n Hs. unfold records. rewrite Hs. simpl. by rewrite andb_false_r.
Qed.
